(** * MBot: permission resolver, rate limiter, module registry, command router

    A shallow embedding of the core of the bot: packages [config],
    [userlevels], [security], [plugin], [commands] and [handlers].  Every Go
    package is a module below and keeps the names of the source.  Package
    level variables become fields of one [World]; a function that only
    reads is a function of the world, a function that writes returns the
    new world, and the handlers, which also talk to the IRC connection and
    can panic on a missing parameter, live in a small state-and-failure
    monad whose state carries the trace of everything they emitted. *)

From Stdlib Require Import ZArith String Ascii List Bool Lia Sorted.
From stdpp Require Import base option list gmap strings pretty fin_maps.

Local Open Scope Z_scope.
Local Open Scope string_scope.

(** ** [unicode/utf8]: where the runes of a text begin

    Go strings are byte strings and so are Rocq's.  Where Go walks a text
    rune by rune ([range] over a string, [strings.Fields],
    [strings.TrimSpace]) the bytes are decoded as UTF-8, and a byte that
    starts no valid encoding is read as [RuneError], U+FFFD, one byte
    wide. *)
Module utf8.

Definition between (lo hi : N) (c : ascii) : bool :=
  let b := N_of_ascii c in ((lo <=? b) && (b <=? hi))%N.

(** The bytes [cs], in order, lie in the ranges given with them. *)
Fixpoint accepted (ranges : list (N * N)) (s : string) : bool :=
  match ranges, s with
  | [], _ => true
  | (lo, hi) :: ranges', String c s' => between lo hi c && accepted ranges' s'
  | _ :: _, EmptyString => false
  end.

(** The size [DecodeRuneInString] gives for the head of [s], by the table
    [first] and the [acceptRanges] of the package; 0 where the head starts
    no valid encoding and the decoder answers [RuneError] with size 1, and
    for the empty text. *)
Definition decodeWidth (s : string) : nat :=
  match s with
  | EmptyString => 0
  | String c rest =>
      let b := N_of_ascii c in
      let tail := (128, 191)%N in
      if (b <? 128)%N then 1
      else if (b <? 194)%N then 0
      else if (b <? 224)%N then (if accepted [tail] rest then 2 else 0)
      else if (b <? 240)%N then
        let second := if (b =? 224)%N then (160, 191)%N
                      else if (b =? 237)%N then (128, 159)%N
                      else tail in
        if accepted [second; tail] rest then 3 else 0
      else if (b <? 245)%N then
        let second := if (b =? 240)%N then (144, 191)%N
                      else if (b =? 244)%N then (128, 143)%N
                      else tail in
        if accepted [second; tail; tail] rest then 4 else 0
      else 0
  end.

(** The encoding of [RuneError], which [WriteRune] writes for it. *)
Definition RuneError : string :=
  String (ascii_of_nat 239) (String (ascii_of_nat 191) (String (ascii_of_nat 189) "")).

(** [ValidString]: with [pending] bytes of the rune under way still to
    pass. *)
Fixpoint validFrom (s : string) (pending : nat) : bool :=
  match s with
  | EmptyString => true
  | String _ rest =>
      match pending with
      | S pending' => validFrom rest pending'
      | O =>
          match decodeWidth s with
          | O => false
          | S width' => validFrom rest width'
          end
      end
  end.

Definition ValidString (s : string) : bool := validFrom s 0.

End utf8.

(** ** The part of Go's [strings] package the bot calls

    Prefixes, suffixes, substrings and cut sets of ASCII bytes are matters
    of bytes.  White space is that of [unicode.IsSpace], recognised by its
    UTF-8 encodings.  Letter case is that of ASCII as long as the text is
    ASCII, which is the fast path of [ToLower] and of [EqualFold]; beyond
    it the case tables of package [unicode] decide, and they are a
    parameter, [Unicode]. *)
Module strings.

(** What the case tables of package [unicode] make of text that is not
    all ASCII.  The tables belong to the Go distribution. *)
Record Unicode := {
  (** [Map(unicode.ToLower, s)], which [ToLower] returns for a text
      with a byte of 0x80 or more *)
  MapToLower : string -> string;
  (** the rune loop of [EqualFold], entered with what is left of the two
      texts where one of them has a byte of 0x80 or more *)
  foldRunes : string -> string -> bool
}.

Definition isUpper (c : ascii) : bool :=
  let n := N_of_ascii c in ((65 <=? n) && (n <=? 90))%N.

Definition toLowerByte (c : ascii) : ascii :=
  if isUpper c then ascii_of_N (N_of_ascii c + 32) else c.

Definition isASCIIByte (c : ascii) : bool := (N_of_ascii c <? 128)%N.

Fixpoint isASCII (s : string) : bool :=
  match s with
  | EmptyString => true
  | String c s' => isASCIIByte c && isASCII s'
  end.

(** The ASCII path of [ToLower]. *)
Fixpoint lowerASCII (s : string) : string :=
  match s with
  | EmptyString => EmptyString
  | String c s' => String (toLowerByte c) (lowerASCII s')
  end.

Definition ToLower (u : Unicode) (s : string) : string :=
  if isASCII s then lowerASCII s else MapToLower u s.

(** [EqualFold]: byte by byte while both texts are ASCII, two bytes
    agreeing when they are equal or an upper case letter and its lower
    case; at the end the lengths must agree. *)
Fixpoint EqualFold (u : Unicode) (s t : string) : bool :=
  match s, t with
  | EmptyString, EmptyString => true
  | String sr s', String tr t' =>
      if negb (isASCIIByte sr && isASCIIByte tr) then foldRunes u s t
      else if Ascii.eqb (toLowerByte sr) (toLowerByte tr) then EqualFold u s' t'
      else false
  | _, _ => false
  end.

Fixpoint HasPrefix (s p : string) : bool :=
  match p, s with
  | EmptyString, _ => true
  | String a p', String b s' => Ascii.eqb a b && HasPrefix s' p'
  | String _ _, EmptyString => false
  end.

Fixpoint HasSuffix (s suf : string) : bool :=
  String.eqb s suf ||
  match s with
  | EmptyString => false
  | String _ s' => HasSuffix s' suf
  end.

Fixpoint dropBytes (n : nat) (s : string) : string :=
  match n, s with
  | O, _ => s
  | S n', String _ s' => dropBytes n' s'
  | S _, EmptyString => EmptyString
  end.

Definition TrimPrefix (s p : string) : string :=
  if HasPrefix s p then dropBytes (String.length p) s else s.

Fixpoint Contains (s sub : string) : bool :=
  HasPrefix s sub ||
  match s with
  | EmptyString => false
  | String _ s' => Contains s' sub
  end.

Fixpoint containsByte (cutset : string) (c : ascii) : bool :=
  match cutset with
  | EmptyString => false
  | String d cutset' => Ascii.eqb c d || containsByte cutset' c
  end.

(** [TrimRight s cutset] for a cut set of ASCII bytes, which is the only
    use the bot makes of it: the bytes of the cut set go from the end. *)
Fixpoint TrimRight (s cutset : string) : string :=
  match s with
  | EmptyString => EmptyString
  | String c s' =>
      match TrimRight s' cutset with
      | EmptyString => if containsByte cutset c then EmptyString else String c EmptyString
      | r => String c r
      end
  end.

(** *** White space

    [unicode.IsSpace] holds of U+0009 to U+000D, U+0020, U+0085, U+00A0,
    U+1680, U+2000 to U+200A, U+2028, U+2029, U+202F, U+205F and U+3000.
    The encoding of any of them starts with a byte that continues no
    other rune, so a rune of the text is one of them exactly where its
    encoding stands in the bytes. *)
Definition isSpace1 (c : ascii) : bool := utf8.between 9 13 c || utf8.between 32 32 c.

Definition isSpace2 (c d : ascii) : bool :=
  utf8.between 194 194 c && (utf8.between 133 133 d || utf8.between 160 160 d).

Definition isSpace3 (c d e : ascii) : bool :=
  (utf8.between 225 225 c && utf8.between 154 154 d && utf8.between 128 128 e)
  || (utf8.between 226 226 c && utf8.between 128 128 d
      && (utf8.between 128 138 e || utf8.between 168 169 e || utf8.between 175 175 e))
  || (utf8.between 226 226 c && utf8.between 129 129 d && utf8.between 159 159 e)
  || (utf8.between 227 227 c && utf8.between 128 128 d && utf8.between 128 128 e).

(** The width of the white space rune at the head of [s], 0 without one. *)
Definition spaceWidth (s : string) : nat :=
  match s with
  | String c rest =>
      if isSpace1 c then 1
      else match rest with
           | String d rest' =>
               if isSpace2 c d then 2
               else match rest' with
                    | String e _ => if isSpace3 c d e then 3 else 0
                    | EmptyString => 0
                    end
           | EmptyString => 0
           end
  | EmptyString => 0
  end.

(** The same for the rune that ends a text, the text given backwards:
    what [DecodeLastRuneInString] finds. *)
Definition spaceWidthBackwards (r : string) : nat :=
  match r with
  | String e rest =>
      if isSpace1 e then 1
      else match rest with
           | String d rest' =>
               if isSpace2 d e then 2
               else match rest' with
                    | String c _ => if isSpace3 c d e then 3 else 0
                    | EmptyString => 0
                    end
           | EmptyString => 0
           end
  | EmptyString => 0
  end.

Fixpoint backwards (s acc : string) : string :=
  match s with
  | EmptyString => acc
  | String c s' => backwards s' (String c acc)
  end.

(** The text without the white space runes it starts with, [width]
    telling a white space rune at the head; [pending] bytes of the rune
    under way are still to go. *)
Fixpoint trimLeading (width : string -> nat) (s : string) (pending : nat) : string :=
  match s with
  | EmptyString => EmptyString
  | String _ s' =>
      match pending with
      | S pending' => trimLeading width s' pending'
      | O =>
          match width s with
          | O => s
          | S width' => trimLeading width s' width'
          end
      end
  end.

(** [TrimSpace]: [TrimLeftFunc], then [TrimRightFunc], with
    [unicode.IsSpace]. *)
Definition TrimSpace (s : string) : string :=
  let left := trimLeading spaceWidth s 0 in
  backwards (trimLeading spaceWidthBackwards (backwards left "") 0) "".

(** [fieldsFrom s word pending] scans [s] with the word read so far in
    [word]. *)
Fixpoint fieldsFrom (s word : string) (pending : nat) : list string :=
  match s with
  | EmptyString => if String.eqb word "" then [] else [word]
  | String c s' =>
      match pending with
      | S pending' => fieldsFrom s' word pending'
      | O =>
          match spaceWidth s with
          | O => fieldsFrom s' (word ++ String c EmptyString) 0
          | S width' =>
              if String.eqb word "" then fieldsFrom s' "" width'
              else word :: fieldsFrom s' "" width'
          end
      end
  end.

Definition Fields (s : string) : list string := fieldsFrom s "" 0.

(** [Split s sep] for a separator of one byte, which is the only use the
    bot makes of it ([strings.Split(hostmask, "!")]).  The result is never
    empty: its head is the text before the first separator. *)
Fixpoint splitFrom (sep : ascii) (s part : string) : list string :=
  match s with
  | EmptyString => [part]
  | String c s' =>
      if Ascii.eqb c sep then part :: splitFrom sep s' ""
      else splitFrom sep s' (part ++ String c EmptyString)
  end.

Definition Split (s : string) (sep : ascii) : list string := splitFrom sep s "".

(** [s[i]] on bytes; [None] is Go's index-out-of-range panic. *)
Definition byteAt (s : string) (i : nat) : option ascii := String.get i s.

End strings.

(** ** [gopkg.in/irc.v4]: what the bot reads from a message *)
Module irc.

Record Prefix := { Name : string; User : string; Host : string }.

(** [Prefix.String]: the name, then [!user] and [@host] when present. *)
Definition String (p : Prefix) : string :=
  Name p
  ++ (if String.eqb (User p) "" then "" else "!" ++ User p)
  ++ (if String.eqb (Host p) "" then "" else "@" ++ Host p).

Record Message := { prefix : Prefix; Command : string; Params : list string }.

(** [Message.Trailing]: the last parameter, empty without parameters. *)
Definition Trailing (m : Message) : string := List.last (Params m) "".

End irc.

(** ** Package [config] *)
Module config.

Inductive SettingValue :=
| VBool (b : bool)
| VString (s : string)
| VOther.

Record ChannelConfig := {
  EnabledCommands : list string;
  DisabledCommands : list string;
  ChannelConfig_Settings : gmap string SettingValue
}.

Record Config := { ChannelSettings : gmap string ChannelConfig }.

Record HostmaskEntry := { Hostmask : string; Level : Z }.

Record Settings := {
  OwnerVerified : bool;
  OwnerPasshash : string;
  OwnerHostmask : string;
  HostmaskLevels : bool;
  Hostmasks : list HostmaskEntry
}.

(** The settings file as [LoadSettings] can find it. *)
Inductive SettingsFile :=
| NoFile
| Undecodable
| File (s : Settings).

(** The disk: the settings file, and whether it can be written now. *)
Record Disk := { settings_file : SettingsFile; writable : bool }.

(** [LoadSettings]: [None] is the decoding error. *)
Definition LoadSettings (d : Disk) : option Settings :=
  match settings_file d with
  | NoFile =>
      Some {| OwnerVerified := false; OwnerPasshash := ""; OwnerHostmask := "";
              HostmaskLevels := false; Hostmasks := [] |}
  | Undecodable => None
  | File s => Some s
  end.

(** [SaveSettings] rewrites the whole file; the boolean is [err == nil].
    A failure is that of [os.MkdirAll] or [os.Create]: nothing is written. *)
Definition SaveSettings (s : Settings) (d : Disk) : bool * Disk :=
  if writable d
  then (true, {| settings_file := File s; writable := true |})
  else (false, d).

Definition GetChannelConfig (cfg : Config) (channel : string) : ChannelConfig :=
  match ChannelSettings cfg !! channel with
  | None => {| EnabledCommands := []; DisabledCommands := [];
               ChannelConfig_Settings := ∅ |}
  | Some channelCfg => channelCfg
  end.

(** The two loops of [IsCommandEnabledForChannel]. *)
Fixpoint inCommands (cmds : list string) (commandName : string) : bool :=
  match cmds with
  | [] => false
  | cmd :: rest => if String.eqb cmd commandName then true else inCommands rest commandName
  end.

Definition IsCommandEnabledForChannel (cfg : Config) (channel commandName : string) : bool :=
  let channelCfg := GetChannelConfig cfg channel in
  if inCommands (DisabledCommands channelCfg) commandName then false
  else if (0 <? Z.of_nat (length (EnabledCommands channelCfg)))%Z
  then (if inCommands (EnabledCommands channelCfg) commandName then true else false)
  else true.

Definition GetChannelSetting (cfg : Config) (channel key : string)
    (defaultValue : SettingValue) : SettingValue :=
  match ChannelConfig_Settings (GetChannelConfig cfg channel) !! key with
  | None => defaultValue
  | Some value => value
  end.

(** [IsFirstRun]: no settings file, a file that cannot be decoded, or an
    owner who is not verified yet. *)
Definition IsFirstRun (d : Disk) : bool :=
  match settings_file d with
  | NoFile => true
  | _ =>
      match LoadSettings d with
      | None => true
      | Some settings => negb (OwnerVerified settings)
      end
  end.

Definition UpdateChannelSetting (cfg : Config) (channel key : string)
    (value : SettingValue) : Config :=
  let channelCfg :=
    match ChannelSettings cfg !! channel with
    | None => {| EnabledCommands := []; DisabledCommands := [];
                 ChannelConfig_Settings := ∅ |}
    | Some channelCfg => channelCfg
    end in
  {| ChannelSettings :=
       <[channel := {| EnabledCommands := EnabledCommands channelCfg;
                       DisabledCommands := DisabledCommands channelCfg;
                       ChannelConfig_Settings :=
                         <[key := value]> (ChannelConfig_Settings channelCfg) |}]>
         (ChannelSettings cfg) |}.

End config.

(** ** Package [userlevels] *)
Module userlevels.

(** [type UserLevel int] with its [iota] constants; the settings file can
    hold any integer, which [LoadHostmasks] converts as it is. *)
Abbreviation UserLevel := Z (only parsing).
Definition Ignored : UserLevel := 0.
Definition BadBoy : UserLevel := 1.
Definition Regular : UserLevel := 2.
Definition Admin : UserLevel := 3.
Definition Owner : UserLevel := 4.

Definition LevelName (level : UserLevel) : string :=
  if (level =? Ignored)%Z then "Ignored"
  else if (level =? BadBoy)%Z then "BadBoy"
  else if (level =? Regular)%Z then "Regular"
  else if (level =? Admin)%Z then "Admin"
  else if (level =? Owner)%Z then "Owner"
  else "Unknown".

(** The two package level maps. *)
Record State := {
  users : gmap string Z;
  hostmaskUsers : gmap string Z
}.

(** [parts[0]] of [strings.Split(hostmask, "!")]; the split is never empty. *)
Definition nickOf (hostmask : string) : string :=
  List.hd "" (strings.Split hostmask "!").

Definition SetUserLevel (nick : string) (level : UserLevel) (st : State) : State :=
  let wildcardHostmask := nick ++ "!*@*" in
  {| users := <[nick := level]> (users st);
     hostmaskUsers := <[wildcardHostmask := level]> (hostmaskUsers st) |}.

Definition SetUserLevelByHostmask (hostmask : string) (level : UserLevel)
    (st : State) : State :=
  {| hostmaskUsers := <[hostmask := level]> (hostmaskUsers st);
     users := <[nickOf hostmask := level]> (users st) |}.

Definition GetUserLevelByHostmask (d : config.Disk) (st : State)
    (hostmask : string) : UserLevel :=
  match hostmaskUsers st !! hostmask with
  | Some level => level
  | None =>
      let owner :=
        match config.LoadSettings d with
        | Some settings =>
            config.OwnerVerified settings
            && negb (String.eqb (config.OwnerHostmask settings) "")
            && String.eqb hostmask (config.OwnerHostmask settings)
        | None => false
        end in
      if owner then Owner
      else match users st !! nickOf hostmask with
           | Some level => level
           | None => Regular
           end
  end.

(** The loop of the legacy branch of [IsVerifiedOwner] over [users]: it
    answers [true] at the first folded match at level [Owner], so its
    result does not depend on the order of the iteration. *)
Fixpoint ownerAmong (u : strings.Unicode) (entries : list (string * Z)) (nick : string)
    : bool :=
  match entries with
  | [] => false
  | (storedNick, level) :: rest =>
      if strings.EqualFold u storedNick nick && (level =? Owner)%Z then true
      else ownerAmong u rest nick
  end.

Definition IsVerifiedOwner (u : strings.Unicode) (d : config.Disk) (st : State)
    (hostmask : string) : bool :=
  let legacy := ownerAmong u (map_to_list (users st)) (nickOf hostmask) in
  match config.LoadSettings d with
  | None => legacy
  | Some settings =>
      if negb (config.OwnerVerified settings)
         || String.eqb (config.OwnerHostmask settings) ""
      then legacy
      else String.eqb hostmask (config.OwnerHostmask settings)
  end.

Definition HasPermission (u : strings.Unicode) (d : config.Disk) (st : State)
    (hostmask : string) (required : UserLevel) : bool :=
  let userLevel := GetUserLevelByHostmask d st hostmask in
  if (userLevel =? Ignored)%Z then false
  else if (required =? Owner)%Z then IsVerifiedOwner u d st hostmask
  else (required <=? userLevel)%Z.

(** The loop of [LoadHostmasks] over the entries of the settings file. *)
Fixpoint loadEntries (entries : list config.HostmaskEntry) (st : State) : State :=
  match entries with
  | [] => st
  | entry :: rest =>
      loadEntries rest
        {| hostmaskUsers := <[config.Hostmask entry := config.Level entry]> (hostmaskUsers st);
           users := <[nickOf (config.Hostmask entry) := config.Level entry]> (users st) |}
  end.

Definition LoadHostmasks (d : config.Disk) (st : State) : State :=
  match config.LoadSettings d with
  | None => st
  | Some settings =>
      if negb (config.HostmaskLevels settings) then st
      else loadEntries (config.Hostmasks settings)
             {| hostmaskUsers := ∅; users := users st |}
  end.

(** [SaveHostmasks]: every record of [hostmaskUsers] goes to the settings
    file, the rest of which is kept when it could be read. *)
Definition SaveHostmasks (st : State) (d : config.Disk) : bool * config.Disk :=
  let hostmasks :=
    List.map (fun e => {| config.Hostmask := fst e; config.Level := snd e |})
             (map_to_list (hostmaskUsers st)) in
  let settings :=
    match config.LoadSettings d with
    | None =>
        {| config.OwnerVerified := false; config.OwnerPasshash := "";
           config.OwnerHostmask := ""; config.HostmaskLevels := true;
           config.Hostmasks := hostmasks |}
    | Some settings =>
        {| config.OwnerVerified := config.OwnerVerified settings;
           config.OwnerPasshash := config.OwnerPasshash settings;
           config.OwnerHostmask := config.OwnerHostmask settings;
           config.HostmaskLevels := true;
           config.Hostmasks := hostmasks |}
    end in
  config.SaveSettings settings d.

(** [GetUserLevel], the lookup by nickname kept for backward
    compatibility: the level of the first stored nickname, in the order of
    the iteration, that equals [nick] under case folding. *)
Definition GetUserLevel (u : strings.Unicode) (st : State) (nick : string) : UserLevel :=
  match List.find (fun e => strings.EqualFold u (fst e) nick) (map_to_list (users st)) with
  | Some e => snd e
  | None => Regular
  end.

(** [GetAllHostmasks]: a copy of [hostmaskUsers] in which the verified
    owner's hostmask is given level [Owner]. *)
Definition GetAllHostmasks (d : config.Disk) (st : State) : gmap string Z :=
  let result := hostmaskUsers st in
  match config.LoadSettings d with
  | Some settings =>
      if config.OwnerVerified settings
         && negb (String.eqb (config.OwnerHostmask settings) "")
      then <[config.OwnerHostmask settings := Owner]> result
      else result
  | None => result
  end.

End userlevels.

(** ** Package [security]: the sliding-window rate limiter

    A [time.Time] is its reading in nanoseconds and a [time.Duration] is a
    number of nanoseconds, both in [Z]; [now] is what [time.Now()] returned
    inside the call. *)
Module security.

Record MessageTracker := {
  userMessages : gmap string (list Z);
  userCommandUsage : gmap string (gmap string (list Z));
  warningCounts : gmap string Z;
  messageWindow : Z;
  maxMessagesPerWindow : Z;
  commandWindow : Z;
  maxCommandsPerWindow : Z;
  warningThreshold : Z
}.

Definition Second : Z := 1000000000.

Definition NewMessageTracker : MessageTracker :=
  {| userMessages := ∅; userCommandUsage := ∅; warningCounts := ∅;
     messageWindow := 10 * Second; maxMessagesPerWindow := 5;
     commandWindow := 30 * Second; maxCommandsPerWindow := 10;
     warningThreshold := 3 |}.

(** [t.After(cutoff)] *)
Definition After (t cutoff : Z) : bool := (cutoff <? t)%Z.

Definition TrackMessage (now : Z) (hostmask : string) (m : MessageTracker)
    : (bool * Z) * MessageTracker :=
  let recorded := (default [] (userMessages m !! hostmask) ++ [now])%list in
  let cutoff := now - messageWindow m in
  let newMessages := List.filter (fun t => After t cutoff) recorded in
  let messageCount := Z.of_nat (length newMessages) in
  ((maxMessagesPerWindow m <? messageCount)%Z, messageCount,
   {| userMessages := <[hostmask := newMessages]> (userMessages m);
      userCommandUsage := userCommandUsage m;
      warningCounts := warningCounts m;
      messageWindow := messageWindow m;
      maxMessagesPerWindow := maxMessagesPerWindow m;
      commandWindow := commandWindow m;
      maxCommandsPerWindow := maxCommandsPerWindow m;
      warningThreshold := warningThreshold m |}).

Definition TrackCommand (now : Z) (hostmask commandName : string) (m : MessageTracker)
    : (bool * Z) * MessageTracker :=
  let usage := default ∅ (userCommandUsage m !! hostmask) in
  let recorded := (default [] (usage !! commandName) ++ [now])%list in
  let cutoff := now - commandWindow m in
  let newCommands := List.filter (fun t => After t cutoff) recorded in
  let commandCount := Z.of_nat (length newCommands) in
  ((maxCommandsPerWindow m <? commandCount)%Z, commandCount,
   {| userMessages := userMessages m;
      userCommandUsage :=
        <[hostmask := <[commandName := newCommands]> usage]> (userCommandUsage m);
      warningCounts := warningCounts m;
      messageWindow := messageWindow m;
      maxMessagesPerWindow := maxMessagesPerWindow m;
      commandWindow := commandWindow m;
      maxCommandsPerWindow := maxCommandsPerWindow m;
      warningThreshold := warningThreshold m |}).

Definition GetWarningCount (m : MessageTracker) (hostmask : string) : Z :=
  default 0 (warningCounts m !! hostmask).

Definition GetWarningThreshold (m : MessageTracker) : Z := warningThreshold m.

Definition AddWarning (hostmask : string) (m : MessageTracker) : bool * MessageTracker :=
  let count := GetWarningCount m hostmask + 1 in
  ((warningThreshold m <=? count)%Z,
   {| userMessages := userMessages m;
      userCommandUsage := userCommandUsage m;
      warningCounts := <[hostmask := count]> (warningCounts m);
      messageWindow := messageWindow m;
      maxMessagesPerWindow := maxMessagesPerWindow m;
      commandWindow := commandWindow m;
      maxCommandsPerWindow := maxCommandsPerWindow m;
      warningThreshold := warningThreshold m |}).

Definition ResetUser (hostmask : string) (m : MessageTracker) : MessageTracker :=
  {| userMessages := delete hostmask (userMessages m);
     userCommandUsage := delete hostmask (userCommandUsage m);
     warningCounts := delete hostmask (warningCounts m);
     messageWindow := messageWindow m;
     maxMessagesPerWindow := maxMessagesPerWindow m;
     commandWindow := commandWindow m;
     maxCommandsPerWindow := maxCommandsPerWindow m;
     warningThreshold := warningThreshold m |}.

(** A run of tracked events of one identity at the instants [ts]: the
    answers of the successive calls, in order. *)
Fixpoint TrackMessages (ts : list Z) (hostmask : string) (m : MessageTracker)
    : list bool * MessageTracker :=
  match ts with
  | [] => ([], m)
  | now :: rest =>
      let '(exceeded, _, m1) := TrackMessage now hostmask m in
      let '(answers, m2) := TrackMessages rest hostmask m1 in
      (exceeded :: answers, m2)
  end.

Fixpoint TrackCommands (ts : list Z) (hostmask commandName : string) (m : MessageTracker)
    : list bool * MessageTracker :=
  match ts with
  | [] => ([], m)
  | now :: rest =>
      let '(exceeded, _, m1) := TrackCommand now hostmask commandName m in
      let '(answers, m2) := TrackCommands rest hostmask commandName m1 in
      (exceeded :: answers, m2)
  end.

Definition Configure (messageWindow' maxMessages commandWindow' maxCommands
    warningThreshold' : Z) (m : MessageTracker) : MessageTracker :=
  {| userMessages := userMessages m;
     userCommandUsage := userCommandUsage m;
     warningCounts := warningCounts m;
     messageWindow := messageWindow';
     maxMessagesPerWindow := maxMessages;
     commandWindow := commandWindow';
     maxCommandsPerWindow := maxCommands;
     warningThreshold := warningThreshold' |}.

Definition SetMessageWindow (duration : Z) (m : MessageTracker) : MessageTracker :=
  Configure duration (maxMessagesPerWindow m) (commandWindow m) (maxCommandsPerWindow m)
    (warningThreshold m) m.

Definition SetMaxMessagesPerWindow (max : Z) (m : MessageTracker) : MessageTracker :=
  Configure (messageWindow m) max (commandWindow m) (maxCommandsPerWindow m)
    (warningThreshold m) m.

Definition SetCommandWindow (duration : Z) (m : MessageTracker) : MessageTracker :=
  Configure (messageWindow m) (maxMessagesPerWindow m) duration (maxCommandsPerWindow m)
    (warningThreshold m) m.

Definition SetMaxCommandsPerWindow (max : Z) (m : MessageTracker) : MessageTracker :=
  Configure (messageWindow m) (maxMessagesPerWindow m) (commandWindow m) max
    (warningThreshold m) m.

Definition SetWarningThreshold (threshold : Z) (m : MessageTracker) : MessageTracker :=
  Configure (messageWindow m) (maxMessagesPerWindow m) (commandWindow m)
    (maxCommandsPerWindow m) threshold m.

End security.

(** ** Package [plugin]: the module registry

    A loaded module is a Go value behind the [Plugin] interface.  The
    model keeps what the host can observe of it: what [Name] and [Version]
    return, the error of [OnLoad], and which optional interfaces the value
    satisfies.  What a hook does inside the module is the module's own
    business; the host's side of a call is recorded as a [Call]. *)
Module plugin.

Inductive Capability :=
| PrivMsgHandler | NickMentionHandler | KickHandler | TopicChangeHandler
| JoinHandler | PartHandler | QuitHandler | NickHandler | InviteHandler
| NoticeHandler | ErrorHandler | ModeHandler.

Definition Capability_eqb (a b : Capability) : bool :=
  match a, b with
  | PrivMsgHandler, PrivMsgHandler | NickMentionHandler, NickMentionHandler
  | KickHandler, KickHandler | TopicChangeHandler, TopicChangeHandler
  | JoinHandler, JoinHandler | PartHandler, PartHandler
  | QuitHandler, QuitHandler | NickHandler, NickHandler
  | InviteHandler, InviteHandler | NoticeHandler, NoticeHandler
  | ErrorHandler, ErrorHandler | ModeHandler, ModeHandler => true
  | _, _ => false
  end.

Record Plugin := {
  Name : string;
  Version : string;
  (** the error [OnLoad] returns, [None] for [nil] *)
  OnLoad : option string;
  (** [Some e] when the value satisfies [Unloader], [e] being what
      [OnUnload] returns; [None] when it has no [OnUnload] method *)
  Unloader : option (option string);
  (** [GetCommands()] when the value satisfies [CommandHandler] *)
  CommandHandler : option (list string);
  (** the event handler interfaces the value satisfies *)
  implements : list Capability
}.

Definition satisfies (plug : Plugin) (c : Capability) : bool :=
  existsb (Capability_eqb c) (implements plug).

Inductive Call :=
| CallOnLoad (plug : Plugin)
| CallOnUnload (plug : Plugin)
| CallOnMessage (plug : Plugin) (m : irc.Message)
| CallEvent (plug : Plugin) (c : Capability) (m : irc.Message)
| CallHandleCommand (plug : Plugin) (m : irc.Message) (cmd : string) (args : list string).

Record pluginInfo := {
  plugin : Plugin;
  version : string;
  loadTimestamp : Z;
  filePath : string
}.

Record manager := {
  plugins : gmap string pluginInfo;
  pluginPaths : gmap string string
}.

(** What [goPlugin.Open], [Lookup("Plugin")] and the assertion to
    [Plugin] make of the file at a path. *)
Inductive Artifact :=
| CannotOpen
| NoPluginSymbol
| NotAPlugin
| Exports (plug : Plugin).

Inductive LoadError :=
| OpenError
| LookupError
| InvalidPluginType
| OnLoadError (e : string).

Definition knownLegacyCommands : gmap string (list string) :=
  <["SamplePlugin" := ["test"]]> (<["EchoPlugin" := ["echo"]]> ∅).

(** The first critical section of [LoadPlugin] when a module of that name
    is loaded at another version: the old module's [OnUnload], if it has
    one, and the removal of its path.  The entry of [plugins] stays. *)
Definition unloadPrevious (pluginName : string) (existingInfo : pluginInfo)
    (mgr : manager) : manager * list Call :=
  ({| plugins := plugins mgr; pluginPaths := delete pluginName (pluginPaths mgr) |},
   match Unloader (plugin existingInfo) with
   | Some _ => [CallOnUnload (plugin existingInfo)]
   | None => []
   end).

(** The rest of [LoadPlugin]: [OnLoad], then the second critical section. *)
Definition install (now : Z) (path : string) (plug : Plugin) (mgr : manager)
    : option LoadError * manager * list Call :=
  match OnLoad plug with
  | Some e => (Some (OnLoadError e), mgr, [CallOnLoad plug])
  | None =>
      let info := {| plugin := plug; version := Version plug;
                     loadTimestamp := now; filePath := path |} in
      (None,
       {| plugins := <[Name plug := info]> (plugins mgr);
          pluginPaths := <[Name plug := path]> (pluginPaths mgr) |},
       [CallOnLoad plug])
  end.

(** [LoadPlugin(path)]: the error ([None] for [nil]), the registry after
    the call and the hooks called, in order. *)
Definition LoadPlugin (artifact : string -> Artifact) (now : Z) (path : string)
    (mgr : manager) : option LoadError * manager * list Call :=
  match artifact path with
  | CannotOpen => (Some OpenError, mgr, [])
  | NoPluginSymbol => (Some LookupError, mgr, [])
  | NotAPlugin => (Some InvalidPluginType, mgr, [])
  | Exports plug =>
      let pluginName := Name plug in
      let pluginVersion := Version plug in
      match plugins mgr !! pluginName with
      | Some existingInfo =>
          if String.eqb (version existingInfo) pluginVersion
          then (None, mgr, [])
          else
            let '(mgr1, unloaded) := unloadPrevious pluginName existingInfo mgr in
            let '(err, mgr2, loaded) := install now path plug mgr1 in
            (err, mgr2, (unloaded ++ loaded)%list)
      | None => install now path plug mgr
      end
  end.

(** The registries [LoadPlugin] goes through, from the one it finds to
    the one it leaves. *)
Definition LoadPlugin_registries (artifact : string -> Artifact) (now : Z)
    (path : string) (mgr : manager) : list manager :=
  match artifact path with
  | Exports plug =>
      match plugins mgr !! Name plug with
      | Some existingInfo =>
          if String.eqb (version existingInfo) (Version plug) then [mgr]
          else
            let mgr1 := fst (unloadPrevious (Name plug) existingInfo mgr) in
            [mgr; mgr1; snd (fst (install now path plug mgr1))]
      | None => [mgr; snd (fst (install now path plug mgr))]
      end
  | _ => [mgr]
  end.

Definition UnloadPlugin (name : string) (mgr : manager)
    : bool * manager * list Call :=
  match plugins mgr !! name with
  | None => (false, mgr, [])
  | Some info =>
      (true,
       {| plugins := delete name (plugins mgr);
          pluginPaths := delete name (pluginPaths mgr) |},
       match Unloader (plugin info) with
       | Some _ => [CallOnUnload (plugin info)]
       | None => []
       end)
  end.

(** [for _, info := range mgr.plugins].  Go leaves the order of a map
    iteration open; the model iterates in the order of [map_to_list]. *)
Definition GetPluginObjects (mgr : manager) : list Plugin :=
  List.map (fun e => plugin (snd e)) (map_to_list (plugins mgr)).

Definition GetPluginList := GetPluginObjects.

(** The loop of [HandlePluginCommand] over the loaded modules. *)
Fixpoint handleAmong (plugs : list Plugin) (m : irc.Message) (cmd : string)
    (args : list string) : bool * list Call :=
  match plugs with
  | [] => (false, [])
  | plug :: rest =>
      if match CommandHandler plug with
         | Some cmds => config.inCommands cmds cmd
         | None => false
         end
      then (true, [CallHandleCommand plug m cmd args])
      else if match knownLegacyCommands !! Name plug with
              | Some cmds => config.inCommands cmds cmd
              | None => false
              end
      then (true, [])
      else handleAmong rest m cmd args
  end.

Definition HandlePluginCommand (mgr : manager) (m : irc.Message) (cmd : string)
    (args : list string) : bool * list Call :=
  handleAmong (GetPluginObjects mgr) m cmd args.

Definition GetPluginVersion (mgr : manager) (name : string) : option string :=
  match plugins mgr !! name with
  | Some info => Some (version info)
  | None => None
  end.

(** One detail of [GetPlugins]. *)
Record Details := {
  Details_Name : string;
  Details_Version : string;
  Details_LoadTime : Z;
  Details_FilePath : string
}.

Definition GetPlugins (mgr : manager) : list Details :=
  List.map (fun e => {| Details_Name := fst e;
                        Details_Version := version (snd e);
                        Details_LoadTime := loadTimestamp (snd e);
                        Details_FilePath := filePath (snd e) |})
           (map_to_list (plugins mgr)).

Definition GetLegacyPluginCommands (pluginName : string) : option (list string) :=
  knownLegacyCommands !! pluginName.

(** [filepath.Ext]: the suffix that starts at the last dot of the last
    element of the path, empty when that element has no dot. *)
Fixpoint Ext (path : string) : string :=
  match path with
  | EmptyString => EmptyString
  | String c rest =>
      match Ext rest with
      | EmptyString =>
          if strings.containsByte rest "/" then EmptyString
          else if Ascii.eqb c "." then path
          else EmptyString
      | ext => ext
      end
  end.

(** The loop of [LoadPluginsFromDir] over the entries of the directory.
    [join] is [filepath.Join].  One reading of the clock, [now], stands
    for those of the single loads: it only ends up in [loadTimestamp]. *)
Fixpoint loadFiles (artifact : string -> Artifact) (now : Z)
    (join : string -> string -> string) (dir : string) (files : list string)
    (mgr : manager) : Z * manager * list Call :=
  match files with
  | [] => (0, mgr, [])
  | file :: rest =>
      if String.eqb (Ext file) ".so" then
        let '(err, mgr1, calls1) := LoadPlugin artifact now (join dir file) mgr in
        let '(loadedCount, mgr2, calls2) := loadFiles artifact now join dir rest mgr1 in
        (match err with
         | None => loadedCount + 1
         | Some _ => loadedCount
         end, mgr2, (calls1 ++ calls2)%list)
      else loadFiles artifact now join dir rest mgr
  end.

(** [LoadPluginsFromDir(dir)]: [readDir] is [os.ReadDir], [None] when it
    fails.  The answer is the count, whether the error is [nil], the
    registry and the hooks called. *)
Definition LoadPluginsFromDir (artifact : string -> Artifact) (now : Z)
    (readDir : string -> option (list string)) (join : string -> string -> string)
    (dir : string) (mgr : manager) : Z * bool * manager * list Call :=
  match readDir dir with
  | None => (0, false, mgr, [])
  | Some files =>
      let '(loadedCount, mgr', calls) := loadFiles artifact now join dir files mgr in
      (loadedCount, true, mgr', calls)
  end.

(** The loop of [ReloadPluginsFromDir] that unloads every module. *)
Fixpoint unloadAll (entries : list (string * pluginInfo)) (mgr : manager)
    : manager * list Call :=
  match entries with
  | [] => (mgr, [])
  | (name, info) :: rest =>
      let '(mgr', calls) :=
        unloadAll rest {| plugins := delete name (plugins mgr);
                          pluginPaths := delete name (pluginPaths mgr) |} in
      (mgr',
       (match Unloader (plugin info) with
        | Some _ => [CallOnUnload (plugin info)]
        | None => []
        end ++ calls)%list)
  end.

Definition ReloadPluginsFromDir (artifact : string -> Artifact) (now : Z)
    (readDir : string -> option (list string)) (join : string -> string -> string)
    (dir : string) (mgr : manager) : Z * bool * manager * list Call :=
  let '(mgr0, unloaded) := unloadAll (map_to_list (plugins mgr)) mgr in
  let '(loadedCount, ok, mgr', loaded) :=
    LoadPluginsFromDir artifact now readDir join dir mgr0 in
  (loadedCount, ok, mgr', (unloaded ++ loaded)%list).

End plugin.

(** ** The world of the running bot *)

(** A registered command.  Its [Handler] is Go code outside this
    development: calling it is recorded as [RunHandler]. *)
Record Command := {
  Name : string;
  Description : string;
  RequiredLevel : userlevels.UserLevel
}.

(** What the bot does that can be seen from outside its own variables. *)
Inductive Event :=
| Write (command : string) (params : list string)
    (** [c.WriteMessage] and [c.Writef]: a line sent to the server *)
| RunHandler (cmd : Command) (m : irc.Message) (args : list string)
    (** [cmd.Handler(c, m, args)] *)
| HandleAIResponse (channel userNick : string)
    (** [commands.HandleAIResponse] *)
| Hook (call : plugin.Call).
    (** a call into a loaded module *)

Record World := {
  (** the surroundings: clock, connection, disk, random salt, and the
      case tables of the Go distribution *)
  unicode : strings.Unicode;
  now : Z;
  CurrentNick : string;
  disk : config.Disk;
  GenerateHash : string -> option string;
  (** package variables *)
  levels : userlevels.State;
  GlobalMessageTracker : security.MessageTracker;
  mgr : plugin.manager;
  commandRegistry : gmap string Command;
  CheckPluginCommands : bool;
  BotConfig : option config.Config;
  PendingVerifications : gmap string bool;
  VerificationPassphrase : string;
  (** everything emitted so far, oldest first *)
  out : list Event
}.

Definition set_disk (d : config.Disk) (w : World) : World :=
  {| unicode := unicode w; now := now w; CurrentNick := CurrentNick w; disk := d;
     GenerateHash := GenerateHash w; levels := levels w;
     GlobalMessageTracker := GlobalMessageTracker w; mgr := mgr w;
     commandRegistry := commandRegistry w;
     CheckPluginCommands := CheckPluginCommands w; BotConfig := BotConfig w;
     PendingVerifications := PendingVerifications w;
     VerificationPassphrase := VerificationPassphrase w; out := out w |}.

Definition set_levels (l : userlevels.State) (w : World) : World :=
  {| unicode := unicode w; now := now w; CurrentNick := CurrentNick w; disk := disk w;
     GenerateHash := GenerateHash w; levels := l;
     GlobalMessageTracker := GlobalMessageTracker w; mgr := mgr w;
     commandRegistry := commandRegistry w;
     CheckPluginCommands := CheckPluginCommands w; BotConfig := BotConfig w;
     PendingVerifications := PendingVerifications w;
     VerificationPassphrase := VerificationPassphrase w; out := out w |}.

Definition set_tracker (t : security.MessageTracker) (w : World) : World :=
  {| unicode := unicode w; now := now w; CurrentNick := CurrentNick w; disk := disk w;
     GenerateHash := GenerateHash w; levels := levels w;
     GlobalMessageTracker := t; mgr := mgr w;
     commandRegistry := commandRegistry w;
     CheckPluginCommands := CheckPluginCommands w; BotConfig := BotConfig w;
     PendingVerifications := PendingVerifications w;
     VerificationPassphrase := VerificationPassphrase w; out := out w |}.

Definition set_pending (p : gmap string bool) (w : World) : World :=
  {| unicode := unicode w; now := now w; CurrentNick := CurrentNick w; disk := disk w;
     GenerateHash := GenerateHash w; levels := levels w;
     GlobalMessageTracker := GlobalMessageTracker w; mgr := mgr w;
     commandRegistry := commandRegistry w;
     CheckPluginCommands := CheckPluginCommands w; BotConfig := BotConfig w;
     PendingVerifications := p;
     VerificationPassphrase := VerificationPassphrase w; out := out w |}.

Definition set_out (o : list Event) (w : World) : World :=
  {| unicode := unicode w; now := now w; CurrentNick := CurrentNick w; disk := disk w;
     GenerateHash := GenerateHash w; levels := levels w;
     GlobalMessageTracker := GlobalMessageTracker w; mgr := mgr w;
     commandRegistry := commandRegistry w;
     CheckPluginCommands := CheckPluginCommands w; BotConfig := BotConfig w;
     PendingVerifications := PendingVerifications w;
     VerificationPassphrase := VerificationPassphrase w; out := o |}.

(** *** The handler monad: state, and [None] for a Go panic *)

Definition M (A : Type) : Type := World -> option (A * World).

Definition ret {A} (a : A) : M A := fun w => Some (a, w).

Definition bind {A B} (c : M A) (k : A -> M B) : M B :=
  fun w => match c w with
           | Some (a, w') => k a w'
           | None => None
           end.

Notation "'let*' x := c 'in' k" := (bind c (fun x => k))
  (at level 10, x name, c at level 100, k at level 200).

Definition panic {A} : M A := fun _ => None.
Definition get : M World := fun w => Some (w, w).
Definition modify (f : World -> World) : M unit := fun w => Some (tt, f w).

Definition emits (es : list Event) : M unit :=
  modify (fun w => set_out (out w ++ es)%list w).
Definition emit (e : Event) : M unit := emits [e].
Definition write (command : string) (params : list string) : M unit :=
  emit (Write command params).

(** [m.Params[0]] *)
Definition param0 (m : irc.Message) : M string :=
  match irc.Params m with
  | p :: _ => ret p
  | [] => panic
  end.

(** The methods of [security.GlobalMessageTracker] and the functions of
    [userlevels], on the world. *)
Definition TrackMessage (hostmask : string) : M (bool * Z) :=
  fun w => let '(r, t) := security.TrackMessage (now w) hostmask (GlobalMessageTracker w) in
           Some (r, set_tracker t w).

Definition TrackCommand (hostmask commandName : string) : M (bool * Z) :=
  fun w => let '(r, t) :=
             security.TrackCommand (now w) hostmask commandName (GlobalMessageTracker w) in
           Some (r, set_tracker t w).

Definition AddWarning (hostmask : string) : M bool :=
  fun w => let '(r, t) := security.AddWarning hostmask (GlobalMessageTracker w) in
           Some (r, set_tracker t w).

Definition SetUserLevel (nick : string) (level : userlevels.UserLevel) : M unit :=
  modify (fun w => set_levels (userlevels.SetUserLevel nick level (levels w)) w).

Definition SetUserLevelByHostmask (hostmask : string) (level : userlevels.UserLevel)
    : M unit :=
  modify (fun w => set_levels (userlevels.SetUserLevelByHostmask hostmask level (levels w)) w).

Definition SaveHostmasks : M bool :=
  fun w => let '(ok, d) := userlevels.SaveHostmasks (levels w) (disk w) in
           Some (ok, set_disk d w).

Definition SaveSettings (s : config.Settings) : M bool :=
  fun w => let '(ok, d) := config.SaveSettings s (disk w) in
           Some (ok, set_disk d w).

Definition GetUserLevelByHostmask (w : World) (hostmask : string) : userlevels.UserLevel :=
  userlevels.GetUserLevelByHostmask (disk w) (levels w) hostmask.

Definition HasPermission (w : World) (hostmask : string)
    (required : userlevels.UserLevel) : bool :=
  userlevels.HasPermission (unicode w) (disk w) (levels w) hostmask required.

(** ** Package [commands]: the command router *)
Module commands.

Definition GetCommand (w : World) (name : string) : option Command :=
  commandRegistry w !! name.

(** Lines 73 to 128 of [HandleCommand], the spam protection.  The answer
    is [true] where the source returns from [HandleCommand]. *)
Definition spamProtection (userNick hostmask baseCommand replyTarget : string)
    (isChannelMsg : bool) : M bool :=
  let* tracked := TrackCommand hostmask baseCommand in
  if fst tracked then
    let* reached := AddWarning hostmask in
    if reached then
      let* _ := SetUserLevel hostmask userlevels.Ignored in
      let* _ := SaveHostmasks in
      let* _ := write "NOTICE"
        [userNick; "You have been automatically ignored for command spam protection."] in
      let* _ :=
        if isChannelMsg then
          write "PRIVMSG"
            [replyTarget;
             "User " ++ userNick
             ++ " has been automatically ignored for command spam protection."]
        else ret tt in
      ret true
    else
      let* w := get in
      let warningCount := security.GetWarningCount (GlobalMessageTracker w) hostmask in
      let threshold := security.GetWarningThreshold (GlobalMessageTracker w) in
      let* _ := write "NOTICE"
        [userNick;
         "Warning (" ++ pretty warningCount ++ "/" ++ pretty threshold
         ++ "): Please slow down command usage to avoid being automatically ignored."] in
      ret false
  else ret false.

(** Lines 130 to 173 of [HandleCommand]: registry, module commands,
    channel policy, permission, handler. *)
Definition route (m : irc.Message) (baseCommand : string) (args : list string)
    (replyTarget : string) (isChannelMsg : bool) (hostmask : string)
    (userLevel : userlevels.UserLevel) : M unit :=
  let* w := get in
  match GetCommand w baseCommand with
  | None =>
      if CheckPluginCommands w then
        emits (List.map Hook (snd (plugin.HandlePluginCommand (mgr w) m baseCommand args)))
      else ret tt
  | Some cmd =>
      let disabled :=
        match BotConfig w with
        | Some cfg =>
            isChannelMsg && negb (config.IsCommandEnabledForChannel cfg replyTarget baseCommand)
        | None => false
        end in
      if disabled then ret tt
      else if negb (HasPermission w hostmask (RequiredLevel cmd)) then
        let requiredLevel := userlevels.LevelName (RequiredLevel cmd) in
        let userLevelName := userlevels.LevelName userLevel in
        if (RequiredLevel cmd =? userlevels.Owner)%Z then
          write "PRIVMSG"
            [replyTarget;
             "Access denied. Command '" ++ baseCommand ++ "' requires owner access."]
        else
          write "PRIVMSG"
            [replyTarget;
             "Access denied. Command '" ++ baseCommand ++ "' requires " ++ requiredLevel
             ++ " level. Your level: " ++ userLevelName]
      else emit (RunHandler cmd m args)
  end.

Definition HandleCommand (m : irc.Message) : M unit :=
  let cmdText := strings.TrimSpace (irc.Trailing m) in
  match strings.Fields cmdText with
  | [] => ret tt
  | part0 :: args =>
      let* target := param0 m in
      let* w := get in
      let toBot := String.eqb target (CurrentNick w) in
      let replyTarget := if toBot then irc.Name (irc.prefix m) else target in
      let isChannelMsg := if toBot then false else strings.HasPrefix target "#" in
      let baseCommand := strings.TrimPrefix part0 "!" in
      let userNick := irc.Name (irc.prefix m) in
      let hostmask := irc.String (irc.prefix m) in
      let userLevel := GetUserLevelByHostmask w hostmask in
      if (userLevel =? userlevels.Ignored)%Z then ret tt
      else
        let* stop := spamProtection userNick hostmask baseCommand replyTarget isChannelMsg in
        if stop then ret tt
        else route m baseCommand args replyTarget isChannelMsg hostmask userLevel
  end.

(** [RegisterCommand], on the registry. *)
Definition RegisterCommand (name description : string)
    (requiredLevel : userlevels.UserLevel) (registry : gmap string Command)
    : gmap string Command :=
  <[name := {| Name := name; Description := description;
               RequiredLevel := requiredLevel |}]> registry.

(** The [switch levelStr] of [setLevelCmd]. *)
Definition levelOfWord (levelStr : string) : option userlevels.UserLevel :=
  if String.eqb levelStr "owner" then Some userlevels.Owner
  else if String.eqb levelStr "admin" then Some userlevels.Admin
  else if String.eqb levelStr "regular" || String.eqb levelStr "user"
          || String.eqb levelStr "normal" then Some userlevels.Regular
  else if String.eqb levelStr "badboy" || String.eqb levelStr "bad"
  then Some userlevels.BadBoy
  else if String.eqb levelStr "ignored" || String.eqb levelStr "ignore"
  then Some userlevels.Ignored
  else None.

(** The first loop of [setLevelCmd]: the highest level among the
    hostmasks of the nickname, and at least Regular. *)
Fixpoint highestLevel (target : string) (entries : list (string * Z))
    (currentLevel : userlevels.UserLevel) : userlevels.UserLevel :=
  match entries with
  | [] => currentLevel
  | (hostmask, level) :: rest =>
      highestLevel target rest
        (if strings.HasPrefix hostmask (target ++ "!") && (currentLevel <? level)%Z
         then level else currentLevel)
  end.

(** The loop that assigns the level to every hostmask found. *)
Fixpoint setEach (hostmasks : list string) (level : userlevels.UserLevel) : M unit :=
  match hostmasks with
  | [] => ret tt
  | hostmask :: rest =>
      let* _ := SetUserLevelByHostmask hostmask level in setEach rest level
  end.

Definition setLevelCmd (m : irc.Message) (args : list string) : M unit :=
  let* target0 := param0 m in
  let* w := get in
  let replyTarget :=
    if String.eqb target0 (CurrentNick w) then irc.Name (irc.prefix m) else target0 in
  match args with
  | target :: levelWord :: _ =>
      let levelStr := strings.ToLower (unicode w) levelWord in
      let allHostmasks := userlevels.GetAllHostmasks (disk w) (levels w) in
      let currentLevel :=
        highestLevel target (map_to_list allHostmasks) userlevels.Regular in
      let currentLevelName := userlevels.LevelName currentLevel in
      match levelOfWord levelStr with
      | None =>
          write "PRIVMSG"
            [replyTarget;
             "Unknown level: " ++ levelStr
             ++ ". Available levels: owner, admin, regular, badboy, ignored"]
      | Some level =>
          let callerHostmask := irc.String (irc.prefix m) in
          if negb (HasPermission w callerHostmask userlevels.Owner) then
            write "PRIVMSG" [replyTarget; "You need owner privileges to change user levels."]
          else
            let targetHostmasks :=
              List.filter (fun hostmask => strings.HasPrefix hostmask (target ++ "!"))
                          (List.map fst (map_to_list allHostmasks)) in
            let* _ :=
              match targetHostmasks with
              | [] =>
                  let wildcardHostmask := target ++ "!*@*" in
                  let* _ := SetUserLevelByHostmask wildcardHostmask level in
                  let* _ := SetUserLevel target level in
                  write "PRIVMSG"
                    [replyTarget;
                     "No hostmask found for user " ++ target
                     ++ ". Setting wildcard hostmask (" ++ wildcardHostmask ++ ")."]
              | _ =>
                  let* _ := setEach targetHostmasks level in
                  SetUserLevel target level
              end in
            let* saved := SaveHostmasks in
            if negb saved then
              write "PRIVMSG"
                [replyTarget; "Error saving user levels: failed to create settings file"]
            else
              write "PRIVMSG"
                [replyTarget;
                 "User " ++ target ++ " level changed from " ++ currentLevelName
                 ++ " to " ++ userlevels.LevelName level]
      end
  | _ =>
      let* _ := write "PRIVMSG" [replyTarget; "Usage: !setlevel <user> <level>"] in
      write "PRIVMSG"
        [replyTarget; "Available levels: owner, admin, regular, badboy, ignored"]
  end.

Definition ignoreUserCmd (m : irc.Message) (args : list string) : M unit :=
  match args with
  | [] =>
      let* target0 := param0 m in
      let* w := get in
      let replyTarget :=
        if String.eqb target0 (CurrentNick w) then irc.Name (irc.prefix m) else target0 in
      write "PRIVMSG" [replyTarget; "Usage: !ignore <nick>"]
  | nick :: _ => setLevelCmd m [nick; "ignored"]
  end.

Definition unignoreUserCmd (m : irc.Message) (args : list string) : M unit :=
  match args with
  | [] =>
      let* target0 := param0 m in
      let* w := get in
      let replyTarget :=
        if String.eqb target0 (CurrentNick w) then irc.Name (irc.prefix m) else target0 in
      write "PRIVMSG" [replyTarget; "Usage: !unignore <nick>"]
  | nick :: _ => setLevelCmd m [nick; "regular"]
  end.

(** *** [findBreakPoint]

    [text[i] == c], asked only where the source has checked the bounds. *)
Definition byteIs (text : string) (i : Z) (c : ascii) : bool :=
  match strings.byteAt text (Z.to_nat i) with
  | Some b => (0 <=? i)%Z && Ascii.eqb b c
  | None => false
  end.

(** [for i := maxLength; i >= lowest && i > 0; i--], looking for the
    first [i] that [found] accepts.  The loop makes at most 51 turns, and
    [steps] counts them. *)
Fixpoint scanDown (found : Z -> bool) (lowest i : Z) (steps : nat) : option Z :=
  match steps with
  | O => None
  | S steps' =>
      if (lowest <=? i)%Z && (0 <? i)%Z
      then (if found i then Some i else scanDown found lowest (i - 1) steps')
      else None
  end.

Definition findBreakPoint (text : string) (maxLength : Z) : Z :=
  let len := Z.of_nat (String.length text) in
  if (len <=? maxLength)%Z then len
  else
    let endOrSpace i := (len <=? i + 1)%Z || byteIs text (i + 1) " " in
    let scan found := scanDown found (maxLength - 50) maxLength 51 in
    match scan (fun i => (i <? len)%Z
                         && (byteIs text i "." || byteIs text i "!" || byteIs text i "?")
                         && endOrSpace i) with
    | Some i => i + 1
    | None =>
    match scan (fun i => (i <? len)%Z
                         && (byteIs text i "," || byteIs text i ";" || byteIs text i ":")
                         && endOrSpace i) with
    | Some i => i + 1
    | None =>
    match scan (fun i => (i <? len)%Z && byteIs text i "|" && (0 <? i)%Z
                         && byteIs text (i - 1) " " && (i + 1 <? len)%Z
                         && byteIs text (i + 1) " ") with
    | Some i => i + 2
    | None =>
    match scan (fun i => (i <? len)%Z && byteIs text i " ") with
    | Some i => i + 1
    | None => maxLength
    end end end end.

End commands.

(** ** Package [handlers]: the event dispatcher and the owner handshake *)
Module handlers.

Definition containsNick (u : strings.Unicode) (nick text : string) : bool :=
  let lowerText := strings.ToLower u text in
  let lowerNick := strings.ToLower u nick in
  let patterns :=
    [lowerNick ++ " "; " " ++ lowerNick; lowerNick ++ ":"; lowerNick ++ ",";
     lowerNick ++ "."; lowerNick ++ "?"; lowerNick ++ "!"; "@" ++ lowerNick] in
  if String.eqb lowerText lowerNick then true
  else if strings.HasPrefix lowerText lowerNick
          && (String.length lowerNick <? String.length lowerText)%nat
          && match strings.byteAt lowerText (String.length lowerNick) with
             | Some nextChar =>
                 Ascii.eqb nextChar " " || strings.containsByte ",:;.!?" nextChar
             | None => false
             end
  then true
  else if existsb (strings.Contains lowerText) patterns then true
  else if strings.Contains lowerText (" " ++ lowerNick ++ " ") then true
  else if strings.HasSuffix lowerText (" " ++ lowerNick) then true
  else existsb (fun word => String.eqb word lowerNick
                            || String.eqb (strings.TrimRight word ",:;.!?") lowerNick)
               (strings.Fields lowerText).

(** The [switch m.Command] of [dispatchToPlugins] for one module. *)
Definition specialized (u : strings.Unicode) (botNick : string) (plug : plugin.Plugin)
    (m : irc.Message) : list plugin.Call :=
  let handler c := if plugin.satisfies plug c then [plugin.CallEvent plug c m] else [] in
  let command s := String.eqb (irc.Command m) s in
  if command "PRIVMSG" then
    (handler plugin.PrivMsgHandler
     ++ (if containsNick u botNick (irc.Trailing m)
         then handler plugin.NickMentionHandler else []))%list
  else if command "KICK" then handler plugin.KickHandler
  else if command "JOIN" then handler plugin.JoinHandler
  else if command "PART" then handler plugin.PartHandler
  else if command "QUIT" then handler plugin.QuitHandler
  else if command "NICK" then handler plugin.NickHandler
  else if command "INVITE" then handler plugin.InviteHandler
  else if command "TOPIC" || command "332" || command "333" then handler plugin.TopicChangeHandler
  else if command "NOTICE" then handler plugin.NoticeHandler
  else if command "ERROR" then handler plugin.ErrorHandler
  else if command "MODE" then handler plugin.ModeHandler
  else [].

(** What [dispatchToPlugins] calls, module after module. *)
Definition fanOut (u : strings.Unicode) (botNick : string) (plugs : list plugin.Plugin)
    (m : irc.Message) : list plugin.Call :=
  List.flat_map (fun plug => plugin.CallOnMessage plug m :: specialized u botNick plug m)
                plugs.

Definition dispatchToPlugins (m : irc.Message) : M unit :=
  let* w := get in
  emits (List.map Hook
           (fanOut (unicode w) (CurrentNick w) (plugin.GetPluginList (mgr w)) m)).

(** Lines 33 to 77 of [HandleChannelMessage]: the answer is [true]
    where the source returns. *)
Definition channelSpamProtection (userNick hostmask channel : string) : M bool :=
  let* tracked := TrackMessage hostmask in
  if fst tracked then
    let* reached := AddWarning hostmask in
    if reached then
      let* _ := SetUserLevel hostmask userlevels.Ignored in
      let* _ := SaveHostmasks in
      let* _ := write "PRIVMSG"
        [channel;
         "User " ++ userNick ++ " has been automatically ignored for spam protection."] in
      ret true
    else
      let* w := get in
      let warningCount := security.GetWarningCount (GlobalMessageTracker w) hostmask in
      let threshold := security.GetWarningThreshold (GlobalMessageTracker w) in
      let* _ := write "NOTICE"
        [userNick;
         "Warning (" ++ pretty warningCount ++ "/" ++ pretty threshold
         ++ "): Please slow down to avoid being automatically ignored."] in
      ret false
  else ret false.

Definition HandleChannelMessage (m : irc.Message) : M unit :=
  let message := irc.Trailing m in
  let userNick := irc.Name (irc.prefix m) in
  let* channel := param0 m in
  let hostmask := irc.String (irc.prefix m) in
  let* w := get in
  if (GetUserLevelByHostmask w hostmask =? userlevels.Ignored)%Z then ret tt
  else
    let* stop := channelSpamProtection userNick hostmask channel in
    if stop then ret tt
    else
      let* w := get in
      let isBotMentioned := containsNick (unicode w) (CurrentNick w) message in
      let isCommand := strings.HasPrefix message "!" in
      if isBotMentioned then
        let useAI :=
          match BotConfig w with
          | None => false
          | Some cfg =>
              match config.GetChannelSetting cfg channel "use_ai_for_mentions"
                      (config.VBool true) with
              | config.VBool boolValue => boolValue
              | config.VString strValue =>
                  String.eqb strValue "true" || String.eqb strValue "1"
                  || String.eqb strValue "yes"
              | config.VOther => false
              end
          end in
        if useAI then emit (HandleAIResponse channel userNick) else ret tt
      else if isCommand then commands.HandleCommand m
      else ret tt.

Definition SetPendingVerification (userNick : string) (pending : bool) : M unit :=
  modify (fun w => set_pending (<[userNick := pending]> (PendingVerifications w)) w).

Definition checkPendingVerification (w : World) (userNick : string) : bool :=
  match PendingVerifications w !! userNick with
  | Some isPending => isPending
  | None =>
      match List.find (fun e => strings.EqualFold (unicode w) userNick (fst e))
                      (map_to_list (PendingVerifications w)) with
      | Some e => snd e
      | None => false
      end
  end.

Definition checkIfOwner (w : World) (hostmask : string) : bool :=
  match config.LoadSettings (disk w) with
  | None => false
  | Some settings =>
      config.OwnerVerified settings
      && negb (String.eqb (config.OwnerHostmask settings) "")
      && String.eqb hostmask (config.OwnerHostmask settings)
  end.

(** The loops that send a list of lines to one nickname, skipping the
    blank ones. *)
Fixpoint sendLines (nick : string) (messages : list string) : M unit :=
  match messages with
  | [] => ret tt
  | msg :: rest =>
      if String.eqb (strings.TrimSpace msg) "" then sendLines nick rest
      else let* _ := write "PRIVMSG" [nick; msg] in sendLines nick rest
  end.

Definition handleOwnerVerification (ownerNick message : string) (m : irc.Message)
    : M unit :=
  let passphrase := strings.TrimSpace message in
  let hostmask := irc.String (irc.prefix m) in
  let* w := get in
  if String.eqb passphrase (VerificationPassphrase w) then
    match GenerateHash w passphrase with
    | None =>
        write "PRIVMSG"
          [ownerNick;
           "Verification failed due to an internal error. Please restart the bot."]
    | Some passphraseHash =>
        let hostmasks :=
          [{| config.Hostmask := hostmask; config.Level := userlevels.Owner |}] in
        let settings :=
          {| config.OwnerVerified := true; config.OwnerPasshash := passphraseHash;
             config.OwnerHostmask := hostmask; config.HostmaskLevels := true;
             config.Hostmasks := hostmasks |} in
        let* saved := SaveSettings settings in
        if negb saved then
          write "PRIVMSG"
            [ownerNick;
             "Verification failed due to an error saving settings. Please restart the bot."]
        else
          let* _ := SetUserLevelByHostmask hostmask userlevels.Owner in
          let* _ := SetPendingVerification ownerNick false in
          sendLines ownerNick
            ["✅ Verification successful!"; "";
             "You are now confirmed as the bot owner with the hostmask:";
             hostmask; "";
             "This hostmask will be used for all future authentication,"; "";
             "You can use the following command to set permission levels for other users:";
             "!setlevel <hostmask> <level>"; "";
             "Available levels: owner, admin, regular, badboy"]
    end
  else
    sendLines ownerNick
      ["❌ Verification failed!"; "";
       "The passphrase you provided did not match the one configured during setup.";
       "Please try again with the correct passphrase."; "";
       "If you've forgotten the passphrase, you'll need to restart the bot";
       "and go through the security setup process again."].

Definition handleSetLevelCommand (m : irc.Message) (message : string) : M unit :=
  let userNick := irc.Name (irc.prefix m) in
  let* w := get in
  match strings.Fields message with
  | [_; targetHostmask; levelWord] =>
      let levelStr := strings.ToLower (unicode w) levelWord in
      let level :=
        if String.eqb levelStr "owner" then Some userlevels.Owner
        else if String.eqb levelStr "admin" then Some userlevels.Admin
        else if String.eqb levelStr "regular" then Some userlevels.Regular
        else if String.eqb levelStr "badboy" then Some userlevels.BadBoy
        else None in
      match level with
      | None =>
          write "PRIVMSG" [userNick; "Invalid level. Use: owner, admin, regular, or badboy"]
      | Some level =>
          let* _ := SetUserLevelByHostmask targetHostmask level in
          let* saved := SaveHostmasks in
          if negb saved then
            write "PRIVMSG"
              [userNick; "Error saving hostmask levels: failed to create settings file"]
          else
            write "PRIVMSG"
              [userNick; "User level for " ++ targetHostmask ++ " set to " ++ levelStr]
      end
  | _ => write "PRIVMSG" [userNick; "Invalid format. Use: !setlevel <hostmask> <level>"]
  end.

Definition handleUnauthorizedCommand (userNick hostmask : string) : M unit :=
  write "PRIVMSG" [userNick; "You are not authorized to use bot commands."].

Definition sendDefaultResponse (userNick : string) : M unit :=
  write "PRIVMSG"
    [userNick; "I am just a bot, And i am only answering in channels right now.."].

(** Lines 25 to 69 of [HandlePrivateMessage]. *)
Definition privateSpamProtection (userNick hostmask : string) : M bool :=
  let* tracked := TrackMessage hostmask in
  if fst tracked then
    let* reached := AddWarning hostmask in
    if reached then
      let* _ := SetUserLevel hostmask userlevels.Ignored in
      let* _ := SaveHostmasks in
      let* _ := write "NOTICE"
        [userNick; "You have been automatically ignored for spam protection."] in
      ret true
    else
      let* w := get in
      let warningCount := security.GetWarningCount (GlobalMessageTracker w) hostmask in
      let threshold := security.GetWarningThreshold (GlobalMessageTracker w) in
      let* _ := write "NOTICE"
        [userNick;
         "Warning (" ++ pretty warningCount ++ "/" ++ pretty threshold
         ++ "): Please slow down to avoid being automatically ignored."] in
      ret false
  else ret false.

Definition HandlePrivateMessage (m : irc.Message) : M unit :=
  let message := irc.Trailing m in
  let userNick := irc.Name (irc.prefix m) in
  let hostmask := irc.String (irc.prefix m) in
  let* w := get in
  if (GetUserLevelByHostmask w hostmask =? userlevels.Ignored)%Z then ret tt
  else
    let* stop := privateSpamProtection userNick hostmask in
    if stop then ret tt
    else
      let* w := get in
      let isPending := checkPendingVerification w userNick in
      let isOwner := checkIfOwner w hostmask in
      let isSetLevelCmd := strings.HasPrefix message "!setlevel " in
      let isCommand := strings.HasPrefix message "!" in
      if isPending then handleOwnerVerification userNick message m
      else if isOwner && isSetLevelCmd then handleSetLevelCommand m message
      else if isCommand && negb isOwner then handleUnauthorizedCommand userNick hostmask
      else if String.eqb (strings.TrimSpace message) "" then ret tt
      else sendDefaultResponse userNick.

(** [HandleMessages] on a chat line: the [CMD_PRIVMSG] arm of its switch,
    then the fan-out that follows the switch for every command.  The
    other arms of the switch only log and keep the connection alive. *)
Definition HandleMessages (m : irc.Message) : M unit :=
  let* w := get in
  let* _ :=
    match irc.Params m with
    | p :: _ =>
        if String.eqb p (CurrentNick w) then HandlePrivateMessage m
        else HandleChannelMessage m
    | [] => HandleChannelMessage m
    end in
  dispatchToPlugins m.

Definition SetVerificationPassphrase (passphrase : string) (w : World) : World :=
  {| unicode := unicode w; now := now w; CurrentNick := CurrentNick w; disk := disk w;
     GenerateHash := GenerateHash w; levels := levels w;
     GlobalMessageTracker := GlobalMessageTracker w; mgr := mgr w;
     commandRegistry := commandRegistry w;
     CheckPluginCommands := CheckPluginCommands w; BotConfig := BotConfig w;
     PendingVerifications := PendingVerifications w;
     VerificationPassphrase := passphrase; out := out w |}.

(** [SendOwnerVerificationRequest], the connection accepting every line:
    a write error would end the loop after the line that failed. *)
Definition SendOwnerVerificationRequest (ownerNick : string) : M unit :=
  let* _ := SetPendingVerification ownerNick true in
  sendLines ownerNick
    ["🔒 SECURITY VERIFICATION 🔒";
     "Hello! I am your new IRC bot. Security verification is required.";
     "Please confirm you are the owner by replying with the passphrase";
     "that was shown in the terminal during first run setup.";
     "";
     "After verification, your full hostmask will be used for authentication,";
     "providing much stronger security than nickname-based verification."].

Definition CheckForURL (message : string) : bool := strings.Contains message "http".

(** [HandlePing]: the answer to a [PING]. *)
Definition HandlePing (m : irc.Message) : M unit := write "PONG" [irc.Trailing m].

End handlers.

(** What a handler emitted, started in world [w]; [None] for a panic. *)
Definition emitted {A} (c : M A) (w : World) : option (list Event) :=
  match c w with
  | Some (_, w') => Some (drop (length (out w)) (out w'))
  | None => None
  end.

(** ** Package [api]: what the modules are given *)
Module api.

Definition CheckUserPermission (w : World) (hostmask : string)
    (required : userlevels.UserLevel) : bool :=
  HasPermission w hostmask required.

Definition IsUserAdmin (w : World) (hostmask : string) : bool :=
  CheckUserPermission w hostmask userlevels.Admin.

Definition IsUserOwner (w : World) (hostmask : string) : bool :=
  userlevels.IsVerifiedOwner (unicode w) (disk w) (levels w) hostmask.

Definition IsKnownHostmask (w : World) (hostmask : string) : bool :=
  (userlevels.Regular <? GetUserLevelByHostmask w hostmask)%Z.

(** The double quote, which a Rocq string cannot hold undoubled. *)
Definition quote : ascii := ascii_of_nat 34.

(** The loop of [ParseCommandArgs], with the argument under way and
    whether a quote is open.  The source ranges over the runes of the
    text: [pending] bytes of the rune under way are still to be written,
    and a byte that starts no valid encoding is written as [RuneError]. *)
Fixpoint parseFrom (commandText currentArg : string) (inQuotes : bool) (pending : nat)
    : list string :=
  match commandText with
  | EmptyString => if String.eqb currentArg "" then [] else [currentArg]
  | String char rest =>
      match pending with
      | S pending' => parseFrom rest (currentArg ++ String char EmptyString) inQuotes pending'
      | O =>
          if Ascii.eqb char quote then parseFrom rest currentArg (negb inQuotes) 0
          else if Ascii.eqb char " " then
            if inQuotes then parseFrom rest (currentArg ++ " ") inQuotes 0
            else if String.eqb currentArg "" then parseFrom rest currentArg inQuotes 0
            else currentArg :: parseFrom rest "" inQuotes 0
          else
            match utf8.decodeWidth commandText with
            | O => parseFrom rest (currentArg ++ utf8.RuneError) inQuotes 0
            | S width' =>
                parseFrom rest (currentArg ++ String char EmptyString) inQuotes width'
            end
      end
  end.

Definition ParseCommandArgs (commandText : string) : list string :=
  parseFrom commandText "" false 0.

End api.

(** ** Scenarios: concrete worlds the theorems are exercised on *)
Module scenario.

Definition ping : Command :=
  {| Name := "ping"; Description := "answers pong"; RequiredLevel := userlevels.Regular |}.

Definition say : Command :=
  {| Name := "say"; Description := "speaks in a channel"; RequiredLevel := userlevels.Admin |}.

Definition help : Command :=
  {| Name := "help"; Description := "lists the commands"; RequiredLevel := userlevels.Regular |}.

Definition mallory : irc.Prefix :=
  {| irc.Name := "mallory"; irc.User := "m"; irc.Host := "evil.example" |}.

Definition alice : irc.Prefix :=
  {| irc.Name := "alice"; irc.User := "al"; irc.Host := "home.example" |}.

(** A chat line [PRIVMSG target :text] from [p]. *)
Definition line (p : irc.Prefix) (target text : string) : irc.Message :=
  {| irc.prefix := p; irc.Command := "PRIVMSG"; irc.Params := [target; text] |}.

(** A module that only listens, with no [OnUnload] method. *)
Definition listener (v : string) : plugin.Plugin :=
  {| plugin.Name := "Listener"; plugin.Version := v; plugin.OnLoad := None;
     plugin.Unloader := None; plugin.CommandHandler := None;
     plugin.implements := [plugin.PrivMsgHandler] |}.

(** A module with a command of its own and an [OnUnload] method. *)
Definition greeter (v : string) : plugin.Plugin :=
  {| plugin.Name := "Greeter"; plugin.Version := v; plugin.OnLoad := None;
     plugin.Unloader := Some None; plugin.CommandHandler := Some ["greet"];
     plugin.implements := [plugin.JoinHandler] |}.

Definition loaded (plug : plugin.Plugin) (path : string) : plugin.pluginInfo :=
  {| plugin.plugin := plug; plugin.version := plugin.Version plug;
     plugin.loadTimestamp := 0; plugin.filePath := path |}.

Definition registry (plugs : list (plugin.Plugin * string)) : plugin.manager :=
  {| plugin.plugins :=
       list_to_map (List.map (fun e => (plugin.Name (fst e), loaded (fst e) (snd e))) plugs);
     plugin.pluginPaths :=
       list_to_map (List.map (fun e => (plugin.Name (fst e), snd e)) plugs) |}.

(** The files of the plugin directory. *)
Definition artifacts (path : string) : plugin.Artifact :=
  if String.eqb path "plugins/listener_v1.so" then plugin.Exports (listener "1.0.0")
  else if String.eqb path "plugins/listener_v2.so" then plugin.Exports (listener "2.0.0")
  else if String.eqb path "plugins/greeter_v1.so" then plugin.Exports (greeter "1.0.0")
  else if String.eqb path "plugins/greeter_v2.so" then plugin.Exports (greeter "2.0.0")
  else if String.eqb path "plugins/README.so" then plugin.NoPluginSymbol
  else plugin.CannotOpen.

(** #quiet denies [greet] and allows only [say]. *)
Definition quiet : config.ChannelConfig :=
  {| config.EnabledCommands := ["say"]; config.DisabledCommands := ["greet"];
     config.ChannelConfig_Settings := ∅ |}.

(** [&quiet], a channel of the server-local kind, has the same policy. *)
Definition botConfig : config.Config :=
  {| config.ChannelSettings := <["#quiet" := quiet]> (<["&quiet" := quiet]> ∅) |}.

(** The texts of the scenarios are ASCII, for which the case tables are
    not consulted: these stand in their place. *)
Definition tables : strings.Unicode :=
  {| strings.MapToLower := fun s => s; strings.foldRunes := String.eqb |}.

(** A bot just started: default rate limits, three built-in commands, two
    modules, no settings file, and the levels given. *)
Definition world (hostmaskLevels : list (string * Z)) : World :=
  {| unicode := tables; now := 1000 * security.Second; CurrentNick := "mbot";
     disk := {| config.settings_file := config.NoFile; config.writable := true |};
     GenerateHash := fun passphrase => Some ("$argon2id$v=19$" ++ passphrase);
     levels := {| userlevels.users := ∅;
                  userlevels.hostmaskUsers := list_to_map hostmaskLevels |};
     GlobalMessageTracker := security.NewMessageTracker;
     mgr := registry [(listener "1.0.0", "plugins/listener_v1.so");
                      (greeter "1.0.0", "plugins/greeter_v1.so")];
     commandRegistry := <["ping" := ping]> (<["say" := say]> (<["help" := help]> ∅));
     CheckPluginCommands := true; BotConfig := Some botConfig;
     PendingVerifications := <["Alice" := true]> ∅;
     VerificationPassphrase := "open sesame";
     out := [] |}.

(** The same handler call [n] times in a row. *)
Fixpoint times (n : nat) (c : M unit) : M unit :=
  match n with
  | O => ret tt
  | S n' => let* _ := c in times n' c
  end.

End scenario.

(** ** Notions the theorems are stated with *)

(** An event that executes a command: a built-in handler or a module's
    [HandleCommand]. *)
Definition runsCommand (e : Event) : bool :=
  match e with
  | RunHandler _ _ _ => true
  | Hook (plugin.CallHandleCommand _ _ _ _) => true
  | _ => false
  end.

(** The world after the tracker recorded a command. *)
Definition tracked (hostmask baseCommand : string) (w : World) : World :=
  set_tracker (snd (security.TrackCommand (now w) hostmask baseCommand
                      (GlobalMessageTracker w))) w.

Definition exceeded (hostmask baseCommand : string) (w : World) : bool :=
  fst (fst (security.TrackCommand (now w) hostmask baseCommand (GlobalMessageTracker w))).

(** The world after a warning was added to a tracked command. *)
Definition warned (hostmask baseCommand : string) (w : World) : World :=
  let w1 := tracked hostmask baseCommand w in
  set_tracker (snd (security.AddWarning hostmask (GlobalMessageTracker w1))) w1.

Definition reached (hostmask baseCommand : string) (w : World) : bool :=
  fst (security.AddWarning hostmask
         (GlobalMessageTracker (tracked hostmask baseCommand w))).

Definition warningNotice (userNick hostmask baseCommand : string) (w : World) : Event :=
  let t := GlobalMessageTracker (warned hostmask baseCommand w) in
  Write "NOTICE"
    [userNick;
     "Warning (" ++ pretty (security.GetWarningCount t hostmask) ++ "/"
     ++ pretty (security.GetWarningThreshold t)
     ++ "): Please slow down command usage to avoid being automatically ignored."].

Definition ignoreNotices (userNick replyTarget : string) (isChannelMsg : bool)
    : list Event :=
  Write "NOTICE"
    [userNick; "You have been automatically ignored for command spam protection."]
  :: (if isChannelMsg
      then [Write "PRIVMSG"
              [replyTarget;
               "User " ++ userNick
               ++ " has been automatically ignored for command spam protection."]]
      else []).

(** The world after the automatic demotion, as the router performs it. *)
Definition demoted (hostmask baseCommand : string) (w : World) : World :=
  let w2 := set_levels (userlevels.SetUserLevel hostmask userlevels.Ignored
                          (levels (warned hostmask baseCommand w)))
                       (warned hostmask baseCommand w) in
  set_disk (snd (userlevels.SaveHostmasks (levels w2) (disk w2))) w2.

(** The sender, target and command of a command line, as [HandleCommand]
    computes them. *)
Record Parsed := {
  baseCommand : string;
  args : list string;
  replyTarget : string;
  isChannelMsg : bool
}.

Definition parse (w : World) (m : irc.Message) : option Parsed :=
  match strings.Fields (strings.TrimSpace (irc.Trailing m)), irc.Params m with
  | part0 :: args, target :: _ =>
      let toBot := String.eqb target (CurrentNick w) in
      Some {| baseCommand := strings.TrimPrefix part0 "!";
              args := args;
              replyTarget := if toBot then irc.Name (irc.prefix m) else target;
              isChannelMsg := if toBot then false else strings.HasPrefix target "#" |}
  | _, _ => None
  end.

(** ** More scenarios *)
Module scenes.

Definition pingLine : irc.Message := scenario.line scenario.mallory "#chan" "!ping".

(** The fresh world after [n] [!ping] lines of mallory at one instant. *)
Definition afterPings (n : nat) : World :=
  match scenario.times n (commands.HandleCommand pingLine) (scenario.world []) with
  | Some (_, w) => w
  | None => scenario.world []
  end.

(** alice is the verified owner, on disk and in memory. *)
Definition ownerWorld : World :=
  set_disk
    {| config.settings_file :=
         config.File
           {| config.OwnerVerified := true; config.OwnerPasshash := "$argon2id$v=19$";
              config.OwnerHostmask := irc.String scenario.alice;
              config.HostmaskLevels := true;
              config.Hostmasks :=
                [{| config.Hostmask := irc.String scenario.alice;
                    config.Level := userlevels.Owner |}] |};
       config.writable := true |}
    (scenario.world [(irc.String scenario.alice, userlevels.Owner)]).


Definition greetLine : irc.Message :=
  scenario.line scenario.mallory "#quiet" "!greet everyone".



(** mallory is a BadBoy. *)
Definition badBoyWorld : World :=
  scenario.world [(irc.String scenario.mallory, userlevels.BadBoy)].

(** mallory is ignored. *)
Definition ignoredWorld : World :=
  scenario.world [(irc.String scenario.mallory, userlevels.Ignored)].

End scenes.

(** Whether a module declares a command, and whether the table of
    legacy commands lists it for the module: the two tests of
    [HandlePluginCommand]. *)
Definition declares (plug : plugin.Plugin) (cmd : string) : bool :=
  match plugin.CommandHandler plug with
  | Some cmds => config.inCommands cmds cmd
  | None => false
  end.

Definition legacy (plug : plugin.Plugin) (cmd : string) : bool :=
  match plugin.knownLegacyCommands !! plugin.Name plug with
  | Some cmds => config.inCommands cmds cmd
  | None => false
  end.

Module scenes2.

Definition hello : irc.Message := scenario.line scenario.mallory "#chan" "hello mbot".

End scenes2.

(** The calls of the fan-out: [OnMessage] and the event handlers.  A
    module's [HandleCommand] is not one of them. *)
Definition isFanOut (e : Event) : bool :=
  match e with
  | Hook (plugin.CallOnMessage _ _) => true
  | Hook (plugin.CallEvent _ _ _) => true
  | _ => false
  end.

(** *** The sliding window on one record

    What [TrackMessage] and [TrackCommand] do to the timestamps of one
    identity: append the instant, prune what the window has left behind,
    count. *)
Definition slide (window now : Z) (recorded : list Z) : list Z :=
  List.filter (fun t => security.After t (now - window)) (recorded ++ [now])%list.

Fixpoint slides (window max : Z) (ts recorded : list Z) : list bool :=
  match ts with
  | [] => []
  | now :: rest =>
      (max <? Z.of_nat (length (slide window now recorded)))%Z
      :: slides window max rest (slide window now recorded)
  end.

Definition messagesOf (m : security.MessageTracker) (hostmask : string) : list Z :=
  default [] (security.userMessages m !! hostmask).

Definition commandsOf (m : security.MessageTracker) (hostmask commandName : string)
    : list Z :=
  default [] (default ∅ (security.userCommandUsage m !! hostmask) !! commandName).

(** The instants [ts] come in the order of the clock and all lie within
    one window: the last one is less than [window] after the first. *)
Definition within (window : Z) (ts : list Z) : Prop :=
  match ts with
  | [] => True
  | first :: _ => StronglySorted Z.le ts /\ List.last ts first - first < window
  end.

(** Each instant of [ts] comes more than [window] after the one before
    it, the first one more than [window] after everything in [recorded]. *)
Fixpoint spaced (window : Z) (recorded ts : list Z) : Prop :=
  match ts with
  | [] => True
  | t :: rest => Forall (fun p => window < t - p) recorded /\ spaced window [t] rest
  end.

Module bursts.

Definition sixMessages : list Z :=
  List.map (fun k => (1000 + k) * security.Second) [0; 1; 2; 3; 4; 5].

Definition elevenCommands : list Z :=
  List.map (fun k => (1000 + 2 * k) * security.Second) [0; 1; 2; 3; 4; 5; 6; 7; 8; 9; 10].

Definition fiveMessages : list Z :=
  List.map (fun k => (1000 + 11 * k) * security.Second) [0; 1; 2; 3; 4].

Definition tenCommands : list Z :=
  List.map (fun k => (1000 + 31 * k) * security.Second) [0; 1; 2; 3; 4; 5; 6; 7; 8; 9].

End bursts.

(** The world after [TrackMessage] recorded a line of [hostmask]. *)
Definition trackedMessage (hostmask : string) (w : World) : World :=
  set_tracker (snd (security.TrackMessage (now w) hostmask (GlobalMessageTracker w))) w.

(** The settings [handleOwnerVerification] writes for a verified owner. *)
Definition ownerSettings (hostmask passphraseHash : string) : config.Settings :=
  {| config.OwnerVerified := true; config.OwnerPasshash := passphraseHash;
     config.OwnerHostmask := hostmask; config.HostmaskLevels := true;
     config.Hostmasks :=
       [{| config.Hostmask := hostmask; config.Level := userlevels.Owner |}] |}.

Module handshake.

(** alice answers the challenge in private, with white space around. *)
Definition goodReply : irc.Message := scenario.line scenario.alice "mbot" "  open sesame ".

(** U+00A0, the no-break space, in UTF-8; and the passphrase with one
    after it, as a client may send it. *)
Definition nbsp : string := String (ascii_of_nat 194) (String (ascii_of_nat 160) "").



End handshake.

(** Who the settings on disk name as the verified owner. *)
Definition verifiedOwner (d : config.Disk) : option string :=
  match config.LoadSettings d with
  | Some settings =>
      if config.OwnerVerified settings
         && negb (String.eqb (config.OwnerHostmask settings) "")
      then Some (config.OwnerHostmask settings)
      else None
  | None => None
  end.

(** The entry of the settings file for one record of [hostmaskUsers]. *)
Definition entryOf (e : string * Z) : config.HostmaskEntry :=
  {| config.Hostmask := fst e; config.Level := snd e |}.

(** The tracker after [n] successive warnings to one identity. *)
Fixpoint warnings (n : nat) (hostmask : string) (m : security.MessageTracker)
    : security.MessageTracker :=
  match n with
  | O => m
  | S n' => snd (security.AddWarning hostmask (warnings n' hostmask m))
  end.

(** Whether the line of [hostmask] that arrives in [w] is over the
    message rate. *)
Definition messageExceeded (hostmask : string) (w : World) : bool :=
  fst (fst (security.TrackMessage (now w) hostmask (GlobalMessageTracker w))).

(** The calls of the generic hook, [OnMessage]. *)
Definition isOnMessage (call : plugin.Call) : bool :=
  match call with
  | plugin.CallOnMessage _ _ => true
  | _ => false
  end.

(** Whether mentions of the bot in [channel] are answered by the AI: the
    channel setting [use_ai_for_mentions], on by default. *)
Definition useAIForMentions (w : World) (channel : string) : bool :=
  match BotConfig w with
  | None => false
  | Some cfg =>
      match config.GetChannelSetting cfg channel "use_ai_for_mentions" (config.VBool true) with
      | config.VBool boolValue => boolValue
      | config.VString strValue =>
          String.eqb strValue "true" || String.eqb strValue "1" || String.eqb strValue "yes"
      | config.VOther => false
      end
  end.

(** A handler that never panics and whose events all satisfy [P]. *)
Definition emitsOnly {A} (P : Event -> Prop) (c : M A) : Prop :=
  forall w, exists a w' es,
    c w = Some (a, w') /\ out w' = (out w ++ es)%list /\ Forall P es.

(** A line written to [nick]. *)
Definition isReplyTo (nick : string) (e : Event) : Prop :=
  exists command text, e = Write command [nick; text].

(** The [pending] bytes at the head of [s] continue a rune: they are
    there and lie between 0x80 and 0xBF. *)
Fixpoint continuation (s : string) (pending : nat) {struct pending} : bool :=
  match pending, s with
  | O, _ => true
  | S pending', String c rest => utf8.between 128 191 c && continuation rest pending'
  | S _, EmptyString => false
  end.

(** * Theorems *)

(** ** Go's [strings] on examples *)

Example Fields_example :
  strings.Fields "  !say   hello world " = ["!say"; "hello"; "world"].
Proof. reflexivity. Qed.

Example Split_example :
  strings.Split "nick!user@host" "!" = ["nick"; "user@host"].
Proof. reflexivity. Qed.

Example TrimSpace_example : strings.TrimSpace "  secret words  " = "secret words".
Proof. reflexivity. Qed.

(** White space beyond ASCII: U+00A0 before the text and U+3000 after it
    are trimmed, and U+00A0 separates fields. *)
Example TrimSpace_Unicode_example :
  let ideographicSpace :=
    String (ascii_of_nat 227) (String (ascii_of_nat 128) (String (ascii_of_nat 128) "")) in
  strings.TrimSpace (handshake.nbsp ++ "secret words" ++ ideographicSpace) = "secret words".
Proof. reflexivity. Qed.

Example Fields_Unicode_example :
  strings.Fields ("!setlevel" ++ handshake.nbsp ++ "bob admin") = ["!setlevel"; "bob"; "admin"].
Proof. reflexivity. Qed.

(** The byte 0xA0 alone is no white space: it encodes no rune. *)
Example TrimSpace_invalid_example :
  strings.TrimSpace (" x" ++ String (ascii_of_nat 160) " ") = "x" ++ String (ascii_of_nat 160) "".
Proof. reflexivity. Qed.

(** Letter case: ASCII text is folded byte by byte, whatever the tables;
    text with a byte beyond ASCII is left to them. *)
Example ToLower_example (u : strings.Unicode) :
  strings.ToLower u "ADMIN" = "admin"
  /\ strings.EqualFold u "Alice" "aLICE" = true
  /\ strings.EqualFold u "Alice" "Alicia" = false
  /\ (forall s, strings.isASCII s = false -> strings.ToLower u s = strings.MapToLower u s).
Proof.
  repeat split. intros s Hs. unfold strings.ToLower. now rewrite Hs.
Qed.

(** [range] over a text with a two-byte rune keeps its bytes together. *)
Example ParseCommandArgs_example :
  let e := String (ascii_of_nat 195) (String (ascii_of_nat 169) "") in
  api.ParseCommandArgs ("caf" ++ e ++ " au lait") = ["caf" ++ e; "au"; "lait"].
Proof. reflexivity. Qed.

(** ** Channel policy (package [config]) *)






(** ** The command router (package [commands]) *)

Lemma spamProtection_quiet userNick hostmask baseCommand replyTarget isChannelMsg w :
  exceeded hostmask baseCommand w = false ->
  commands.spamProtection userNick hostmask baseCommand replyTarget isChannelMsg w
  = Some (false, tracked hostmask baseCommand w).
Proof.
  unfold exceeded, tracked, commands.spamProtection, bind, TrackCommand.
  destruct (security.TrackCommand _ _ _ _) as [[e c] t]; simpl.
  intros ->. reflexivity.
Qed.

Lemma spamProtection_warns userNick hostmask baseCommand replyTarget isChannelMsg w :
  exceeded hostmask baseCommand w = true ->
  reached hostmask baseCommand w = false ->
  commands.spamProtection userNick hostmask baseCommand replyTarget isChannelMsg w
  = Some (false,
          set_out (out w ++ [warningNotice userNick hostmask baseCommand w])%list
                  (warned hostmask baseCommand w)).
Proof.
  unfold exceeded, reached, warningNotice, warned, tracked, commands.spamProtection,
    bind, TrackCommand, AddWarning.
  destruct (security.TrackCommand _ _ _ _) as [[e c] t]; simpl.
  intros ->. simpl.
  destruct (security.AddWarning hostmask t) as [r t'] eqn:E; simpl.
  intros ->. reflexivity.
Qed.

Lemma spamProtection_ignores userNick hostmask baseCommand replyTarget isChannelMsg w :
  exceeded hostmask baseCommand w = true ->
  reached hostmask baseCommand w = true ->
  commands.spamProtection userNick hostmask baseCommand replyTarget isChannelMsg w
  = Some (true,
          set_out (out w ++ ignoreNotices userNick replyTarget isChannelMsg)%list
                  (demoted hostmask baseCommand w)).
Proof.
  unfold exceeded, reached, ignoreNotices, demoted, warned, tracked,
    commands.spamProtection, bind, TrackCommand, AddWarning.
  destruct (security.TrackCommand _ _ _ _) as [[e c] t]; simpl.
  intros ->. simpl.
  destruct (security.AddWarning hostmask t) as [r t'] eqn:E; simpl.
  intros ->. unfold SaveHostmasks, SetUserLevel, modify; simpl.
  destruct (userlevels.SaveHostmasks _ _) as [ok d]; simpl.
  destruct isChannelMsg; simpl; unfold set_out; simpl;
    rewrite <- ?app_assoc; reflexivity.
Qed.

Lemma HandleCommand_parsed w m p :
  parse w m = Some p ->
  (GetUserLevelByHostmask w (irc.String (irc.prefix m)) =? userlevels.Ignored)%Z = false ->
  commands.HandleCommand m w
  = (let* stop := commands.spamProtection (irc.Name (irc.prefix m))
                    (irc.String (irc.prefix m)) (baseCommand p) (replyTarget p)
                    (isChannelMsg p) in
     if stop then ret tt
     else commands.route m (baseCommand p) (args p) (replyTarget p) (isChannelMsg p)
            (irc.String (irc.prefix m))
            (GetUserLevelByHostmask w (irc.String (irc.prefix m)))) w.
Proof.
  unfold parse, commands.HandleCommand. intros Hp Hl.
  destruct (strings.Fields _) as [|part0 rest]; [discriminate|].
  unfold param0. destruct (irc.Params m) as [|target ps]; [discriminate|].
  injection Hp as <-. unfold bind at 1 2, ret at 1, get; simpl.
  rewrite Hl. reflexivity.
Qed.




Lemma Forall_quiet_ignoreNotices userNick target isCh :
  Forall (fun e => runsCommand e = false) (ignoreNotices userNick target isCh).
Proof. unfold ignoreNotices. destruct isCh; repeat constructor. Qed.






(** The 11th [!ping] within the window: the rate limit reports a
    violation, the router warns, and the handler of [ping] still runs. *)
Lemma C3_counterexample :
  exceeded (irc.String scenario.mallory) "ping" (scenes.afterPings 10) = true
  /\ emitted (commands.HandleCommand scenes.pingLine) (scenes.afterPings 10)
     = Some [Write "NOTICE"
               ["mallory";
                "Warning (1/3): Please slow down command usage to avoid being automatically ignored."];
             RunHandler scenario.ping scenes.pingLine []].
Proof. split; vm_compute; reflexivity. Qed.

(** Claim C3, amended.  When the rate-limit check reports a violation for
    the sender and the command: once the warning threshold is reached the
    router demotes, sends its notices and stops, no handler running; below
    the threshold it sends the warning notice and then routes the command
    exactly as it does without a violation. *)
Theorem C3_rate_limit_violation (w : World) (m : irc.Message) (p : Parsed) :
  let userNick := irc.Name (irc.prefix m) in
  let hostmask := irc.String (irc.prefix m) in
  parse w m = Some p ->
  GetUserLevelByHostmask w hostmask <> userlevels.Ignored ->
  exceeded hostmask (baseCommand p) w = true ->
  if reached hostmask (baseCommand p) w
  then commands.HandleCommand m w
       = Some (tt, set_out (out w ++ ignoreNotices userNick (replyTarget p) (isChannelMsg p))%list
                           (demoted hostmask (baseCommand p) w))
       /\ Forall (fun e => runsCommand e = false)
                 (ignoreNotices userNick (replyTarget p) (isChannelMsg p))
  else commands.HandleCommand m w
       = commands.route m (baseCommand p) (args p) (replyTarget p) (isChannelMsg p)
           hostmask (GetUserLevelByHostmask w hostmask)
           (set_out (out w ++ [warningNotice userNick hostmask (baseCommand p) w])%list
                    (warned hostmask (baseCommand p) w)).
Proof.
  cbv zeta. intros Hp Hl Hex. apply Z.eqb_neq in Hl.
  rewrite (HandleCommand_parsed w m p Hp Hl). unfold bind.
  destruct (reached _ _ w) eqn:Hre.
  - rewrite spamProtection_ignores by assumption.
    split; [reflexivity | apply Forall_quiet_ignoreNotices].
  - rewrite spamProtection_warns by assumption. reflexivity.
Qed.

Lemma C3_rate_limit_violation_witness :
  commands.HandleCommand scenes.pingLine (scenes.afterPings 10)
  = commands.route scenes.pingLine "ping" [] "#chan" true
      (irc.String scenario.mallory) userlevels.Regular
      (set_out (out (scenes.afterPings 10)
                ++ [warningNotice "mallory" (irc.String scenario.mallory) "ping"
                      (scenes.afterPings 10)])%list
               (warned (irc.String scenario.mallory) "ping" (scenes.afterPings 10))).
Proof.
  assert (H := C3_rate_limit_violation (scenes.afterPings 10) scenes.pingLine
                 {| baseCommand := "ping"; args := []; replyTarget := "#chan";
                    isChannelMsg := true |}).
  cbv zeta in H.
  replace (reached (irc.String (irc.prefix scenes.pingLine)) "ping" (scenes.afterPings 10))
    with false in H by (vm_compute; reflexivity).
  apply H.
  - vm_compute. reflexivity.
  - vm_compute. discriminate.
  - vm_compute. reflexivity.
Defined.

(** ** Commands of modules *)

Lemma handleAmong_first (plugs : list plugin.Plugin) (m : irc.Message) (cmd : string)
    (args : list string) :
  snd (plugin.handleAmong plugs m cmd args) = []
  \/ exists before plug after,
       plugs = (before ++ plug :: after)%list
       /\ Forall (fun q => declares q cmd = false /\ legacy q cmd = false) before
       /\ declares plug cmd = true
       /\ snd (plugin.handleAmong plugs m cmd args)
          = [plugin.CallHandleCommand plug m cmd args].
Proof.
  induction plugs as [|plug rest IH]; simpl; [now left|].
  fold (declares plug cmd). fold (legacy plug cmd).
  destruct (declares plug cmd) eqn:Hd; simpl.
  - right. exists [], plug, rest. repeat split; auto.
  - destruct (legacy plug cmd) eqn:Hl; simpl; [now left|].
    destruct IH as [IH | (before & q & after & -> & Hb & Hq & Hs)]; [now left|].
    right. exists (plug :: before), q, after. repeat split; auto.
Qed.

Lemma route_module w m base args target isCh hostmask userLevel :
  commands.GetCommand w base = None ->
  CheckPluginCommands w = true ->
  commands.route m base args target isCh hostmask userLevel w
  = Some (tt, set_out (out w ++ List.map Hook
                         (snd (plugin.HandlePluginCommand (mgr w) m base args)))%list w).
Proof.
  intros Hg Hc. unfold commands.route, bind, get; simpl.
  rewrite Hg, Hc. reflexivity.
Qed.

(** mallory, a BadBoy, says [!greet everyone] in [#quiet], whose policy
    denies [greet]: the module's handler runs all the same. *)
Lemma C4_counterexample :
  config.IsCommandEnabledForChannel scenario.botConfig "#quiet" "greet" = false
  /\ BotConfig scenes.badBoyWorld = Some scenario.botConfig
  /\ commands.GetCommand scenes.badBoyWorld "greet" = None
  /\ emitted (commands.HandleCommand scenes.greetLine) scenes.badBoyWorld
     = Some [Hook (plugin.CallHandleCommand (scenario.greeter "1.0.0") scenes.greetLine
                     "greet" ["everyone"])].
Proof. repeat split; vm_compute; reflexivity. Qed.

(** Claim C4, amended.  A command that is absent from the static registry
    goes to the first loaded module, in the order of the iteration, that
    declares it, unless a module listed for it in the legacy table comes
    first; this happens right after the Ignored check and the rate-limit
    check, and neither the policy of the channel nor the level of the
    sender is consulted. *)
Theorem C4_module_commands (w : World) (m : irc.Message) (p : Parsed) :
  let userNick := irc.Name (irc.prefix m) in
  let hostmask := irc.String (irc.prefix m) in
  let calls := snd (plugin.HandlePluginCommand (mgr w) m (baseCommand p) (args p)) in
  parse w m = Some p ->
  GetUserLevelByHostmask w hostmask <> userlevels.Ignored ->
  commands.GetCommand w (baseCommand p) = None ->
  CheckPluginCommands w = true ->
  exceeded hostmask (baseCommand p) w && reached hostmask (baseCommand p) w = false ->
  emitted (commands.HandleCommand m) w
  = Some ((if exceeded hostmask (baseCommand p) w
           then [warningNotice userNick hostmask (baseCommand p) w] else [])
          ++ List.map Hook calls)%list
  /\ (calls = []
      \/ exists before plug after,
           plugin.GetPluginObjects (mgr w) = (before ++ plug :: after)%list
           /\ Forall (fun q => declares q (baseCommand p) = false
                               /\ legacy q (baseCommand p) = false) before
           /\ declares plug (baseCommand p) = true
           /\ calls = [plugin.CallHandleCommand plug m (baseCommand p) (args p)]).
Proof.
  cbv zeta. intros Hp Hl Hg Hc Hstop. apply Z.eqb_neq in Hl.
  split; [|apply handleAmong_first].
  unfold emitted. rewrite (HandleCommand_parsed w m p Hp Hl). unfold bind.
  destruct (exceeded _ _ w) eqn:Hex; simpl in Hstop.
  - rewrite spamProtection_warns by assumption.
    rewrite route_module by assumption. simpl.
    rewrite <- app_assoc, drop_app_length. reflexivity.
  - rewrite spamProtection_quiet by assumption.
    rewrite route_module by assumption. simpl.
    rewrite drop_app_length. reflexivity.
Qed.

Lemma C4_module_commands_witness :
  emitted (commands.HandleCommand scenes.greetLine) scenes.badBoyWorld
  = Some ((if exceeded (irc.String scenario.mallory) "greet" scenes.badBoyWorld
           then [warningNotice "mallory" (irc.String scenario.mallory) "greet"
                   scenes.badBoyWorld]
           else [])
          ++ List.map Hook
               (snd (plugin.HandlePluginCommand (mgr scenes.badBoyWorld) scenes.greetLine
                       "greet" ["everyone"])))%list.
Proof.
  apply (proj1 (C4_module_commands scenes.badBoyWorld scenes.greetLine
                  {| baseCommand := "greet"; args := ["everyone"];
                     replyTarget := "#quiet"; isChannelMsg := true |}
                  ltac:(vm_compute; reflexivity)
                  ltac:(vm_compute; discriminate)
                  ltac:(vm_compute; reflexivity)
                  ltac:(vm_compute; reflexivity)
                  ltac:(vm_compute; reflexivity))).
Defined.

(** ** The module registry (package [plugin]) *)

Lemma LoadPlugin_succeeded artifact now path mgr plug mgr1 calls :
  artifact path = plugin.Exports plug ->
  plugin.LoadPlugin artifact now path mgr = (None, mgr1, calls) ->
  exists info, plugin.plugins mgr1 !! plugin.Name plug = Some info
               /\ plugin.version info = plugin.Version plug.
Proof.
  intros Ha. unfold plugin.LoadPlugin. rewrite Ha.
  destruct (plugin.plugins mgr !! plugin.Name plug) as [existing|] eqn:He.
  - destruct (String.eqb_spec (plugin.version existing) (plugin.Version plug)) as [Hv|Hv].
    + intros [= <- _]. eauto.
    + unfold plugin.unloadPrevious, plugin.install.
      destruct (plugin.OnLoad plug); [discriminate|].
      intros [= <- _]. simpl. rewrite lookup_insert_eq. eauto.
  - unfold plugin.install. destruct (plugin.OnLoad plug); [discriminate|].
    intros [= <- _]. simpl. rewrite lookup_insert_eq. eauto.
Qed.

(** Claim C6.  After a module has been loaded, loading a module with the
    same name and the same version returns no error, leaves the registry as
    it is (the loaded module is neither unloaded nor replaced) and calls no
    hook: no [OnUnload], no second [OnLoad]. *)
Theorem C6_same_version_is_a_no_op
    (artifact : string -> plugin.Artifact) (now1 now2 : Z) (path1 path2 : string)
    (plug1 plug2 : plugin.Plugin) (mgr0 mgr1 : plugin.manager) (calls1 : list plugin.Call) :
  artifact path1 = plugin.Exports plug1 ->
  artifact path2 = plugin.Exports plug2 ->
  plugin.Name plug2 = plugin.Name plug1 ->
  plugin.Version plug2 = plugin.Version plug1 ->
  plugin.LoadPlugin artifact now1 path1 mgr0 = (None, mgr1, calls1) ->
  plugin.LoadPlugin artifact now2 path2 mgr1 = (None, mgr1, []).
Proof.
  intros Ha1 Ha2 Hn Hv Hload.
  destruct (LoadPlugin_succeeded _ _ _ _ _ _ _ Ha1 Hload) as (info & Hi & Hiv).
  unfold plugin.LoadPlugin. rewrite Ha2, Hn, Hi, Hv, Hiv.
  now rewrite String.eqb_refl.
Qed.

Lemma C6_same_version_is_a_no_op_witness :
  let mgr0 := scenario.registry [] in
  let mgr1 := snd (fst (plugin.LoadPlugin scenario.artifacts 7 "plugins/greeter_v1.so" mgr0)) in
  plugin.LoadPlugin scenario.artifacts 8 "plugins/greeter_v1.so" mgr1 = (None, mgr1, []).
Proof.
  cbv zeta.
  apply (C6_same_version_is_a_no_op scenario.artifacts 7 8
           "plugins/greeter_v1.so" "plugins/greeter_v1.so"
           (scenario.greeter "1.0.0") (scenario.greeter "1.0.0")
           (scenario.registry []) _ [plugin.CallOnLoad (scenario.greeter "1.0.0")]);
    reflexivity.
Defined.

(** Version 2 of a module that has no [OnUnload] method replaces version 1:
    [OnLoad] of the new module is the only hook called. *)
Lemma C7_counterexample :
  let mgr0 := scenario.registry [(scenario.listener "1.0.0", "plugins/listener_v1.so")] in
  plugin.plugins mgr0 !! "Listener"
  = Some (scenario.loaded (scenario.listener "1.0.0") "plugins/listener_v1.so")
  /\ snd (plugin.LoadPlugin scenario.artifacts 9 "plugins/listener_v2.so" mgr0)
     = [plugin.CallOnLoad (scenario.listener "2.0.0")]
  /\ ~ In (plugin.CallOnUnload (scenario.listener "1.0.0"))
          (snd (plugin.LoadPlugin scenario.artifacts 9 "plugins/listener_v2.so" mgr0)).
Proof.
  cbv zeta. split; [reflexivity|]. split; [reflexivity|].
  intros [H|[]]. discriminate H.
Qed.

(** Claim C7, amended.  Loading a module whose name is that of a loaded
    module at another version calls the old module's [OnUnload] exactly
    once when the old module has that method, and not at all when it has
    none, and in both cases before the new module's [OnLoad], which is
    called exactly once; every registry the load goes through holds at most
    one module per name. *)
Theorem C7_other_version_unloads_first
    (artifact : string -> plugin.Artifact) (now : Z) (path : string)
    (plug : plugin.Plugin) (existing : plugin.pluginInfo) (mgr : plugin.manager) :
  artifact path = plugin.Exports plug ->
  plugin.plugins mgr !! plugin.Name plug = Some existing ->
  plugin.version existing <> plugin.Version plug ->
  snd (plugin.LoadPlugin artifact now path mgr)
  = (match plugin.Unloader (plugin.plugin existing) with
     | Some _ => [plugin.CallOnUnload (plugin.plugin existing)]
     | None => []
     end ++ [plugin.CallOnLoad plug])%list
  /\ Forall (fun r => NoDup (List.map fst (map_to_list (plugin.plugins r))))
            (plugin.LoadPlugin_registries artifact now path mgr).
Proof.
  intros Ha He Hv. split.
  - unfold plugin.LoadPlugin. rewrite Ha, He.
    apply String.eqb_neq in Hv. rewrite Hv.
    unfold plugin.unloadPrevious, plugin.install.
    destruct (plugin.OnLoad plug), (plugin.Unloader (plugin.plugin existing));
      reflexivity.
  - apply Forall_forall. intros r _. apply NoDup_fst_map_to_list.
Qed.

Lemma C7_other_version_unloads_first_witness :
  let mgr0 := scenario.registry [(scenario.greeter "1.0.0", "plugins/greeter_v1.so")] in
  snd (plugin.LoadPlugin scenario.artifacts 9 "plugins/greeter_v2.so" mgr0)
  = [plugin.CallOnUnload (scenario.greeter "1.0.0");
     plugin.CallOnLoad (scenario.greeter "2.0.0")].
Proof.
  cbv zeta.
  apply (proj1 (C7_other_version_unloads_first scenario.artifacts 9
                  "plugins/greeter_v2.so" (scenario.greeter "2.0.0")
                  (scenario.loaded (scenario.greeter "1.0.0") "plugins/greeter_v1.so")
                  (scenario.registry [(scenario.greeter "1.0.0", "plugins/greeter_v1.so")])
                  ltac:(reflexivity) ltac:(reflexivity) ltac:(discriminate))).
Defined.

(** ** The permission resolver (package [userlevels]) *)

Lemma append_neq (s t : string) : t <> "" -> s ++ t <> s.
Proof.
  intros Ht. induction s as [|c s IH]; simpl.
  - exact Ht.
  - intros [= H]. now apply IH.
Qed.

Lemma string_append_nil_r (s : string) : s ++ "" = s.
Proof.
  induction s as [|c s IH]; [reflexivity|].
  change (String c (s ++ "") = String c s). now rewrite IH.
Qed.

Lemma string_append_assoc (s t u : string) : (s ++ t) ++ u = s ++ (t ++ u).
Proof.
  induction s as [|c s IH]; [reflexivity|].
  change (String c ((s ++ t) ++ u) = String c (s ++ (t ++ u))). now rewrite IH.
Qed.

Lemma HasPrefix_append (t a b : string) :
  strings.HasPrefix (t ++ a) (t ++ b) = strings.HasPrefix a b.
Proof.
  induction t as [|c t IH]; [reflexivity|].
  change (strings.HasPrefix (String c (t ++ a)) (String c (t ++ b)) = strings.HasPrefix a b).
  cbn [strings.HasPrefix]. now rewrite Ascii.eqb_refl, IH.
Qed.

(** The nickname of a hostmask that starts with [target!], for a
    [target] without [!], is [target]. *)
Lemma nickOf_prefix (target hostmask : string) :
  strings.containsByte target "!" = false ->
  strings.HasPrefix hostmask (target ++ "!") = true ->
  userlevels.nickOf hostmask = target.
Proof.
  intros Hc Hp. unfold userlevels.nickOf, strings.Split.
  enough (H : forall part, List.hd "" (strings.splitFrom "!" hostmask part) = part ++ target)
    by apply (H "").
  revert hostmask Hc Hp. induction target as [|c target IH]; intros hostmask Hc Hp part.
  - destruct hostmask as [|b hostmask]; [discriminate|].
    cbn in Hp. apply andb_true_iff in Hp as [Hb _]. apply Ascii.eqb_eq in Hb as <-.
    cbn. now rewrite string_append_nil_r.
  - cbn [strings.containsByte] in Hc. apply orb_false_iff in Hc as [Hne Hc].
    destruct hostmask as [|b hostmask]; [discriminate|].
    cbn in Hp. apply andb_true_iff in Hp as [Hb Hp]. apply Ascii.eqb_eq in Hb as <-.
    cbn [strings.splitFrom]. rewrite Ascii.eqb_sym, Hne.
    rewrite (IH hostmask Hc Hp). rewrite string_append_assoc. reflexivity.
Qed.

(** Claim C10.  [SetUserLevelByHostmask] records the level under the
    hostmask and under its nickname too, the nickname being the text before
    the first [!].  So another hostmask with that nickname, without a
    record of its own and not the verified owner's, resolves to that level;
    and a hostmask with another nickname resolves as it did before. *)
Theorem C10_nickname_fallback (d : config.Disk) (st : userlevels.State)
    (hostmask : string) (L : userlevels.UserLevel) :
  let st' := userlevels.SetUserLevelByHostmask hostmask L st in
  userlevels.hostmaskUsers st' !! hostmask = Some L
  /\ userlevels.users st' !! userlevels.nickOf hostmask = Some L
  /\ (forall nick userhost,
        strings.containsByte nick "!" = false ->
        hostmask = nick ++ "!" ++ userhost ->
        userlevels.nickOf hostmask = nick /\ userlevels.users st' !! nick = Some L)
  /\ (forall other,
        userlevels.nickOf other = userlevels.nickOf hostmask ->
        other <> hostmask ->
        userlevels.hostmaskUsers st !! other = None ->
        (forall s, config.LoadSettings d = Some s -> config.OwnerVerified s = true ->
                   config.OwnerHostmask s <> other) ->
        userlevels.GetUserLevelByHostmask d st' other = L)
  /\ (forall other,
        userlevels.nickOf other <> userlevels.nickOf hostmask ->
        userlevels.GetUserLevelByHostmask d st' other
        = userlevels.GetUserLevelByHostmask d st other).
Proof.
  cbv zeta. unfold userlevels.GetUserLevelByHostmask, userlevels.SetUserLevelByHostmask.
  cbn [userlevels.hostmaskUsers userlevels.users].
  split; [apply lookup_insert_eq|]. split; [apply lookup_insert_eq|].
  split; [|split].
  - intros nick userhost Hbang ->.
    assert (Hnick : userlevels.nickOf (nick ++ "!" ++ userhost) = nick).
    { apply nickOf_prefix; [exact Hbang|]. rewrite HasPrefix_append. now destruct userhost. }
    split; [exact Hnick|]. rewrite Hnick. apply lookup_insert_eq.
  - intros other Hnick Hne Hnone Howner.
    rewrite lookup_insert_ne by congruence. rewrite Hnone.
    rewrite Hnick, lookup_insert_eq.
    destruct (config.LoadSettings d) as [s|] eqn:Hs; [|reflexivity].
    destruct (config.OwnerVerified s) eqn:Hv; [|reflexivity].
    specialize (Howner s eq_refl Hv).
    destruct (String.eqb_spec other (config.OwnerHostmask s)); [congruence|].
    now rewrite andb_false_r.
  - intros other Hnick.
    rewrite lookup_insert_ne by (intros ->; now apply Hnick).
    rewrite (lookup_insert_ne (userlevels.users st)) by congruence.
    reflexivity.
Qed.

(** [alice!al@home.example] is made Admin in a world that knows nobody:
    [alice] is on record, alice from another host is Admin, bob is not. *)
Lemma C10_nickname_fallback_witness :
  let st := levels (scenario.world []) in
  let st' := userlevels.SetUserLevelByHostmask "alice!al@home.example" userlevels.Admin st in
  (userlevels.nickOf "alice!al@home.example" = "alice"
   /\ userlevels.users st' !! "alice" = Some userlevels.Admin)
  /\ userlevels.GetUserLevelByHostmask (disk (scenario.world [])) st'
       "alice!guest@elsewhere.example" = userlevels.Admin
  /\ userlevels.GetUserLevelByHostmask (disk (scenario.world [])) st' "bob!b@work.example"
     = userlevels.GetUserLevelByHostmask (disk (scenario.world [])) st "bob!b@work.example"
  /\ userlevels.GetUserLevelByHostmask (disk (scenario.world [])) st "bob!b@work.example"
     = userlevels.Regular.
Proof.
  cbv zeta.
  pose proof (C10_nickname_fallback (disk (scenario.world [])) (levels (scenario.world []))
                "alice!al@home.example" userlevels.Admin) as H.
  cbv zeta in H. destruct H as (_ & _ & Hnick & Hsame & Hother).
  split; [|split; [|split]].
  - apply (Hnick "alice" "al@home.example"); reflexivity.
  - apply Hsame.
    + reflexivity.
    + discriminate.
    + reflexivity.
    + intros s [= <-]. discriminate.
  - apply Hother. vm_compute. discriminate.
  - reflexivity.
Defined.

(** The legacy setter called with a full hostmask changes nothing for
    that hostmask: it writes under [hostmask ++ "!*@*"] and under the whole
    hostmask as a nickname, where the resolver does not look. *)
Lemma SetUserLevel_misses_hostmask (d : config.Disk) (st : userlevels.State)
    (hostmask : string) (level : userlevels.UserLevel) :
  userlevels.nickOf hostmask <> hostmask ->
  userlevels.GetUserLevelByHostmask d (userlevels.SetUserLevel hostmask level st) hostmask
  = userlevels.GetUserLevelByHostmask d st hostmask.
Proof.
  intros Hnick.
  unfold userlevels.GetUserLevelByHostmask, userlevels.SetUserLevel.
  cbn [userlevels.hostmaskUsers userlevels.users].
  rewrite lookup_insert_ne by (apply append_neq; discriminate).
  rewrite (lookup_insert_ne (userlevels.users st)) by congruence.
  reflexivity.
Qed.

Lemma AddWarning_others (hostmask other : string) (t : security.MessageTracker) :
  other <> hostmask ->
  security.GetWarningCount (snd (security.AddWarning hostmask t)) other
  = security.GetWarningCount t other.
Proof.
  intros Hne. unfold security.GetWarningCount, security.AddWarning.
  cbn [snd security.warningCounts].
  now rewrite lookup_insert_ne by congruence.
Qed.

(** Claim C1, at the failing input.  Thirteen [!ping] of
    [mallory!m@evil.example] within the window, under the default limits
    (10 commands, 3 warnings): the third violation reaches the threshold,
    the router announces the automatic ignore and saves, yet the level the
    resolver gives for that hostmask is still Regular.  The demotion went
    to the nickname [mallory!m@evil.example] and the hostmask
    [mallory!m@evil.example!*@*]. *)
Theorem C1_demotion_misses_the_hostmask :
  let hostmask := irc.String scenario.mallory in
  let w := scenes.afterPings 13 in
  security.GetWarningCount (GlobalMessageTracker w) hostmask
  = security.GetWarningThreshold (GlobalMessageTracker w)
  /\ last (out w)
     = Some (Write "PRIVMSG"
               ["#chan";
                "User mallory has been automatically ignored for command spam protection."])
  /\ userlevels.users (levels w) !! hostmask = Some userlevels.Ignored
  /\ userlevels.hostmaskUsers (levels w) !! (hostmask ++ "!*@*") = Some userlevels.Ignored
  /\ userlevels.hostmaskUsers (levels w) !! hostmask = None
  /\ config.LoadSettings (disk w)
     = Some {| config.OwnerVerified := false; config.OwnerPasshash := "";
               config.OwnerHostmask := ""; config.HostmaskLevels := true;
               config.Hostmasks :=
                 [{| config.Hostmask := "mallory!m@evil.example!*@*";
                     config.Level := userlevels.Ignored |}] |}
  /\ GetUserLevelByHostmask w hostmask = userlevels.Regular.
Proof. cbv zeta. repeat split; vm_compute; reflexivity. Qed.

(** ** The event dispatcher (package [handlers]) *)

Lemma HandleChannelMessage_ignored w m :
  irc.Params m <> [] ->
  GetUserLevelByHostmask w (irc.String (irc.prefix m)) = userlevels.Ignored ->
  handlers.HandleChannelMessage m w = Some (tt, w).
Proof.
  intros Hp Hl. unfold handlers.HandleChannelMessage, param0.
  destruct (irc.Params m); [congruence|].
  unfold bind, ret, get; simpl. now rewrite Hl.
Qed.

Lemma HandlePrivateMessage_ignored w m :
  GetUserLevelByHostmask w (irc.String (irc.prefix m)) = userlevels.Ignored ->
  handlers.HandlePrivateMessage m w = Some (tt, w).
Proof.
  intros Hl. unfold handlers.HandlePrivateMessage.
  unfold bind, ret, get; simpl. now rewrite Hl.
Qed.

Lemma fanOut_only_hooks u botNick plugs m :
  Forall (fun e => isFanOut e = true) (List.map Hook (handlers.fanOut u botNick plugs m)).
Proof.
  apply Forall_forall. intros e He. apply list_elem_of_In in He.
  apply in_map_iff in He as (call & <- & Hc).
  unfold handlers.fanOut in Hc. apply in_flat_map in Hc as (plug & _ & Hc).
  destruct Hc as [<-|Hc]; [reflexivity|].
  unfold handlers.specialized in Hc.
  repeat match type of Hc with
         | In _ (if ?b then _ else _) => destruct b
         | In _ (_ ++ _)%list => apply in_app_or in Hc as [Hc|Hc]
         | In _ [_] => destruct Hc as [<-|[]]; reflexivity
         | In _ [] => destruct Hc
         end.
Qed.

Lemma fanOut_reaches_all u botNick plugs m plug :
  In plug plugs -> In (plugin.CallOnMessage plug m) (handlers.fanOut u botNick plugs m).
Proof.
  intros Hin. unfold handlers.fanOut. apply in_flat_map.
  exists plug. split; [exact Hin | now left].
Qed.

(** A chat line of an ignored sender still reaches the loaded modules. *)
Lemma C2_counterexample :
  GetUserLevelByHostmask scenes.ignoredWorld (irc.String scenario.mallory)
  = userlevels.Ignored
  /\ emitted (handlers.HandleMessages scenes2.hello) scenes.ignoredWorld
     = Some [Hook (plugin.CallOnMessage (scenario.greeter "1.0.0") scenes2.hello);
             Hook (plugin.CallOnMessage (scenario.listener "1.0.0") scenes2.hello);
             Hook (plugin.CallEvent (scenario.listener "1.0.0") plugin.PrivMsgHandler
                     scenes2.hello)].
Proof. split; vm_compute; reflexivity. Qed.

(** Claim C2, amended.  For a chat line whose sender resolves to Ignored
    the built-in handlers do nothing: no command handler runs, built-in or
    of a module, no reply is sent, no variable of the bot changes.  The
    fan-out is not gated on the sender: every loaded module gets
    [OnMessage], and the event handlers it implements, for that line. *)
Theorem C2_ignored_sender (w : World) (m : irc.Message) :
  irc.Command m = "PRIVMSG" ->
  irc.Params m <> [] ->
  GetUserLevelByHostmask w (irc.String (irc.prefix m)) = userlevels.Ignored ->
  let calls :=
    handlers.fanOut (unicode w) (CurrentNick w) (plugin.GetPluginList (mgr w)) m in
  handlers.HandleMessages m w = Some (tt, set_out (out w ++ List.map Hook calls)%list w)
  /\ Forall (fun e => isFanOut e = true) (List.map Hook calls)
  /\ (forall plug, In plug (plugin.GetPluginList (mgr w)) ->
                   In (plugin.CallOnMessage plug m) calls).
Proof.
  intros _ Hp Hl. cbv zeta. split; [|split].
  - unfold handlers.HandleMessages, bind at 1, get.
    assert (Hq : (match irc.Params m with
                  | [] => handlers.HandleChannelMessage m
                  | p :: _ =>
                      if String.eqb p (CurrentNick w)
                      then handlers.HandlePrivateMessage m
                      else handlers.HandleChannelMessage m
                  end) w = Some (tt, w)).
    { destruct (irc.Params m) as [|p ps] eqn:E; [congruence|].
      destruct (String.eqb p (CurrentNick w)).
      - now apply HandlePrivateMessage_ignored.
      - apply HandleChannelMessage_ignored; [rewrite E; discriminate | exact Hl]. }
    unfold bind. rewrite Hq. reflexivity.
  - apply fanOut_only_hooks.
  - intros plug. apply fanOut_reaches_all.
Qed.

Lemma C2_ignored_sender_witness :
  handlers.HandleMessages scenes2.hello scenes.ignoredWorld
  = Some (tt, set_out
                (out scenes.ignoredWorld
                 ++ List.map Hook
                      (handlers.fanOut (unicode scenes.ignoredWorld)
                         (CurrentNick scenes.ignoredWorld)
                         (plugin.GetPluginList (mgr scenes.ignoredWorld)) scenes2.hello))%list
                scenes.ignoredWorld).
Proof.
  apply (proj1 (C2_ignored_sender scenes.ignoredWorld scenes2.hello
                  ltac:(reflexivity) ltac:(discriminate) ltac:(vm_compute; reflexivity))).
Defined.

(** ** The rate limiter (package [security]) *)

Section Window.

Variables window max : Z.

(** The entries that are still inside the window that ends at [hi]. *)
Let fresh (hi : Z) (l : list Z) : nat :=
  length (List.filter (fun t => security.After t (hi - window)) l).

Lemma filter_After_narrow (lo lo' : Z) (l : list Z) :
  lo' <= lo ->
  List.filter (fun t => security.After t lo) (List.filter (fun t => security.After t lo') l)
  = List.filter (fun t => security.After t lo) l.
Proof.
  intros Hle. induction l as [|t l IH]; simpl; [reflexivity|].
  destruct (security.After t lo') eqn:E'; destruct (security.After t lo) eqn:E;
    simpl; rewrite ?E, ?IH; try reflexivity.
  unfold security.After in E, E'.
  apply Z.ltb_lt in E. apply Z.ltb_ge in E'. lia.
Qed.

Lemma fresh_slide (hi now : Z) (recorded : list Z) :
  hi - window < now <= hi ->
  fresh hi (slide window now recorded) = S (fresh hi recorded).
Proof.
  intros [Hlo Hhi]. unfold fresh, slide.
  rewrite filter_After_narrow by lia.
  rewrite List.filter_app, length_app. simpl.
  unfold security.After at 2. destruct (Z.ltb_spec (hi - window) now); [|lia].
  simpl. lia.
Qed.

Lemma slides_burst (hi : Z) (ts recorded : list Z) :
  last ts = Some hi ->
  Forall (fun t => hi - window < t <= hi) ts ->
  exists n, last (slides window max ts recorded) = Some (max <? Z.of_nat n)%Z
            /\ (fresh hi recorded + length ts <= n)%nat.
Proof.
  revert recorded. induction ts as [|t rest IH]; intros recorded Hlast Hall.
  - discriminate.
  - inversion Hall as [|? ? Ht Hrest]; subst.
    destruct rest as [|t' rest'].
    + injection Hlast as ->. simpl.
      exists (length (slide window hi recorded)). split; [reflexivity|].
      pose proof (fresh_slide hi hi recorded ltac:(lia)) as H.
      unfold fresh in H at 1. unfold slide in H at 1.
      replace (hi - window) with (hi - window) in H by reflexivity.
      unfold slide. rewrite filter_After_narrow in H by lia.
      simpl. lia.
    + destruct (IH (slide window t recorded)) as (n & Hn & Hle).
      * exact Hlast.
      * exact Hrest.
      * exists n. split.
        -- change (slides window max (t :: t' :: rest') recorded)
             with ((max <? Z.of_nat (length (slide window t recorded)))%Z
                   :: slides window max (t' :: rest') (slide window t recorded)).
           rewrite last_cons, Hn. reflexivity.
        -- rewrite fresh_slide in Hle by lia. simpl in *. lia.
Qed.

Lemma slide_spaced (now : Z) (recorded : list Z) :
  Forall (fun p => window < now - p) recorded ->
  slide window now recorded = [] \/ slide window now recorded = [now].
Proof.
  intros Hall. unfold slide. rewrite List.filter_app.
  replace (List.filter (fun t => security.After t (now - window)) recorded) with (@nil Z).
  - simpl. destruct (security.After now (now - window)); auto.
  - symmetry. induction Hall as [|p l Hp _ IH]; simpl; [reflexivity|].
    unfold security.After at 1. destruct (Z.ltb_spec (now - window) p); [lia|exact IH].
Qed.

Lemma spaced_nil (recorded ts : list Z) : spaced window recorded ts -> spaced window [] ts.
Proof. destruct ts; simpl; [auto|]. intros [_ H]. split; [constructor|exact H]. Qed.

Lemma slides_spaced (ts recorded : list Z) :
  1 <= max ->
  spaced window recorded ts ->
  Forall (fun exceeded => exceeded = false) (slides window max ts recorded).
Proof.
  intros Hmax. revert recorded. induction ts as [|t rest IH]; intros recorded Hs; simpl.
  - constructor.
  - destruct Hs as [Hprev Hrest].
    destruct (slide_spaced t recorded Hprev) as [-> | ->]; constructor.
    + simpl. apply Z.ltb_ge. lia.
    + apply IH. eapply spaced_nil, Hrest.
    + simpl. apply Z.ltb_ge. lia.
    + apply IH. exact Hrest.
Qed.

End Window.

Lemma last_any_default (l : list Z) (a d d' : Z) :
  List.last (a :: l) d = List.last (a :: l) d'.
Proof.
  revert a. induction l as [|b l IH]; intros a; [reflexivity|].
  change (List.last (b :: l) d = List.last (b :: l) d'). apply IH.
Qed.

Lemma last_Some_last (l : list Z) (a d hi : Z) :
  last (a :: l) = Some hi -> List.last (a :: l) d = hi.
Proof.
  revert a. induction l as [|b l IH]; intros a Hl.
  - simpl in *. congruence.
  - rewrite last_cons_cons in Hl.
    change (List.last (b :: l) d = hi). now apply IH.
Qed.

Lemma sorted_le_last (ts : list Z) (first : Z) :
  StronglySorted Z.le (first :: ts) ->
  Forall (fun t => first <= t <= List.last (first :: ts) first) (first :: ts).
Proof.
  revert first. induction ts as [|t rest IH]; intros first Hs.
  - simpl. constructor; [lia|constructor].
  - apply StronglySorted_inv in Hs as [Hs Hall].
    specialize (IH t Hs).
    assert (Hft : first <= t) by (inversion Hall; assumption).
    change (List.last (first :: t :: rest) first) with (List.last (t :: rest) first).
    rewrite (last_any_default rest t first t).
    constructor.
    + inversion IH; subst. lia.
    + eapply Forall_impl; [exact IH|]. simpl. intros x Hx. lia.
Qed.

Lemma within_bounds (window : Z) (ts : list Z) (hi : Z) :
  within window ts -> last ts = Some hi ->
  Forall (fun t => hi - window < t <= hi) ts.
Proof.
  destruct ts as [|first rest]; [discriminate|].
  intros [Hs Hspan] Hlast.
  pose proof (last_Some_last rest first first hi Hlast) as Hhi.
  rewrite Hhi in Hspan.
  eapply Forall_impl; [apply (sorted_le_last rest first Hs)|].
  cbv beta. rewrite Hhi. intros x Hx. lia.
Qed.

Lemma TrackMessage_slide (now : Z) (hostmask : string) (m : security.MessageTracker) :
  let r := security.TrackMessage now hostmask m in
  fst (fst r)
  = (security.maxMessagesPerWindow m
     <? Z.of_nat (length (slide (security.messageWindow m) now (messagesOf m hostmask))))%Z
  /\ messagesOf (snd r) hostmask = slide (security.messageWindow m) now (messagesOf m hostmask)
  /\ security.messageWindow (snd r) = security.messageWindow m
  /\ security.maxMessagesPerWindow (snd r) = security.maxMessagesPerWindow m.
Proof.
  cbv zeta. unfold security.TrackMessage, messagesOf, slide.
  cbn [fst snd security.userMessages security.messageWindow security.maxMessagesPerWindow].
  rewrite lookup_insert_eq. repeat split.
Qed.

Lemma TrackCommand_slide (now : Z) (hostmask commandName : string)
    (m : security.MessageTracker) :
  let r := security.TrackCommand now hostmask commandName m in
  fst (fst r)
  = (security.maxCommandsPerWindow m
     <? Z.of_nat (length (slide (security.commandWindow m) now
                            (commandsOf m hostmask commandName))))%Z
  /\ commandsOf (snd r) hostmask commandName
     = slide (security.commandWindow m) now (commandsOf m hostmask commandName)
  /\ security.commandWindow (snd r) = security.commandWindow m
  /\ security.maxCommandsPerWindow (snd r) = security.maxCommandsPerWindow m.
Proof.
  cbv zeta. unfold security.TrackCommand, commandsOf, slide.
  cbn [fst snd security.userCommandUsage security.commandWindow
       security.maxCommandsPerWindow].
  rewrite lookup_insert_eq. unfold default at 2 5. cbn [from_option id].
  rewrite lookup_insert_eq. repeat split.
Qed.

Lemma TrackMessages_slides (ts : list Z) (hostmask : string) (m : security.MessageTracker) :
  fst (security.TrackMessages ts hostmask m)
  = slides (security.messageWindow m) (security.maxMessagesPerWindow m) ts
      (messagesOf m hostmask).
Proof.
  revert m. induction ts as [|now rest IH]; intros m; [reflexivity|].
  cbn [security.TrackMessages slides].
  pose proof (TrackMessage_slide now hostmask m) as H. cbv zeta in H.
  destruct (security.TrackMessage now hostmask m) as [[e c] m1].
  cbn [fst snd] in H. destruct H as (-> & Hrec & HW & HM).
  specialize (IH m1).
  destruct (security.TrackMessages rest hostmask m1) as [answers m2].
  cbn [fst] in *. rewrite IH, Hrec, HW, HM. reflexivity.
Qed.

Lemma TrackCommands_slides (ts : list Z) (hostmask commandName : string)
    (m : security.MessageTracker) :
  fst (security.TrackCommands ts hostmask commandName m)
  = slides (security.commandWindow m) (security.maxCommandsPerWindow m) ts
      (commandsOf m hostmask commandName).
Proof.
  revert m. induction ts as [|now rest IH]; intros m; [reflexivity|].
  cbn [security.TrackCommands slides].
  pose proof (TrackCommand_slide now hostmask commandName m) as H. cbv zeta in H.
  destruct (security.TrackCommand now hostmask commandName m) as [[e c] m1].
  cbn [fst snd] in H. destruct H as (-> & Hrec & HW & HM).
  specialize (IH m1).
  destruct (security.TrackCommands rest hostmask commandName m1) as [answers m2].
  cbn [fst] in *. rewrite IH, Hrec, HW, HM. reflexivity.
Qed.

(** Facts about concrete instants: take the goal apart, then evaluate
    the comparisons of numbers. *)
Ltac concrete_window :=
  repeat (cbv beta;
          match goal with
          | |- within _ _ => split
          | |- spaced _ _ _ => split
          | |- True => exact I
          | |- Forall _ _ => constructor
          | |- StronglySorted _ _ => constructor
          | |- (_ <= _)%Z => vm_compute; discriminate
          | |- (_ < _)%Z => vm_compute; reflexivity
          | |- @eq Z _ _ => vm_compute; reflexivity
          end).

(** Claim C8.  With a window of [W] and a maximum of [M] events: when one
    identity produces [M+1] tracked events within the window, the last call
    reports exceeded; when it produces [M] events, each more than [W] after
    the one before it (and after anything recorded earlier), no call
    reports exceeded.  Both hold for [TrackMessage] and for [TrackCommand]
    with one command name, whatever else the tracker holds. *)
Theorem C8_sliding_window (m : security.MessageTracker) (hostmask commandName : string)
    (ts : list Z) :
  (0 <= security.maxMessagesPerWindow m ->
   Z.of_nat (length ts) = security.maxMessagesPerWindow m + 1 ->
   within (security.messageWindow m) ts ->
   last (fst (security.TrackMessages ts hostmask m)) = Some true)
  /\ (0 <= security.maxCommandsPerWindow m ->
      Z.of_nat (length ts) = security.maxCommandsPerWindow m + 1 ->
      within (security.commandWindow m) ts ->
      last (fst (security.TrackCommands ts hostmask commandName m)) = Some true)
  /\ (Z.of_nat (length ts) = security.maxMessagesPerWindow m ->
      spaced (security.messageWindow m) (messagesOf m hostmask) ts ->
      Forall (fun exceeded => exceeded = false)
             (fst (security.TrackMessages ts hostmask m)))
  /\ (Z.of_nat (length ts) = security.maxCommandsPerWindow m ->
      spaced (security.commandWindow m) (commandsOf m hostmask commandName) ts ->
      Forall (fun exceeded => exceeded = false)
             (fst (security.TrackCommands ts hostmask commandName m))).
Proof.
  assert (Hburst : forall window max recorded,
             0 <= max -> Z.of_nat (length ts) = max + 1 -> within window ts ->
             last (slides window max ts recorded) = Some true).
  { intros window max recorded Hmax Hlen Hin.
    destruct (last ts) as [hi|] eqn:Hlast.
    - destruct (slides_burst window max hi ts recorded Hlast
                  (within_bounds window ts hi Hin Hlast)) as (n & -> & Hn).
      f_equal. apply Z.ltb_lt. lia.
    - apply last_None in Hlast. subst ts. simpl in Hlen. lia. }
  assert (Hspaced : forall window max recorded,
             Z.of_nat (length ts) = max -> spaced window recorded ts ->
             Forall (fun exceeded => exceeded = false) (slides window max ts recorded)).
  { intros window max recorded Hlen Hs.
    destruct ts as [|t rest]; [constructor|].
    apply slides_spaced; [simpl in Hlen; lia | exact Hs]. }
  repeat split; intros.
  - rewrite TrackMessages_slides. now apply Hburst.
  - rewrite TrackCommands_slides. now apply Hburst.
  - rewrite TrackMessages_slides. now apply Hspaced.
  - rewrite TrackCommands_slides. now apply Hspaced.
Qed.

Lemma C8_sliding_window_witness :
  last (fst (security.TrackMessages bursts.sixMessages "mallory!m@evil.example"
               security.NewMessageTracker)) = Some true
  /\ last (fst (security.TrackCommands bursts.elevenCommands "mallory!m@evil.example" "ping"
                  security.NewMessageTracker)) = Some true
  /\ Forall (fun exceeded => exceeded = false)
            (fst (security.TrackMessages bursts.fiveMessages "mallory!m@evil.example"
                    security.NewMessageTracker))
  /\ Forall (fun exceeded => exceeded = false)
            (fst (security.TrackCommands bursts.tenCommands "mallory!m@evil.example" "ping"
                    security.NewMessageTracker)).
Proof.
  split; [|split; [|split]].
  - apply (proj1 (C8_sliding_window security.NewMessageTracker "mallory!m@evil.example"
                    "ping" bursts.sixMessages)); concrete_window.
  - apply (proj1 (proj2 (C8_sliding_window security.NewMessageTracker
                           "mallory!m@evil.example" "ping" bursts.elevenCommands)));
      concrete_window.
  - apply (proj1 (proj2 (proj2 (C8_sliding_window security.NewMessageTracker
                                  "mallory!m@evil.example" "ping" bursts.fiveMessages))));
      concrete_window.
  - apply (proj2 (proj2 (proj2 (C8_sliding_window security.NewMessageTracker
                                  "mallory!m@evil.example" "ping" bursts.tenCommands))));
      concrete_window.
Defined.

(** ** The owner-verification handshake (package [handlers]) *)

Lemma sendLines_frame (nick : string) (messages : list string) (w : World) :
  exists es, handlers.sendLines nick messages w = Some (tt, set_out (out w ++ es)%list w).
Proof.
  revert w. induction messages as [|msg rest IH]; intros w; simpl.
  - exists []. unfold ret. rewrite app_nil_r. now destruct w.
  - destruct (String.eqb (strings.TrimSpace msg) ""); [apply IH|].
    unfold bind, write, emit, emits, modify.
    destruct (IH (set_out (out w ++ [Write "PRIVMSG" [nick; msg]])%list w)) as (es & ->).
    exists (Write "PRIVMSG" [nick; msg] :: es). simpl.
    unfold set_out; simpl. now rewrite <- app_assoc.
Qed.

Lemma ownerAmong_In (u : strings.Unicode) (entries : list (string * Z))
    (stored nick : string) :
  In (stored, userlevels.Owner) entries ->
  strings.EqualFold u stored nick = true ->
  userlevels.ownerAmong u entries nick = true.
Proof.
  intros Hin Hfold. induction entries as [|[n l] rest IH]; [destruct Hin|].
  cbn [userlevels.ownerAmong]. destruct Hin as [[= -> ->]|Hin].
  - now rewrite Hfold.
  - destruct (strings.EqualFold u n nick && (l =? userlevels.Owner)%Z); [reflexivity|].
    now apply IH.
Qed.

(** The verified owner passes every permission check, the one for Owner
    included. *)
Lemma verified_owner_has_permission (u : strings.Unicode) (d : config.Disk)
    (st : userlevels.State) (hostmask passphraseHash : string) :
  config.LoadSettings d = Some (ownerSettings hostmask passphraseHash) ->
  userlevels.hostmaskUsers st !! hostmask = Some userlevels.Owner ->
  userlevels.users st !! userlevels.nickOf hostmask = Some userlevels.Owner ->
  userlevels.GetUserLevelByHostmask d st hostmask = userlevels.Owner
  /\ userlevels.HasPermission u d st hostmask userlevels.Owner = true.
Proof.
  intros Hs Hh Hu.
  assert (Hl : userlevels.GetUserLevelByHostmask d st hostmask = userlevels.Owner)
    by (unfold userlevels.GetUserLevelByHostmask; now rewrite Hh).
  split; [exact Hl|].
  unfold userlevels.HasPermission. rewrite Hl. simpl.
  unfold userlevels.IsVerifiedOwner. rewrite Hs. simpl.
  destruct (String.eqb_spec hostmask "") as [He|He].
  - subst hostmask. apply (ownerAmong_In u _ (userlevels.nickOf "")).
    + apply list_elem_of_In, elem_of_map_to_list. exact Hu.
    + reflexivity.
  - apply String.eqb_refl.
Qed.




(** * More of the code

    The rest of the packages the claims touch: what the functions do at
    their edges, what they keep, how they compose. *)

(** ** Levels and permissions *)

Lemma owner_test (d : config.Disk) (hostmask : string) :
  match config.LoadSettings d with
  | Some settings =>
      config.OwnerVerified settings
      && negb (String.eqb (config.OwnerHostmask settings) "")
      && String.eqb hostmask (config.OwnerHostmask settings)
  | None => false
  end = bool_decide (verifiedOwner d = Some hostmask).
Proof.
  unfold verifiedOwner. destruct (config.LoadSettings d) as [s|].
  - destruct (config.OwnerVerified s && negb (String.eqb (config.OwnerHostmask s) ""));
      simpl; [|reflexivity].
    destruct (String.eqb_spec hostmask (config.OwnerHostmask s)) as [->|Hne]; symmetry.
    + apply bool_decide_eq_true_2. reflexivity.
    + apply bool_decide_eq_false_2. congruence.
  - symmetry. apply bool_decide_eq_false_2. discriminate.
Qed.

Lemma IsVerifiedOwner_verified (u : strings.Unicode) (d : config.Disk)
    (st : userlevels.State) (owner hostmask : string) :
  verifiedOwner d = Some owner ->
  userlevels.IsVerifiedOwner u d st hostmask = String.eqb hostmask owner.
Proof.
  unfold verifiedOwner, userlevels.IsVerifiedOwner.
  destruct (config.LoadSettings d) as [s|]; [|discriminate].
  destruct (config.OwnerVerified s); simpl; [|discriminate].
  destruct (String.eqb (config.OwnerHostmask s) ""); simpl; [discriminate|].
  now intros [= <-].
Qed.

(** [HasPermission]: an identity at level Ignored passes no check, not
    even one that requires Ignored; a requirement below Owner is a
    comparison of levels; the requirement Owner, once an owner is verified,
    is passed by that owner's exact hostmask only, whatever level another
    hostmask has been given. *)
Theorem HasPermission_cases (u : strings.Unicode) (d : config.Disk)
    (st : userlevels.State) (hostmask : string) (required : userlevels.UserLevel) :
  let level := userlevels.GetUserLevelByHostmask d st hostmask in
  (level = userlevels.Ignored -> userlevels.HasPermission u d st hostmask required = false)
  /\ (required <> userlevels.Owner ->
      (userlevels.HasPermission u d st hostmask required = true
       <-> level <> userlevels.Ignored /\ required <= level))
  /\ (forall owner, verifiedOwner d = Some owner ->
      (userlevels.HasPermission u d st hostmask userlevels.Owner = true
       <-> level <> userlevels.Ignored /\ hostmask = owner)).
Proof.
  cbv zeta. unfold userlevels.HasPermission. split; [|split].
  - intros ->. reflexivity.
  - intros Hreq. apply Z.eqb_neq in Hreq. rewrite Hreq.
    destruct (Z.eqb_spec (userlevels.GetUserLevelByHostmask d st hostmask)
                userlevels.Ignored) as [Hi|Hi].
    + split; [discriminate | tauto].
    + rewrite Z.leb_le. tauto.
  - intros owner Howner. rewrite Z.eqb_refl.
    rewrite (IsVerifiedOwner_verified u d st owner hostmask Howner).
    destruct (Z.eqb_spec (userlevels.GetUserLevelByHostmask d st hostmask)
                userlevels.Ignored) as [Hi|Hi].
    + split; [discriminate | tauto].
    + rewrite String.eqb_eq. tauto.
Qed.

Lemma HasPermission_cases_witness :
  userlevels.HasPermission scenario.tables (disk scenes.ignoredWorld)
      (levels scenes.ignoredWorld)
    (irc.String scenario.mallory) userlevels.Ignored = false
  /\ (userlevels.HasPermission scenario.tables (disk scenes.badBoyWorld)
      (levels scenes.badBoyWorld)
        (irc.String scenario.mallory) userlevels.Regular = true
      <-> userlevels.BadBoy <> userlevels.Ignored
          /\ userlevels.Regular <= userlevels.BadBoy)
  /\ (userlevels.HasPermission scenario.tables (disk scenes.ownerWorld)
      (levels scenes.ownerWorld)
        (irc.String scenario.mallory) userlevels.Owner = true
      <-> userlevels.Regular <> userlevels.Ignored
          /\ irc.String scenario.mallory = irc.String scenario.alice).
Proof.
  split; [|split].
  - apply (proj1 (HasPermission_cases scenario.tables (disk scenes.ignoredWorld) (levels scenes.ignoredWorld)
                    (irc.String scenario.mallory) userlevels.Ignored)).
    vm_compute. reflexivity.
  - apply (proj1 (proj2 (HasPermission_cases scenario.tables (disk scenes.badBoyWorld)
                           (levels scenes.badBoyWorld)
                           (irc.String scenario.mallory) userlevels.Regular))).
    discriminate.
  - apply (proj2 (proj2 (HasPermission_cases scenario.tables (disk scenes.ownerWorld)
                           (levels scenes.ownerWorld)
                           (irc.String scenario.mallory) userlevels.Owner))).
    reflexivity.
Defined.

(** A record for the exact hostmask comes before the verified owner's
    match.  So a verified owner whose own hostmask is recorded at a level
    between BadBoy and Regular still passes the check for Owner, yet fails
    the one for Admin, and [GetAllHostmasks] lists that hostmask as Owner
    while the resolver says otherwise. *)
Theorem owner_record_comes_first (u : strings.Unicode) (d : config.Disk)
    (st : userlevels.State) (owner : string) (level : userlevels.UserLevel) :
  verifiedOwner d = Some owner ->
  userlevels.hostmaskUsers st !! owner = Some level ->
  userlevels.GetUserLevelByHostmask d st owner = level
  /\ userlevels.GetAllHostmasks d st !! owner = Some userlevels.Owner
  /\ (level <> userlevels.Ignored ->
      userlevels.HasPermission u d st owner userlevels.Owner = true)
  /\ (userlevels.Ignored < level < userlevels.Admin ->
      userlevels.HasPermission u d st owner userlevels.Admin = false).
Proof.
  intros Howner Hrec.
  assert (Hl : userlevels.GetUserLevelByHostmask d st owner = level)
    by (unfold userlevels.GetUserLevelByHostmask; now rewrite Hrec).
  split; [exact Hl|]. split; [|split].
  - unfold userlevels.GetAllHostmasks. unfold verifiedOwner in Howner.
    destruct (config.LoadSettings d) as [s|]; [|discriminate].
    destruct (config.OwnerVerified s && negb (String.eqb (config.OwnerHostmask s) ""));
      [|discriminate].
    injection Howner as ->. apply lookup_insert_eq.
  - intros Hi. unfold userlevels.HasPermission. rewrite Hl.
    apply Z.eqb_neq in Hi. rewrite Hi, Z.eqb_refl.
    rewrite (IsVerifiedOwner_verified u d st owner owner Howner).
    apply String.eqb_refl.
  - intros [Hlo Hhi]. unfold userlevels.HasPermission. rewrite Hl.
    destruct (Z.eqb_spec level userlevels.Ignored); [reflexivity|]. simpl.
    apply Z.leb_gt. exact Hhi.
Qed.

Lemma owner_record_comes_first_witness :
  let st := userlevels.SetUserLevelByHostmask (irc.String scenario.alice)
              userlevels.BadBoy (levels scenes.ownerWorld) in
  userlevels.GetUserLevelByHostmask (disk scenes.ownerWorld) st (irc.String scenario.alice)
  = userlevels.BadBoy
  /\ userlevels.HasPermission scenario.tables (disk scenes.ownerWorld)
      st (irc.String scenario.alice)
       userlevels.Owner = true
  /\ userlevels.HasPermission scenario.tables (disk scenes.ownerWorld)
      st (irc.String scenario.alice)
       userlevels.Admin = false.
Proof.
  cbv zeta.
  destruct (owner_record_comes_first scenario.tables (disk scenes.ownerWorld)
              (userlevels.SetUserLevelByHostmask (irc.String scenario.alice)
                 userlevels.BadBoy (levels scenes.ownerWorld))
              (irc.String scenario.alice) userlevels.BadBoy
              ltac:(reflexivity) ltac:(vm_compute; reflexivity))
    as (Hl & _ & Ho & Ha).
  split; [exact Hl|]. split.
  - apply Ho. discriminate.
  - apply Ha. split; reflexivity.
Defined.

(** The legacy setter gives the level to every hostmask of the nickname
    that has no record of its own and is not the verified owner's. *)
Theorem SetUserLevel_covers_the_nickname (d : config.Disk) (st : userlevels.State)
    (nick hostmask : string) (level : userlevels.UserLevel) :
  userlevels.nickOf hostmask = nick ->
  userlevels.hostmaskUsers st !! hostmask = None ->
  hostmask <> nick ++ "!*@*" ->
  verifiedOwner d <> Some hostmask ->
  userlevels.GetUserLevelByHostmask d (userlevels.SetUserLevel nick level st) hostmask
  = level.
Proof.
  intros Hnick Hnone Hwild Howner.
  unfold userlevels.GetUserLevelByHostmask, userlevels.SetUserLevel.
  cbn [userlevels.hostmaskUsers userlevels.users].
  rewrite lookup_insert_ne by congruence. rewrite Hnone.
  rewrite owner_test, bool_decide_eq_false_2 by exact Howner.
  now rewrite Hnick, lookup_insert_eq.
Qed.

Lemma SetUserLevel_covers_the_nickname_witness :
  userlevels.GetUserLevelByHostmask (disk (scenario.world []))
    (userlevels.SetUserLevel "mallory" userlevels.Ignored (levels (scenario.world [])))
    "mallory!m@evil.example"
  = userlevels.Ignored.
Proof.
  apply SetUserLevel_covers_the_nickname.
  - reflexivity.
  - reflexivity.
  - discriminate.
  - discriminate.
Defined.

(** ** Saving and loading the levels *)

Lemma loadEntries_lookup (l : list (string * Z)) (st : userlevels.State) (k : string) :
  NoDup (List.map fst l) ->
  userlevels.hostmaskUsers (userlevels.loadEntries (List.map entryOf l) st) !! k
  = match (list_to_map l : gmap string Z) !! k with
    | Some v => Some v
    | None => userlevels.hostmaskUsers st !! k
    end.
Proof.
  revert st. induction l as [|[k0 v0] l IH]; intros st Hnd; [reflexivity|].
  apply NoDup_cons in Hnd as [Hk0 Hnd].
  cbn [List.map userlevels.loadEntries entryOf fst snd config.Hostmask config.Level
       list_to_map foldr uncurry].
  rewrite (IH _ Hnd). cbn [userlevels.hostmaskUsers].
  destruct (decide (k = k0)) as [->|Hne].
  - rewrite !lookup_insert_eq.
    rewrite (not_elem_of_list_to_map_1 l k0); [reflexivity|].
    exact Hk0.
  - now rewrite !lookup_insert_ne by congruence.
Qed.

Lemma loadEntries_users (entries : list config.HostmaskEntry) (st : userlevels.State)
    (nick : string) :
  is_Some (userlevels.users st !! nick) ->
  is_Some (userlevels.users (userlevels.loadEntries entries st) !! nick).
Proof.
  revert st. induction entries as [|e rest IH]; intros st Hs; [exact Hs|].
  apply IH. cbn [userlevels.users].
  destruct (decide (userlevels.nickOf (config.Hostmask e) = nick)) as [<-|Hne].
  - rewrite lookup_insert_eq. eauto.
  - now rewrite lookup_insert_ne.
Qed.

Lemma loadEntries_from_file (entries : list config.HostmaskEntry) (st : userlevels.State)
    (hostmask : string) (level : Z) :
  userlevels.hostmaskUsers (userlevels.loadEntries entries st) !! hostmask = Some level ->
  In {| config.Hostmask := hostmask; config.Level := level |} entries
  \/ userlevels.hostmaskUsers st !! hostmask = Some level.
Proof.
  revert st. induction entries as [|e rest IH]; intros st Hl; [now right|].
  destruct (IH _ Hl) as [Hin|Hhere]; [left; now right|].
  cbn [userlevels.hostmaskUsers] in Hhere.
  destruct (decide (config.Hostmask e = hostmask)) as [<-|Hne].
  - rewrite lookup_insert_eq in Hhere. injection Hhere as <-.
    left. left. now destruct e.
  - rewrite lookup_insert_ne in Hhere by exact Hne. now right.
Qed.

(** What [SaveHostmasks] writes, [LoadHostmasks] reads back: after a save
    on a writable disk, a load restores [hostmaskUsers] exactly, whatever
    the memory held before the load. *)
Theorem SaveHostmasks_then_LoadHostmasks (st st0 : userlevels.State) (d : config.Disk) :
  config.writable d = true ->
  fst (userlevels.SaveHostmasks st d) = true
  /\ userlevels.hostmaskUsers
       (userlevels.LoadHostmasks (snd (userlevels.SaveHostmasks st d)) st0)
     = userlevels.hostmaskUsers st.
Proof.
  intros Hw. unfold userlevels.SaveHostmasks, config.SaveSettings. rewrite Hw.
  split; [reflexivity|]. cbn [snd].
  unfold userlevels.LoadHostmasks, config.LoadSettings at 1. cbn [config.settings_file].
  assert (Hload : forall l, userlevels.hostmaskUsers
             (userlevels.loadEntries
                (List.map (fun e => {| config.Hostmask := fst e; config.Level := snd e |})
                          (map_to_list (userlevels.hostmaskUsers st)))
                {| userlevels.hostmaskUsers := ∅; userlevels.users := l |})
           = userlevels.hostmaskUsers st).
  { intros l. apply map_eq. intros k.
    change (fun e : string * Z => {| config.Hostmask := fst e; config.Level := snd e |})
      with entryOf.
    rewrite loadEntries_lookup by apply NoDup_fst_map_to_list.
    rewrite list_to_map_to_list. cbn [userlevels.hostmaskUsers].
    rewrite lookup_empty. now destruct (userlevels.hostmaskUsers st !! k). }
  destruct (config.LoadSettings d); cbn; apply Hload.
Qed.

Lemma SaveHostmasks_then_LoadHostmasks_witness :
  let st := userlevels.SetUserLevelByHostmask "alice!al@home.example" userlevels.Admin
              (levels (scenario.world [])) in
  fst (userlevels.SaveHostmasks st (disk (scenario.world []))) = true
  /\ userlevels.hostmaskUsers
       (userlevels.LoadHostmasks
          (snd (userlevels.SaveHostmasks st (disk (scenario.world []))))
          (levels (scenario.world [("mallory!m@evil.example", userlevels.BadBoy)])))
     = userlevels.hostmaskUsers st.
Proof.
  cbv zeta. apply SaveHostmasks_then_LoadHostmasks. reflexivity.
Defined.

(** [SaveHostmasks] and the owner.  On a disk that cannot be written it
    reports the error and changes nothing.  On a writable disk it keeps
    the verified owner when the settings file could be decoded, or did not
    exist; a file that cannot be decoded is replaced by one without a
    verified owner, so that the next start is a first run again. *)
Theorem SaveHostmasks_and_the_owner (st : userlevels.State) (d : config.Disk) :
  (config.writable d = false -> userlevels.SaveHostmasks st d = (false, d))
  /\ (config.writable d = true ->
      config.LoadSettings d <> None ->
      verifiedOwner (snd (userlevels.SaveHostmasks st d)) = verifiedOwner d)
  /\ (config.writable d = true ->
      config.LoadSettings d = None ->
      verifiedOwner (snd (userlevels.SaveHostmasks st d)) = None
      /\ config.IsFirstRun (snd (userlevels.SaveHostmasks st d)) = true).
Proof.
  unfold userlevels.SaveHostmasks, config.SaveSettings. split; [|split].
  - intros ->. reflexivity.
  - intros -> Hs. cbn [snd]. unfold verifiedOwner, config.LoadSettings at 1.
    cbn [config.settings_file].
    destruct (config.LoadSettings d) as [s|]; [reflexivity | congruence].
  - intros -> Hs. cbn [snd]. rewrite Hs. split; reflexivity.
Qed.

Lemma SaveHostmasks_and_the_owner_witness :
  userlevels.SaveHostmasks (levels scenes.ownerWorld)
    {| config.settings_file := config.Undecodable; config.writable := false |}
  = (false, {| config.settings_file := config.Undecodable; config.writable := false |})
  /\ verifiedOwner (snd (userlevels.SaveHostmasks (levels scenes.ownerWorld)
                           (disk scenes.ownerWorld)))
     = verifiedOwner (disk scenes.ownerWorld)
  /\ config.IsFirstRun
       (snd (userlevels.SaveHostmasks (levels scenes.ownerWorld)
               {| config.settings_file := config.Undecodable; config.writable := true |}))
     = true.
Proof.
  split; [|split].
  - apply (proj1 (SaveHostmasks_and_the_owner (levels scenes.ownerWorld)
                    {| config.settings_file := config.Undecodable;
                       config.writable := false |})).
    reflexivity.
  - apply (proj1 (proj2 (SaveHostmasks_and_the_owner (levels scenes.ownerWorld)
                           (disk scenes.ownerWorld)))).
    + reflexivity.
    + discriminate.
  - apply (proj2 (proj2 (SaveHostmasks_and_the_owner (levels scenes.ownerWorld)
                           {| config.settings_file := config.Undecodable;
                              config.writable := true |}))).
    + reflexivity.
    + reflexivity.
Defined.

(** [LoadHostmasks] at its edges.  Without a decodable settings file, or
    with [hostmask_levels] off, it changes nothing.  Otherwise the records
    of [hostmaskUsers] are afterwards those of the file and no others,
    records made in memory since being dropped, whereas a nickname that had
    a level keeps one. *)
Theorem LoadHostmasks_edges (d : config.Disk) (st : userlevels.State) :
  (config.LoadSettings d = None -> userlevels.LoadHostmasks d st = st)
  /\ (forall s, config.LoadSettings d = Some s -> config.HostmaskLevels s = false ->
                userlevels.LoadHostmasks d st = st)
  /\ (forall s hostmask level,
        config.LoadSettings d = Some s -> config.HostmaskLevels s = true ->
        userlevels.hostmaskUsers (userlevels.LoadHostmasks d st) !! hostmask = Some level ->
        In {| config.Hostmask := hostmask; config.Level := level |} (config.Hostmasks s))
  /\ (forall nick, is_Some (userlevels.users st !! nick) ->
                   is_Some (userlevels.users (userlevels.LoadHostmasks d st) !! nick)).
Proof.
  unfold userlevels.LoadHostmasks. split; [|split; [|split]].
  - intros ->. reflexivity.
  - intros s -> ->. reflexivity.
  - intros s hostmask level -> ->. cbn [negb]. intros Hl.
    destruct (loadEntries_from_file _ _ _ _ Hl) as [Hin|Hhere]; [exact Hin|].
    cbn [userlevels.hostmaskUsers] in Hhere. now rewrite lookup_empty in Hhere.
  - intros nick Hs. destruct (config.LoadSettings d) as [s|]; [|exact Hs].
    destruct (config.HostmaskLevels s); cbn [negb]; [|exact Hs].
    now apply loadEntries_users.
Qed.

Lemma LoadHostmasks_edges_witness :
  userlevels.LoadHostmasks
    {| config.settings_file := config.Undecodable; config.writable := true |}
    (levels scenes.ownerWorld) = levels scenes.ownerWorld
  /\ userlevels.LoadHostmasks (disk (scenario.world [])) (levels scenes.ownerWorld)
     = levels scenes.ownerWorld
  /\ (userlevels.hostmaskUsers
        (userlevels.LoadHostmasks (disk scenes.ownerWorld) (levels scenes.badBoyWorld))
        !! "alice!al@home.example" = Some userlevels.Owner ->
      In {| config.Hostmask := "alice!al@home.example"; config.Level := userlevels.Owner |}
         [{| config.Hostmask := "alice!al@home.example";
             config.Level := userlevels.Owner |}])
  /\ is_Some (userlevels.users
                (userlevels.LoadHostmasks (disk scenes.ownerWorld)
                   (userlevels.SetUserLevel "bob" userlevels.Admin
                      (levels scenes.badBoyWorld))) !! "bob").
Proof.
  split; [|split; [|split]].
  - apply (proj1 (LoadHostmasks_edges _ _)). reflexivity.
  - apply (proj1 (proj2 (LoadHostmasks_edges (disk (scenario.world []))
                           (levels scenes.ownerWorld))) _ eq_refl). reflexivity.
  - apply (proj1 (proj2 (proj2 (LoadHostmasks_edges (disk scenes.ownerWorld)
                                  (levels scenes.badBoyWorld)))) _ _ _ eq_refl).
    reflexivity.
  - apply (proj2 (proj2 (proj2 (LoadHostmasks_edges (disk scenes.ownerWorld)
                                  (userlevels.SetUserLevel "bob" userlevels.Admin
                                     (levels scenes.badBoyWorld)))))).
    exists userlevels.Admin. reflexivity.
Defined.

(** ** The rate limiter *)

Lemma filter_After_Forall (cutoff : Z) (recorded : list Z) :
  Forall (fun t => cutoff < t) (List.filter (fun t => security.After t cutoff) recorded).
Proof.
  induction recorded as [|t rest IH]; [constructor|].
  cbn [List.filter]. unfold security.After at 1.
  destruct (Z.ltb_spec cutoff t); [constructor|]; assumption.
Qed.

(** [TrackMessage] keeps, for the sender, only the instants of the
    current window and counts them; with a positive window the message
    just tracked is one of them.  The records of the other senders, the
    command records and the warnings are not touched. *)
Theorem TrackMessage_keeps_the_window (now : Z) (hostmask : string)
    (m : security.MessageTracker) :
  let r := security.TrackMessage now hostmask m in
  Forall (fun t => now - security.messageWindow m < t) (messagesOf (snd r) hostmask)
  /\ snd (fst r) = Z.of_nat (length (messagesOf (snd r) hostmask))
  /\ (0 < security.messageWindow m ->
      In now (messagesOf (snd r) hostmask) /\ 1 <= snd (fst r))
  /\ (forall other, other <> hostmask -> messagesOf (snd r) other = messagesOf m other)
  /\ security.userCommandUsage (snd r) = security.userCommandUsage m
  /\ security.warningCounts (snd r) = security.warningCounts m.
Proof.
  cbv zeta. unfold security.TrackMessage, messagesOf.
  cbn [fst snd security.userMessages security.userCommandUsage security.warningCounts].
  rewrite lookup_insert_eq. cbn [default from_option id].
  split; [apply filter_After_Forall|]. split; [reflexivity|].
  split; [|split; [|split; reflexivity]].
  - intros Hw.
    assert (Hin : In now (List.filter (fun t => security.After t (now - security.messageWindow m))
                            (default [] (security.userMessages m !! hostmask) ++ [now])%list)).
    { apply List.filter_In. split; [apply in_or_app; right; now left|].
      unfold security.After. apply Z.ltb_lt. lia. }
    split; [exact Hin|].
    destruct (List.filter _ _); [destruct Hin|]. cbn [length]. lia.
  - intros other Hne. now rewrite lookup_insert_ne by congruence.
Qed.

Lemma TrackMessage_keeps_the_window_witness :
  let r := security.TrackMessage 50 "mallory!m@evil.example"
             (snd (security.TrackMessage 20 "al!al@home.example"
                     security.NewMessageTracker)) in
  (In 50 (messagesOf (snd r) "mallory!m@evil.example") /\ 1 <= snd (fst r))
  /\ messagesOf (snd r) "al!al@home.example" = [20].
Proof.
  cbv zeta. split.
  - apply (proj1 (proj2 (proj2 (TrackMessage_keeps_the_window 50 "mallory!m@evil.example"
       (snd (security.TrackMessage 20 "al!al@home.example" security.NewMessageTracker)))))).
    vm_compute. reflexivity.
  - rewrite (proj1 (proj2 (proj2 (proj2 (TrackMessage_keeps_the_window 50
       "mallory!m@evil.example"
       (snd (security.TrackMessage 20 "al!al@home.example" security.NewMessageTracker))))))
       "al!al@home.example").
    + vm_compute. reflexivity.
    + discriminate.
Defined.

(** [TrackCommand] counts per sender and per command name: it keeps the
    instants of the current command window for that pair and leaves the
    records of every other command of the sender, of every other sender,
    the message records and the warnings as they were. *)
Theorem TrackCommand_counts_per_command (now : Z) (hostmask commandName : string)
    (m : security.MessageTracker) :
  let r := security.TrackCommand now hostmask commandName m in
  Forall (fun t => now - security.commandWindow m < t)
         (commandsOf (snd r) hostmask commandName)
  /\ snd (fst r) = Z.of_nat (length (commandsOf (snd r) hostmask commandName))
  /\ (forall otherCommand, otherCommand <> commandName ->
        commandsOf (snd r) hostmask otherCommand = commandsOf m hostmask otherCommand)
  /\ (forall other anyCommand, other <> hostmask ->
        commandsOf (snd r) other anyCommand = commandsOf m other anyCommand)
  /\ security.userMessages (snd r) = security.userMessages m
  /\ security.warningCounts (snd r) = security.warningCounts m.
Proof.
  cbv zeta. unfold security.TrackCommand, commandsOf.
  cbn [fst snd security.userMessages security.userCommandUsage security.warningCounts].
  split; [|split; [|split; [|split; [|split; reflexivity]]]].
  - rewrite lookup_insert_eq. cbn [default from_option id].
    rewrite lookup_insert_eq. cbn [from_option id]. apply filter_After_Forall.
  - rewrite lookup_insert_eq. cbn [default from_option id].
    rewrite lookup_insert_eq. reflexivity.
  - intros otherCommand Hne. rewrite lookup_insert_eq. cbn [default from_option id].
    now rewrite lookup_insert_ne by congruence.
  - intros other anyCommand Hne. now rewrite lookup_insert_ne by congruence.
Qed.

Lemma TrackCommand_counts_per_command_witness :
  let m := snd (security.TrackCommand 20 "al!al@home.example" "help"
                  security.NewMessageTracker) in
  commandsOf (snd (security.TrackCommand 50 "al!al@home.example" "ping" m))
             "al!al@home.example" "help" = [20]
  /\ commandsOf (snd (security.TrackCommand 50 "mallory!m@evil.example" "help" m))
                "al!al@home.example" "help" = [20].
Proof.
  cbv zeta. split.
  - rewrite (proj1 (proj2 (proj2 (TrackCommand_counts_per_command 50 "al!al@home.example"
       "ping" (snd (security.TrackCommand 20 "al!al@home.example" "help"
                      security.NewMessageTracker))))) "help").
    + vm_compute. reflexivity.
    + discriminate.
  - rewrite (proj1 (proj2 (proj2 (proj2 (TrackCommand_counts_per_command 50
       "mallory!m@evil.example" "help"
       (snd (security.TrackCommand 20 "al!al@home.example" "help"
               security.NewMessageTracker)))))) "al!al@home.example" "help").
    + vm_compute. reflexivity.
    + discriminate.
Defined.

Lemma warnings_records (n : nat) (hostmask : string) (m : security.MessageTracker) :
  security.userMessages (warnings n hostmask m) = security.userMessages m
  /\ security.userCommandUsage (warnings n hostmask m) = security.userCommandUsage m
  /\ security.warningThreshold (warnings n hostmask m) = security.warningThreshold m.
Proof.
  induction n as [|n IH]; [repeat split|]. exact IH.
Qed.

(** Warnings add up and never expire.  After [n] warnings the count of
    the sender is [n] higher, the next warning answers whether the count it
    reaches is at least the threshold, and tracking a message or a command
    afterwards leaves the count where it is: no window applies to it. *)
Theorem AddWarning_accumulates (n : nat) (hostmask : string) (m : security.MessageTracker) :
  let m' := warnings n hostmask m in
  security.GetWarningCount m' hostmask = security.GetWarningCount m hostmask + Z.of_nat n
  /\ fst (security.AddWarning hostmask m')
     = (security.warningThreshold m
        <=? security.GetWarningCount m hostmask + Z.of_nat n + 1)%Z
  /\ (forall now, security.GetWarningCount (snd (security.TrackMessage now hostmask m'))
                    hostmask = security.GetWarningCount m' hostmask)
  /\ (forall now commandName,
        security.GetWarningCount (snd (security.TrackCommand now hostmask commandName m'))
          hostmask = security.GetWarningCount m' hostmask)
  /\ security.userMessages m' = security.userMessages m
  /\ security.userCommandUsage m' = security.userCommandUsage m.
Proof.
  cbv zeta.
  assert (Hcount : security.GetWarningCount (warnings n hostmask m) hostmask
                   = security.GetWarningCount m hostmask + Z.of_nat n).
  { induction n as [|n IH]; [cbn [warnings]; lia|].
    cbn [warnings]. unfold security.AddWarning. cbn [snd].
    unfold security.GetWarningCount at 1. cbn [security.warningCounts].
    rewrite lookup_insert_eq. cbn [default from_option id]. rewrite IH. lia. }
  destruct (warnings_records n hostmask m) as (Hm & Hc & Ht).
  split; [exact Hcount|]. split.
  { unfold security.AddWarning. cbn [fst]. now rewrite Hcount, Ht. }
  repeat split; assumption.
Qed.

(** [ResetUser] forgets one sender: no message, no command and no
    warning of theirs is left, so that, under a positive window, their next
    message counts as the first; what is recorded for anybody else stays. *)
Theorem ResetUser_forgets_one_sender (hostmask : string) (m : security.MessageTracker) :
  let m' := security.ResetUser hostmask m in
  messagesOf m' hostmask = []
  /\ (forall commandName, commandsOf m' hostmask commandName = [])
  /\ security.GetWarningCount m' hostmask = 0
  /\ (forall now, 0 < security.messageWindow m ->
        fst (security.TrackMessage now hostmask m')
        = ((security.maxMessagesPerWindow m <? 1)%Z, 1))
  /\ (forall other, other <> hostmask ->
        messagesOf m' other = messagesOf m other
        /\ (forall commandName, commandsOf m' other commandName = commandsOf m other commandName)
        /\ security.GetWarningCount m' other = security.GetWarningCount m other).
Proof.
  cbv zeta. unfold messagesOf, commandsOf, security.GetWarningCount, security.ResetUser.
  cbn [security.userMessages security.userCommandUsage security.warningCounts].
  split; [now rewrite lookup_delete_eq|].
  split; [intros c; now rewrite lookup_delete_eq|].
  split; [now rewrite lookup_delete_eq|].
  split.
  - intros now Hw. unfold security.TrackMessage.
    cbn [fst security.userMessages security.messageWindow security.maxMessagesPerWindow].
    rewrite lookup_delete_eq. cbn [default from_option id app List.filter].
    unfold security.After.
    destruct (Z.ltb_spec (now - security.messageWindow m) now); [reflexivity | lia].
  - intros other Hne. rewrite !lookup_delete_ne by congruence.
    split; [reflexivity|]. split; [|reflexivity].
    intros c. reflexivity.
Qed.

Lemma ResetUser_forgets_one_sender_witness :
  let m := snd (security.AddWarning "al!al@home.example"
                  (snd (security.AddWarning "mallory!m@evil.example"
                          security.NewMessageTracker))) in
  fst (security.TrackMessage 7 "mallory!m@evil.example"
         (security.ResetUser "mallory!m@evil.example" m)) = (false, 1)
  /\ security.GetWarningCount (security.ResetUser "mallory!m@evil.example" m)
       "al!al@home.example" = 1.
Proof.
  cbv zeta. split.
  - rewrite (proj1 (proj2 (proj2 (proj2 (ResetUser_forgets_one_sender
       "mallory!m@evil.example"
       (snd (security.AddWarning "al!al@home.example"
               (snd (security.AddWarning "mallory!m@evil.example"
                       security.NewMessageTracker)))))))) 7).
    + reflexivity.
    + vm_compute. reflexivity.
  - rewrite (proj2 (proj2 (proj2 (proj2 (proj2 (proj2 (ResetUser_forgets_one_sender
       "mallory!m@evil.example"
       (snd (security.AddWarning "al!al@home.example"
               (snd (security.AddWarning "mallory!m@evil.example"
                       security.NewMessageTracker))))))))
       "al!al@home.example" ltac:(discriminate)))).
    vm_compute. reflexivity.
Defined.

(** ** The module registry *)

(** A load that fails leaves the modules as they were.  When the file
    cannot be opened, has no [Plugin] symbol or exports something else,
    nothing at all happens; when [OnLoad] of a module that is not loaded
    yet returns an error, the module got that one call and is not
    registered. *)
Theorem LoadPlugin_failure (artifact : string -> plugin.Artifact) (now : Z)
    (path : string) (mgr : plugin.manager) :
  let r := plugin.LoadPlugin artifact now path mgr in
  (fst (fst r) <> None -> plugin.plugins (snd (fst r)) = plugin.plugins mgr)
  /\ ((forall plug, artifact path <> plugin.Exports plug) ->
      fst (fst r) <> None /\ snd (fst r) = mgr /\ snd r = [])
  /\ (forall plug e,
        artifact path = plugin.Exports plug ->
        plugin.plugins mgr !! plugin.Name plug = None ->
        plugin.OnLoad plug = Some e ->
        r = (Some (plugin.OnLoadError e), mgr, [plugin.CallOnLoad plug])
        /\ plugin.GetPluginVersion (snd (fst r)) (plugin.Name plug) = None).
Proof.
  cbv zeta. unfold plugin.LoadPlugin. split; [|split].
  - destruct (artifact path) as [| | |plug]; try reflexivity.
    destruct (plugin.plugins mgr !! plugin.Name plug) as [existingInfo|].
    + destruct (String.eqb _ _); [intros H; now elim H|].
      unfold plugin.unloadPrevious, plugin.install.
      destruct (plugin.OnLoad plug); [reflexivity | intros H; now elim H].
    + unfold plugin.install.
      destruct (plugin.OnLoad plug); [reflexivity | intros H; now elim H].
  - intros Hno. destruct (artifact path) as [| | |plug]; try (now repeat split).
    now elim (Hno plug).
  - intros plug e -> Hfresh He. rewrite Hfresh. unfold plugin.install. rewrite He.
    split; [reflexivity|]. unfold plugin.GetPluginVersion. cbn [fst snd].
    now rewrite Hfresh.
Qed.

Lemma LoadPlugin_failure_witness :
  let broken := {| plugin.Name := "greeter"; plugin.Version := "2.0.0";
                   plugin.OnLoad := Some "no database"; plugin.Unloader := None;
                   plugin.CommandHandler := None; plugin.implements := [] |} in
  let mgr := {| plugin.plugins := ∅; plugin.pluginPaths := ∅ |} in
  plugin.plugins (snd (fst (plugin.LoadPlugin (fun _ => plugin.NotAPlugin) 5 "x.so" mgr)))
  = plugin.plugins mgr
  /\ snd (plugin.LoadPlugin (fun _ => plugin.CannotOpen) 5 "x.so" mgr) = []
  /\ plugin.LoadPlugin (fun _ => plugin.Exports broken) 5 "greeter.so" mgr
     = (Some (plugin.OnLoadError "no database"), mgr, [plugin.CallOnLoad broken]).
Proof.
  cbv zeta. split; [|split].
  - apply (proj1 (LoadPlugin_failure (fun _ => plugin.NotAPlugin) 5 "x.so"
                    {| plugin.plugins := ∅; plugin.pluginPaths := ∅ |})).
    discriminate.
  - apply (proj1 (proj2 (LoadPlugin_failure (fun _ => plugin.CannotOpen) 5 "x.so"
                           {| plugin.plugins := ∅; plugin.pluginPaths := ∅ |}))).
    discriminate.
  - apply (proj2 (proj2 (LoadPlugin_failure _ 5 "greeter.so"
                           {| plugin.plugins := ∅; plugin.pluginPaths := ∅ |}))
             _ "no database" eq_refl); reflexivity.
Defined.

(** An upgrade that fails.  When a module is loaded at one version and
    [OnLoad] of another version of it returns an error, the old module has
    already been asked to unload (if it can be) and its path is forgotten,
    yet it stays registered at its old version and is still among the
    modules that events and commands are given to. *)
Theorem LoadPlugin_failed_upgrade (artifact : string -> plugin.Artifact) (now : Z)
    (path : string) (mgr : plugin.manager) (plug : plugin.Plugin)
    (old : plugin.pluginInfo) (e : string) :
  artifact path = plugin.Exports plug ->
  plugin.plugins mgr !! plugin.Name plug = Some old ->
  plugin.version old <> plugin.Version plug ->
  plugin.OnLoad plug = Some e ->
  let r := plugin.LoadPlugin artifact now path mgr in
  fst (fst r) = Some (plugin.OnLoadError e)
  /\ snd r = (match plugin.Unloader (plugin.plugin old) with
              | Some _ => [plugin.CallOnUnload (plugin.plugin old)]
              | None => []
              end ++ [plugin.CallOnLoad plug])%list
  /\ plugin.GetPluginVersion (snd (fst r)) (plugin.Name plug) = Some (plugin.version old)
  /\ plugin.GetPluginObjects (snd (fst r)) = plugin.GetPluginObjects mgr
  /\ In (plugin.plugin old) (plugin.GetPluginObjects (snd (fst r)))
  /\ plugin.pluginPaths (snd (fst r)) !! plugin.Name plug = None.
Proof.
  intros Ha Hold Hv He. cbv zeta. unfold plugin.LoadPlugin. rewrite Ha, Hold.
  apply String.eqb_neq in Hv. rewrite Hv.
  unfold plugin.unloadPrevious, plugin.install. rewrite He. cbn [fst snd].
  unfold plugin.GetPluginVersion, plugin.GetPluginObjects. cbn [plugin.plugins
    plugin.pluginPaths]. rewrite Hold, lookup_delete_eq.
  repeat split.
  apply in_map_iff. exists (plugin.Name plug, old). split; [reflexivity|].
  apply list_elem_of_In, elem_of_map_to_list. exact Hold.
Qed.

Lemma LoadPlugin_failed_upgrade_witness :
  let broken := {| plugin.Name := "Greeter"; plugin.Version := "2.0.0";
                   plugin.OnLoad := Some "no database"; plugin.Unloader := None;
                   plugin.CommandHandler := None; plugin.implements := [] |} in
  plugin.GetPluginVersion
    (snd (fst (plugin.LoadPlugin (fun _ => plugin.Exports broken) 9 "greeter2.so"
                 (mgr scenes.badBoyWorld)))) "Greeter"
  = Some "1.0.0".
Proof.
  intros broken.
  refine (proj1 (proj2 (proj2 (LoadPlugin_failed_upgrade (fun _ => plugin.Exports broken)
            9 "greeter2.so" (mgr scenes.badBoyWorld) broken
            (scenario.loaded (scenario.greeter "1.0.0") "plugins/greeter_v1.so")
            "no database" eq_refl _ _ eq_refl)))).
  - vm_compute. reflexivity.
  - discriminate.
Defined.

(** [UnloadPlugin].  For a name that is not registered it reports the
    error and does nothing.  For a registered module it calls [OnUnload]
    exactly when the module has that method, removes the module and its
    path and leaves every other module alone; unloading the same name once
    more is then an error. *)
Theorem UnloadPlugin_removes_the_module (name : string) (mgr : plugin.manager) :
  let r := plugin.UnloadPlugin name mgr in
  (plugin.plugins mgr !! name = None -> r = (false, mgr, []))
  /\ (forall info, plugin.plugins mgr !! name = Some info ->
        fst (fst r) = true
        /\ snd r = match plugin.Unloader (plugin.plugin info) with
                   | Some _ => [plugin.CallOnUnload (plugin.plugin info)]
                   | None => []
                   end
        /\ plugin.GetPluginVersion (snd (fst r)) name = None
        /\ plugin.pluginPaths (snd (fst r)) !! name = None
        /\ fst (fst (plugin.UnloadPlugin name (snd (fst r)))) = false)
  /\ (forall other, other <> name ->
        plugin.plugins (snd (fst r)) !! other = plugin.plugins mgr !! other
        /\ plugin.pluginPaths (snd (fst r)) !! other = plugin.pluginPaths mgr !! other).
Proof.
  cbv zeta. unfold plugin.UnloadPlugin. split; [|split].
  - intros ->. reflexivity.
  - intros info ->. cbn [fst snd]. unfold plugin.GetPluginVersion.
    cbn [plugin.plugins plugin.pluginPaths]. rewrite !lookup_delete_eq.
    repeat split.
  - intros other Hne. destruct (plugin.plugins mgr !! name); cbn [fst snd];
      [|now split].
    cbn [plugin.plugins plugin.pluginPaths].
    now rewrite !lookup_delete_ne by congruence.
Qed.

Lemma UnloadPlugin_removes_the_module_witness :
  plugin.UnloadPlugin "Echo" (mgr scenes.badBoyWorld) = (false, mgr scenes.badBoyWorld, [])
  /\ snd (plugin.UnloadPlugin "Greeter" (mgr scenes.badBoyWorld))
     = [plugin.CallOnUnload (scenario.greeter "1.0.0")]
  /\ plugin.plugins (snd (fst (plugin.UnloadPlugin "Greeter" (mgr scenes.badBoyWorld))))
       !! "Listener"
     = plugin.plugins (mgr scenes.badBoyWorld) !! "Listener".
Proof.
  split; [|split].
  - apply (proj1 (UnloadPlugin_removes_the_module "Echo" (mgr scenes.badBoyWorld))).
    vm_compute. reflexivity.
  - apply (proj1 (proj2 (proj1 (proj2 (UnloadPlugin_removes_the_module "Greeter"
             (mgr scenes.badBoyWorld)))
             (scenario.loaded (scenario.greeter "1.0.0") "plugins/greeter_v1.so")
             ltac:(vm_compute; reflexivity)))).
  - apply (proj1 (proj2 (proj2 (UnloadPlugin_removes_the_module "Greeter"
             (mgr scenes.badBoyWorld))) "Listener" ltac:(discriminate))).
Defined.

(** Loading a module that was not registered and unloading it again
    gives back the registry there was, and the module has seen [OnLoad]
    and then, if it has the method, [OnUnload]. *)
Theorem LoadPlugin_then_UnloadPlugin (artifact : string -> plugin.Artifact) (now : Z)
    (path : string) (mgr : plugin.manager) (plug : plugin.Plugin) :
  artifact path = plugin.Exports plug ->
  plugin.OnLoad plug = None ->
  plugin.plugins mgr !! plugin.Name plug = None ->
  plugin.pluginPaths mgr !! plugin.Name plug = None ->
  let loaded := plugin.LoadPlugin artifact now path mgr in
  let unloaded := plugin.UnloadPlugin (plugin.Name plug) (snd (fst loaded)) in
  fst (fst loaded) = None
  /\ plugin.GetPluginVersion (snd (fst loaded)) (plugin.Name plug)
     = Some (plugin.Version plug)
  /\ fst (fst unloaded) = true
  /\ snd (fst unloaded) = mgr
  /\ (snd loaded ++ snd unloaded)%list
     = (plugin.CallOnLoad plug
        :: match plugin.Unloader plug with
           | Some _ => [plugin.CallOnUnload plug]
           | None => []
           end).
Proof.
  intros Ha Hl Hp Hq. cbv zeta. unfold plugin.LoadPlugin. rewrite Ha, Hp.
  unfold plugin.install. rewrite Hl. cbn [fst snd].
  unfold plugin.UnloadPlugin, plugin.GetPluginVersion. cbn [plugin.plugins
    plugin.pluginPaths]. rewrite lookup_insert_eq. cbn [fst snd plugin.plugin
    plugin.version app].
  repeat split.
  rewrite !delete_insert_id by assumption. now destruct mgr.
Qed.

Lemma LoadPlugin_then_UnloadPlugin_witness :
  let mgr := scenario.registry [(scenario.listener "1.0.0", "plugins/listener_v1.so")] in
  snd (fst (plugin.UnloadPlugin "Greeter"
              (snd (fst (plugin.LoadPlugin scenario.artifacts 7 "plugins/greeter_v2.so"
                           mgr)))))
  = mgr.
Proof.
  intros mgr.
  apply (proj1 (proj2 (proj2 (proj2 (LoadPlugin_then_UnloadPlugin scenario.artifacts 7
           "plugins/greeter_v2.so" mgr (scenario.greeter "2.0.0")
           eq_refl eq_refl ltac:(vm_compute; reflexivity)
           ltac:(vm_compute; reflexivity)))))).
Defined.

Lemma handleAmong_answer (plugs : list plugin.Plugin) (m : irc.Message) (cmd : string)
    (args : list string) :
  fst (plugin.handleAmong plugs m cmd args)
  = existsb (fun plug => declares plug cmd || legacy plug cmd) plugs.
Proof.
  induction plugs as [|plug rest IH]; [reflexivity|].
  cbn [plugin.handleAmong existsb]. fold (declares plug cmd). fold (legacy plug cmd).
  destruct (declares plug cmd); [reflexivity|].
  destruct (legacy plug cmd); [reflexivity|]. exact IH.
Qed.

(** What [HandlePluginCommand] answers.  It answers true exactly when a
    loaded module declares the command or is listed for it in the legacy
    table, and it calls at most one module; with no module loaded the
    answer is false.  An answer of true does not mean that a module ran:
    a module found through the legacy table is not called. *)
Theorem HandlePluginCommand_answer (mgr : plugin.manager) (m : irc.Message)
    (cmd : string) (args : list string) :
  let r := plugin.HandlePluginCommand mgr m cmd args in
  (fst r = true <-> exists plug, In plug (plugin.GetPluginObjects mgr)
                                 /\ (declares plug cmd = true \/ legacy plug cmd = true))
  /\ (fst r = false -> snd r = [])
  /\ (length (snd r) <= 1)%nat
  /\ (plugin.plugins mgr = ∅ -> r = (false, []))
  /\ (forall plug, plugin.GetPluginObjects mgr = [plug] ->
        declares plug cmd = false -> legacy plug cmd = true -> r = (true, [])).
Proof.
  cbv zeta. unfold plugin.HandlePluginCommand. split; [|split; [|split; [|split]]].
  - rewrite handleAmong_answer, existsb_exists. split.
    + intros (plug & Hin & Hor). exists plug. split; [exact Hin|].
      apply orb_true_iff. exact Hor.
    + intros (plug & Hin & Hor). exists plug. split; [exact Hin|].
      apply orb_true_iff. exact Hor.
  - intros Hf.
    destruct (handleAmong_first (plugin.GetPluginObjects mgr) m cmd args)
      as [Hn | (before & plug & after & Hplugs & _ & Hd & _)]; [exact Hn|].
    rewrite handleAmong_answer in Hf.
    assert (Ht : existsb (fun plug => declares plug cmd || legacy plug cmd)
                   (plugin.GetPluginObjects mgr) = true).
    { apply existsb_exists. exists plug. split.
      - rewrite Hplugs. apply in_or_app. right. now left.
      - now rewrite Hd. }
    congruence.
  - destruct (handleAmong_first (plugin.GetPluginObjects mgr) m cmd args)
      as [-> | (_ & plug & _ & _ & _ & _ & ->)]; cbn [length]; lia.
  - intros He. unfold plugin.GetPluginObjects. rewrite He, map_to_list_empty.
    reflexivity.
  - intros plug -> Hd Hl. cbn [plugin.handleAmong].
    fold (declares plug cmd). fold (legacy plug cmd). now rewrite Hd, Hl.
Qed.

Lemma HandlePluginCommand_answer_witness :
  let sample := {| plugin.Name := "SamplePlugin"; plugin.Version := "0.1";
                   plugin.OnLoad := None; plugin.Unloader := None;
                   plugin.CommandHandler := None; plugin.implements := [] |} in
  plugin.HandlePluginCommand (scenario.registry [(sample, "plugins/sample.so")])
    scenes.greetLine "test" []
  = (true, [])
  /\ plugin.HandlePluginCommand {| plugin.plugins := ∅; plugin.pluginPaths := ∅ |}
       scenes.greetLine "test" []
     = (false, []).
Proof.
  intros sample. split.
  - apply (proj2 (proj2 (proj2 (proj2 (HandlePluginCommand_answer
             (scenario.registry [(sample, "plugins/sample.so")])
             scenes.greetLine "test" [])))) sample).
    + vm_compute. reflexivity.
    + reflexivity.
    + vm_compute. reflexivity.
  - apply (proj1 (proj2 (proj2 (proj2 (HandlePluginCommand_answer
             {| plugin.plugins := ∅; plugin.pluginPaths := ∅ |}
             scenes.greetLine "test" []))))).
    reflexivity.
Defined.

Lemma LoadPlugin_origin (artifact : string -> plugin.Artifact) (now : Z) (path : string)
    (mgr : plugin.manager) (name : string) (info : plugin.pluginInfo) :
  plugin.plugins (snd (fst (plugin.LoadPlugin artifact now path mgr))) !! name = Some info ->
  plugin.plugins mgr !! name = Some info
  \/ (artifact path = plugin.Exports (plugin.plugin info)
      /\ name = plugin.Name (plugin.plugin info)
      /\ plugin.version info = plugin.Version (plugin.plugin info)
      /\ plugin.filePath info = path).
Proof.
  unfold plugin.LoadPlugin.
  destruct (artifact path) as [| | |plug]; try (now left).
  assert (Hinstall : forall mgr0,
            plugin.plugins mgr0 = plugin.plugins mgr ->
            plugin.plugins (snd (fst (plugin.install now path plug mgr0))) !! name
            = Some info ->
            plugin.plugins mgr !! name = Some info
            \/ (plugin.Exports plug = plugin.Exports (plugin.plugin info)
                /\ name = plugin.Name (plugin.plugin info)
                /\ plugin.version info = plugin.Version (plugin.plugin info)
                /\ plugin.filePath info = path)).
  { intros mgr0 Hsame. unfold plugin.install.
    destruct (plugin.OnLoad plug); cbn [fst snd plugin.plugins]; rewrite Hsame;
      [now left|].
    destruct (decide (plugin.Name plug = name)) as [<-|Hne].
    - rewrite lookup_insert_eq. intros [= <-]. right. now repeat split.
    - rewrite lookup_insert_ne by exact Hne. now left. }
  destruct (plugin.plugins mgr !! plugin.Name plug) as [existingInfo|].
  - destruct (String.eqb _ _); [now left|].
    destruct (plugin.unloadPrevious _ existingInfo mgr) as [mgr1 unloaded] eqn:Hu.
    assert (Hsame : plugin.plugins mgr1 = plugin.plugins mgr).
    { unfold plugin.unloadPrevious in Hu. now injection Hu as <- _. }
    destruct (plugin.install now path plug mgr1) as [[err mgr2] loaded] eqn:Hi.
    cbn [fst snd]. intros Hl. apply (Hinstall mgr1 Hsame). rewrite Hi. exact Hl.
  - apply (Hinstall mgr eq_refl).
Qed.

Lemma loadFiles_origin (artifact : string -> plugin.Artifact) (now : Z)
    (join : string -> string -> string) (dir : string) (files : list string)
    (mgr : plugin.manager) (name : string) (info : plugin.pluginInfo) :
  plugin.plugins (snd (fst (plugin.loadFiles artifact now join dir files mgr))) !! name
  = Some info ->
  plugin.plugins mgr !! name = Some info
  \/ exists file, In file files
       /\ plugin.Ext file = ".so"
       /\ artifact (join dir file) = plugin.Exports (plugin.plugin info)
       /\ name = plugin.Name (plugin.plugin info)
       /\ plugin.version info = plugin.Version (plugin.plugin info)
       /\ plugin.filePath info = join dir file.
Proof.
  revert mgr. induction files as [|file rest IH]; intros mgr; [now left|].
  cbn [plugin.loadFiles].
  destruct (String.eqb_spec (plugin.Ext file) ".so") as [Hso|Hso].
  - destruct (plugin.LoadPlugin artifact now (join dir file) mgr)
      as [[err mgr1] calls1] eqn:Hload.
    destruct (plugin.loadFiles artifact now join dir rest mgr1)
      as [[loadedCount mgr2] calls2] eqn:Hrest.
    cbn [fst snd]. intros Hl.
    specialize (IH mgr1). rewrite Hrest in IH. cbn [fst snd] in IH.
    destruct (IH Hl) as [Hin1 | (f & Hf & Hrem)].
    + pose proof (LoadPlugin_origin artifact now (join dir file) mgr name info) as Ho.
      rewrite Hload in Ho. cbn [fst snd] in Ho.
      destruct (Ho Hin1) as [Hold | (Ha & Hn & Hv & Hp)]; [now left|].
      right. exists file. split; [now left|]. now repeat split.
    + right. exists f. split; [now right | exact Hrem].
  - intros Hl. destruct (IH mgr Hl) as [Hold | (f & Hf & Hrem)]; [now left|].
    right. exists f. split; [now right | exact Hrem].
Qed.

Lemma loadFiles_count (artifact : string -> plugin.Artifact) (now : Z)
    (join : string -> string -> string) (dir : string) (files : list string)
    (mgr : plugin.manager) :
  0 <= fst (fst (plugin.loadFiles artifact now join dir files mgr))
    <= Z.of_nat (length (List.filter (fun file => String.eqb (plugin.Ext file) ".so") files)).
Proof.
  revert mgr. induction files as [|file rest IH]; intros mgr; [cbn; lia|].
  cbn [plugin.loadFiles List.filter].
  destruct (String.eqb (plugin.Ext file) ".so"); [|apply IH].
  destruct (plugin.LoadPlugin artifact now (join dir file) mgr) as [[err mgr1] calls1].
  specialize (IH mgr1).
  destruct (plugin.loadFiles artifact now join dir rest mgr1) as [[loadedCount mgr2] calls2].
  cbn [fst snd length] in *. destruct err; lia.
Qed.

Lemma loadFiles_nothing (artifact : string -> plugin.Artifact) (now : Z)
    (join : string -> string -> string) (dir : string) (files : list string)
    (mgr : plugin.manager) :
  Forall (fun file => plugin.Ext file <> ".so") files ->
  plugin.loadFiles artifact now join dir files mgr = (0, mgr, []).
Proof.
  induction 1 as [|file rest Hfile _ IH]; [reflexivity|].
  cbn [plugin.loadFiles]. apply String.eqb_neq in Hfile. now rewrite Hfile.
Qed.

(** [LoadPluginsFromDir].  A directory that cannot be read gives the
    error, a count of zero and no change.  Otherwise there is no error,
    whatever happens to the single files; the count lies between zero and
    the number of entries whose extension is [.so]; a directory without
    such an entry changes nothing; and a module registered afterwards was
    registered before or is exported by a [.so] entry of the directory,
    under the path of that entry. *)
Theorem LoadPluginsFromDir_edges (artifact : string -> plugin.Artifact) (now : Z)
    (readDir : string -> option (list string)) (join : string -> string -> string)
    (dir : string) (mgr : plugin.manager) :
  let r := plugin.LoadPluginsFromDir artifact now readDir join dir mgr in
  (readDir dir = None -> r = (0, false, mgr, []))
  /\ (forall files, readDir dir = Some files ->
        snd (fst (fst r)) = true
        /\ 0 <= fst (fst (fst r))
             <= Z.of_nat (length (List.filter
                                    (fun file => String.eqb (plugin.Ext file) ".so") files))
        /\ (Forall (fun file => plugin.Ext file <> ".so") files -> r = (0, true, mgr, []))
        /\ (forall name info,
              plugin.plugins (snd (fst r)) !! name = Some info ->
              plugin.plugins mgr !! name = Some info
              \/ exists file, In file files
                   /\ plugin.Ext file = ".so"
                   /\ artifact (join dir file) = plugin.Exports (plugin.plugin info)
                   /\ name = plugin.Name (plugin.plugin info)
                   /\ plugin.version info = plugin.Version (plugin.plugin info)
                   /\ plugin.filePath info = join dir file)).
Proof.
  cbv zeta. unfold plugin.LoadPluginsFromDir. split.
  - intros ->. reflexivity.
  - intros files ->.
    pose proof (loadFiles_count artifact now join dir files mgr) as Hcount.
    pose proof (loadFiles_origin artifact now join dir files mgr) as Horigin.
    pose proof (loadFiles_nothing artifact now join dir files mgr) as Hnothing.
    destruct (plugin.loadFiles artifact now join dir files mgr)
      as [[loadedCount mgr'] calls].
    cbn [fst snd] in *. split; [reflexivity|]. split; [exact Hcount|].
    split; [|exact Horigin].
    intros Hall. specialize (Hnothing Hall). now injection Hnothing as -> -> ->.
Qed.

Lemma LoadPluginsFromDir_edges_witness :
  let empty := {| plugin.plugins := ∅; plugin.pluginPaths := ∅ |} in
  let join := fun dir file => dir ++ "/" ++ file in
  plugin.LoadPluginsFromDir scenario.artifacts 3 (fun _ => None) join "plugins" empty
  = (0, false, empty, [])
  /\ plugin.LoadPluginsFromDir scenario.artifacts 3
       (fun _ => Some ["README.md"; "greeter_v1.go"; "so"]) join "plugins" empty
     = (0, true, empty, [])
  /\ fst (fst (fst (plugin.LoadPluginsFromDir scenario.artifacts 3
                      (fun _ => Some ["README.so"; "notes.txt"; "greeter_v1.so"])
                      join "plugins" empty))) <= 2.
Proof.
  intros empty join. split; [|split].
  - apply (proj1 (LoadPluginsFromDir_edges scenario.artifacts 3 (fun _ => None) join
                    "plugins" empty)).
    reflexivity.
  - apply (proj1 (proj2 (proj2 (proj2 (LoadPluginsFromDir_edges scenario.artifacts 3
             (fun _ => Some ["README.md"; "greeter_v1.go"; "so"]) join "plugins" empty)
             _ eq_refl)))).
    repeat constructor; vm_compute; discriminate.
  - apply (proj2 (proj1 (proj2 (proj2 (LoadPluginsFromDir_edges scenario.artifacts 3
             (fun _ => Some ["README.so"; "notes.txt"; "greeter_v1.so"]) join "plugins"
             empty) _ eq_refl)))).
Defined.

Lemma unloadAll_lookup (entries : list (string * plugin.pluginInfo))
    (mgr : plugin.manager) (name : string) :
  (In name (List.map fst entries) ->
   plugin.plugins (fst (plugin.unloadAll entries mgr)) !! name = None
   /\ plugin.pluginPaths (fst (plugin.unloadAll entries mgr)) !! name = None)
  /\ (~ In name (List.map fst entries) ->
      plugin.plugins (fst (plugin.unloadAll entries mgr)) !! name
      = plugin.plugins mgr !! name
      /\ plugin.pluginPaths (fst (plugin.unloadAll entries mgr)) !! name
         = plugin.pluginPaths mgr !! name).
Proof.
  revert mgr. induction entries as [|[n info] rest IH]; intros mgr.
  - split; [intros [] | now intros _].
  - cbn [plugin.unloadAll List.map fst].
    specialize (IH {| plugin.plugins := delete n (plugin.plugins mgr);
                      plugin.pluginPaths := delete n (plugin.pluginPaths mgr) |}).
    destruct (plugin.unloadAll rest _) as [mgr' calls]. cbn [fst] in *.
    destruct IH as [IHin IHout]. cbn [plugin.plugins plugin.pluginPaths] in IHout.
    split.
    + intros [<- | Hin].
      * destruct (in_dec string_dec n (List.map fst rest)) as [Hr|Hr]; [now apply IHin|].
        destruct (IHout Hr) as [-> ->]. now rewrite !lookup_delete_eq.
      * now apply IHin.
    + intros Hnot. assert (Hne : n <> name) by (intros ->; apply Hnot; now left).
      assert (Hr : ~ In name (List.map fst rest)) by (intros Hr; apply Hnot; now right).
      destruct (IHout Hr) as [-> ->]. now rewrite !lookup_delete_ne by exact Hne.
Qed.

Lemma unloadAll_calls (entries : list (string * plugin.pluginInfo))
    (mgr : plugin.manager) :
  snd (plugin.unloadAll entries mgr)
  = List.flat_map (fun e => match plugin.Unloader (plugin.plugin (snd e)) with
                            | Some _ => [plugin.CallOnUnload (plugin.plugin (snd e))]
                            | None => []
                            end) entries.
Proof.
  revert mgr. induction entries as [|[n info] rest IH]; intros mgr; [reflexivity|].
  cbn [plugin.unloadAll List.flat_map snd].
  specialize (IH {| plugin.plugins := delete n (plugin.plugins mgr);
                    plugin.pluginPaths := delete n (plugin.pluginPaths mgr) |}).
  destruct (plugin.unloadAll rest _) as [mgr' calls]. cbn [snd] in *. now rewrite IH.
Qed.

Lemma unloadAll_everything (mgr : plugin.manager) :
  plugin.plugins (fst (plugin.unloadAll (map_to_list (plugin.plugins mgr)) mgr)) = ∅.
Proof.
  apply map_eq. intros name. rewrite lookup_empty.
  destruct (unloadAll_lookup (map_to_list (plugin.plugins mgr)) mgr name) as [Hin Hout].
  destruct (plugin.plugins mgr !! name) as [info|] eqn:Hl.
  - apply Hin. apply in_map_iff. exists (name, info). split; [reflexivity|].
    apply list_elem_of_In, elem_of_map_to_list. exact Hl.
  - destruct (in_dec string_dec name (List.map fst (map_to_list (plugin.plugins mgr))))
      as [Hr|Hr]; [now apply Hin|].
    now destruct (Hout Hr) as [-> _].
Qed.

(** [ReloadPluginsFromDir] unloads first and reads the directory
    afterwards.  Every module that has an [OnUnload] gets it, before
    anything is loaded; when the directory cannot be read the error comes
    back and the bot is left without any module; and when it can be read,
    every module registered afterwards comes from a [.so] entry of the
    directory: none survives from before. *)
Theorem ReloadPluginsFromDir_unloads_first (artifact : string -> plugin.Artifact)
    (now : Z) (readDir : string -> option (list string))
    (join : string -> string -> string) (dir : string) (mgr : plugin.manager) :
  let r := plugin.ReloadPluginsFromDir artifact now readDir join dir mgr in
  let unloaded :=
    List.flat_map (fun e => match plugin.Unloader (plugin.plugin (snd e)) with
                            | Some _ => [plugin.CallOnUnload (plugin.plugin (snd e))]
                            | None => []
                            end) (map_to_list (plugin.plugins mgr)) in
  (exists loaded, snd r = (unloaded ++ loaded)%list)
  /\ (readDir dir = None ->
      fst (fst r) = (0, false)
      /\ plugin.plugins (snd (fst r)) = ∅
      /\ snd r = unloaded)
  /\ (forall files name info,
        readDir dir = Some files ->
        plugin.plugins (snd (fst r)) !! name = Some info ->
        exists file, In file files
          /\ plugin.Ext file = ".so"
          /\ artifact (join dir file) = plugin.Exports (plugin.plugin info)
          /\ plugin.filePath info = join dir file).
Proof.
  cbv zeta. unfold plugin.ReloadPluginsFromDir.
  pose proof (unloadAll_everything mgr) as Hempty.
  pose proof (unloadAll_calls (map_to_list (plugin.plugins mgr)) mgr) as Hcalls.
  destruct (plugin.unloadAll (map_to_list (plugin.plugins mgr)) mgr)
    as [mgr0 unloaded] eqn:Hu.
  cbn [fst snd] in Hempty, Hcalls. subst unloaded.
  unfold plugin.LoadPluginsFromDir.
  destruct (readDir dir) as [files|] eqn:Hdir.
  - pose proof (loadFiles_origin artifact now join dir files mgr0) as Horigin.
    destruct (plugin.loadFiles artifact now join dir files mgr0)
      as [[loadedCount mgr'] loaded].
    cbn [fst snd] in *. split; [now exists loaded|]. split; [discriminate|].
    intros files' name info [= <-] Hin.
    destruct (Horigin name info Hin) as [Hold | (file & Hf & Hso & Ha & _ & _ & Hp)].
    + rewrite Hempty, lookup_empty in Hold. discriminate.
    + exists file. now repeat split.
  - cbn [fst snd]. split; [now exists []|]. split; [|discriminate].
    intros _. rewrite app_nil_r. now repeat split.
Qed.

Lemma ReloadPluginsFromDir_unloads_first_witness :
  let r := plugin.ReloadPluginsFromDir scenario.artifacts 3 (fun _ => None)
             (fun dir file => dir ++ "/" ++ file) "plugins" (mgr scenes.badBoyWorld) in
  fst (fst r) = (0, false)
  /\ plugin.plugins (snd (fst r)) = ∅
  /\ snd r = [plugin.CallOnUnload (scenario.greeter "1.0.0")].
Proof.
  cbv zeta.
  destruct (proj1 (proj2 (ReloadPluginsFromDir_unloads_first scenario.artifacts 3
              (fun _ => None) (fun dir file => dir ++ "/" ++ file) "plugins"
              (mgr scenes.badBoyWorld))) eq_refl) as (Hcount & Hempty & Hcalls).
  split; [exact Hcount|]. split; [exact Hempty|].
  rewrite Hcalls. vm_compute. reflexivity.
Defined.

(** [GetPlugins] gives one detail per registered module, under the name
    it is registered with and no name twice, and the version of a detail
    is the one [GetPluginVersion] answers for that name. *)
Theorem GetPlugins_lists_the_registry (mgr : plugin.manager) :
  length (plugin.GetPlugins mgr) = size (plugin.plugins mgr)
  /\ NoDup (List.map plugin.Details_Name (plugin.GetPlugins mgr))
  /\ (forall d, In d (plugin.GetPlugins mgr) <->
                exists info,
                  plugin.plugins mgr !! plugin.Details_Name d = Some info
                  /\ plugin.Details_Version d = plugin.version info
                  /\ plugin.Details_LoadTime d = plugin.loadTimestamp info
                  /\ plugin.Details_FilePath d = plugin.filePath info)
  /\ (forall d, In d (plugin.GetPlugins mgr) ->
                plugin.GetPluginVersion mgr (plugin.Details_Name d)
                = Some (plugin.Details_Version d))
  /\ (forall name, plugin.GetPluginVersion mgr name = None ->
                   ~ In name (List.map plugin.Details_Name (plugin.GetPlugins mgr))).
Proof.
  assert (Hiff : forall d, In d (plugin.GetPlugins mgr) <->
                exists info,
                  plugin.plugins mgr !! plugin.Details_Name d = Some info
                  /\ plugin.Details_Version d = plugin.version info
                  /\ plugin.Details_LoadTime d = plugin.loadTimestamp info
                  /\ plugin.Details_FilePath d = plugin.filePath info).
  { intros d. unfold plugin.GetPlugins. rewrite in_map_iff. split.
    - intros ([name info] & <- & Hin). exists info.
      apply list_elem_of_In, elem_of_map_to_list in Hin. now repeat split.
    - intros (info & Hl & Hv & Ht & Hp). exists (plugin.Details_Name d, info). split.
      + destruct d. cbn in *. now subst.
      + apply list_elem_of_In, elem_of_map_to_list. exact Hl. }
  split; [|split; [|split; [exact Hiff|split]]].
  - unfold plugin.GetPlugins. rewrite length_map. apply length_map_to_list.
  - unfold plugin.GetPlugins. rewrite List.map_map. cbn [plugin.Details_Name].
    apply NoDup_fst_map_to_list.
  - intros d Hd. apply Hiff in Hd as (info & Hl & Hv & _).
    unfold plugin.GetPluginVersion. now rewrite Hl, Hv.
  - intros name Hnone Hin. apply in_map_iff in Hin as (d & <- & Hd).
    apply Hiff in Hd as (info & Hl & _).
    unfold plugin.GetPluginVersion in Hnone. now rewrite Hl in Hnone.
Qed.

Lemma GetPlugins_lists_the_registry_witness :
  plugin.GetPluginVersion (mgr scenes.badBoyWorld) "Greeter" = Some "1.0.0"
  /\ ~ In "Echo" (List.map plugin.Details_Name (plugin.GetPlugins (mgr scenes.badBoyWorld))).
Proof.
  split.
  - apply (proj1 (proj2 (proj2 (proj2 (GetPlugins_lists_the_registry
             (mgr scenes.badBoyWorld)))))
             {| plugin.Details_Name := "Greeter"; plugin.Details_Version := "1.0.0";
                plugin.Details_LoadTime := 0;
                plugin.Details_FilePath := "plugins/greeter_v1.so" |}).
    vm_compute. tauto.
  - apply (proj2 (proj2 (proj2 (proj2 (GetPlugins_lists_the_registry
             (mgr scenes.badBoyWorld)))))).
    vm_compute. reflexivity.
Defined.

(** ** The dispatcher and the private handlers *)

Lemma filter_none {A} (f : A -> bool) (l : list A) :
  (forall x, In x l -> f x = false) -> List.filter f l = [].
Proof.
  induction l as [|x l IH]; [reflexivity|]. intros H. cbn [List.filter].
  rewrite (H x) by now left. apply IH. intros y Hy. apply H. now right.
Qed.

(** The fan-out to the modules.  [dispatchToPlugins] changes nothing in
    the bot; it calls [OnMessage] of every loaded module exactly once, in
    the order of the module list; a specialised handler is only called on
    a module that implements it and for the message at hand, the one for
    mentions only for a chat line that names the bot; and no command of a
    module is run from here. *)
Theorem dispatchToPlugins_fan_out (w : World) (m : irc.Message) :
  let plugs := plugin.GetPluginList (mgr w) in
  let calls := handlers.fanOut (unicode w) (CurrentNick w) plugs m in
  handlers.dispatchToPlugins m w = Some (tt, set_out (out w ++ List.map Hook calls)%list w)
  /\ List.filter isOnMessage calls = List.map (fun plug => plugin.CallOnMessage plug m) plugs
  /\ (forall plug c m',
        In (plugin.CallEvent plug c m') calls ->
        In plug plugs /\ plugin.satisfies plug c = true /\ m' = m
        /\ (c = plugin.NickMentionHandler ->
            irc.Command m = "PRIVMSG"
            /\ handlers.containsNick (unicode w) (CurrentNick w) (irc.Trailing m) = true))
  /\ (forall plug m' cmd args, ~ In (plugin.CallHandleCommand plug m' cmd args) calls).
Proof.
  cbv zeta. split; [reflexivity|].
  generalize (plugin.GetPluginList (mgr w)) as plugs. intros plugs.
  assert (Hspec : forall plug call,
            In call (handlers.specialized (unicode w) (CurrentNick w) plug m) ->
            isOnMessage call = false
            /\ exists c, call = plugin.CallEvent plug c m
                 /\ plugin.satisfies plug c = true
                 /\ (c = plugin.NickMentionHandler ->
                     irc.Command m = "PRIVMSG"
                     /\ handlers.containsNick (unicode w) (CurrentNick w) (irc.Trailing m) = true)).
  { intros plug call. unfold handlers.specialized.
    destruct (String.eqb_spec (irc.Command m) "PRIVMSG") as [Hcmd|Hcmd].
    - intros Hin. apply in_app_or in Hin as [Hin|Hin].
      + destruct (plugin.satisfies plug plugin.PrivMsgHandler) eqn:Hs; [|destruct Hin].
        destruct Hin as [<-|[]]. split; [reflexivity|].
        exists plugin.PrivMsgHandler. repeat split; try assumption; discriminate.
      + destruct (handlers.containsNick _ _) eqn:Hn; [|destruct Hin].
        destruct (plugin.satisfies plug plugin.NickMentionHandler) eqn:Hs; [|destruct Hin].
        destruct Hin as [<-|[]]. split; [reflexivity|].
        exists plugin.NickMentionHandler. now repeat split.
    - repeat match goal with
             | |- In _ (if ?b then _ else _) -> _ =>
                 let E := fresh "E" in destruct b eqn:E
             | |- In _ [_] -> _ =>
                 intros [<-|[]]; split; [reflexivity|];
                 eexists; repeat split; try eassumption; discriminate
             | |- In _ [] -> _ => intros []
             end. }
  split; [|split].
  - induction plugs as [|plug rest IH]; [reflexivity|].
    unfold handlers.fanOut. cbn [List.flat_map List.map].
    change (List.filter isOnMessage
              (plugin.CallOnMessage plug m
               :: (handlers.specialized (unicode w) (CurrentNick w) plug m
                   ++ handlers.fanOut (unicode w) (CurrentNick w) rest m)%list)
            = plugin.CallOnMessage plug m
              :: List.map (fun plug0 => plugin.CallOnMessage plug0 m) rest).
    cbn [List.filter isOnMessage]. rewrite List.filter_app, IH.
    rewrite (filter_none isOnMessage (handlers.specialized (unicode w) (CurrentNick w) plug m));
      [reflexivity|].
    intros call Hc. now destruct (Hspec plug call Hc).
  - intros plug c m' Hin. unfold handlers.fanOut in Hin.
    apply in_flat_map in Hin as (q & Hq & [Hin|Hin]); [discriminate|].
    destruct (Hspec q _ Hin) as (_ & c' & [= <- <- <-] & Hs & Hn).
    split; [exact Hq|]. split; [exact Hs|]. split; [reflexivity | exact Hn].
  - intros plug m' cmd args Hin. unfold handlers.fanOut in Hin.
    apply in_flat_map in Hin as (q & Hq & [Hin|Hin]); [discriminate|].
    destruct (Hspec q _ Hin) as (_ & c' & Hc & _). discriminate.
Qed.

Lemma dispatchToPlugins_fan_out_witness :
  In (scenario.listener "1.0.0") (plugin.GetPluginList (mgr scenes.ignoredWorld))
  /\ plugin.satisfies (scenario.listener "1.0.0") plugin.PrivMsgHandler = true.
Proof.
  destruct (proj1 (proj2 (proj2 (dispatchToPlugins_fan_out scenes.ignoredWorld
              scenes2.hello))) (scenario.listener "1.0.0") plugin.PrivMsgHandler
              scenes2.hello) as (Hin & Hs & _).
  - vm_compute. tauto.
  - split; [exact Hin | exact Hs].
Defined.

Lemma channelSpamProtection_quiet userNick hostmask channel w :
  messageExceeded hostmask w = false ->
  handlers.channelSpamProtection userNick hostmask channel w
  = Some (false, trackedMessage hostmask w).
Proof.
  unfold messageExceeded, trackedMessage, handlers.channelSpamProtection, bind, TrackMessage.
  destruct (security.TrackMessage _ _ _) as [[e c] t]; simpl.
  intros ->. reflexivity.
Qed.

(** A channel line of a sender who is neither ignored nor over the
    message rate.  A mention of the bot comes first: the line is answered
    by the AI when the channel has that switched on and by nothing
    otherwise, and it is not looked at as a command even when it starts
    with [!].  Without a mention a line that starts with [!] goes to
    [HandleCommand], after having been counted as a message, and any
    other line is counted and left alone. *)
Theorem HandleChannelMessage_mention_first (w : World) (m : irc.Message)
    (channel : string) (rest : list string) :
  let hostmask := irc.String (irc.prefix m) in
  let userNick := irc.Name (irc.prefix m) in
  let w1 := trackedMessage hostmask w in
  irc.Params m = channel :: rest ->
  GetUserLevelByHostmask w hostmask <> userlevels.Ignored ->
  messageExceeded hostmask w = false ->
  (handlers.containsNick (unicode w) (CurrentNick w) (irc.Trailing m) = true ->
   handlers.HandleChannelMessage m w
   = Some (tt, set_out (out w ++ (if useAIForMentions w channel
                                  then [HandleAIResponse channel userNick]
                                  else []))%list w1))
  /\ (handlers.containsNick (unicode w) (CurrentNick w) (irc.Trailing m) = false ->
      strings.HasPrefix (irc.Trailing m) "!" = true ->
      handlers.HandleChannelMessage m w = commands.HandleCommand m w1)
  /\ (handlers.containsNick (unicode w) (CurrentNick w) (irc.Trailing m) = false ->
      strings.HasPrefix (irc.Trailing m) "!" = false ->
      handlers.HandleChannelMessage m w = Some (tt, w1)).
Proof.
  cbv zeta. intros Hp Hl Hq. apply Z.eqb_neq in Hl.
  assert (Hrun : handlers.HandleChannelMessage m w
                 = (let w1 := trackedMessage (irc.String (irc.prefix m)) w in
                    if handlers.containsNick (unicode w) (CurrentNick w) (irc.Trailing m)
                    then (if useAIForMentions w channel
                          then emit (HandleAIResponse channel (irc.Name (irc.prefix m))) w1
                          else Some (tt, w1))
                    else if strings.HasPrefix (irc.Trailing m) "!"
                         then commands.HandleCommand m w1
                         else Some (tt, w1))).
  { unfold handlers.HandleChannelMessage, param0. rewrite Hp.
    unfold bind at 1, ret at 1. unfold bind at 1, get at 1. rewrite Hl.
    unfold bind at 1. rewrite channelSpamProtection_quiet by exact Hq.
    unfold bind at 1, get at 1. cbv zeta.
    change (CurrentNick (trackedMessage (irc.String (irc.prefix m)) w))
      with (CurrentNick w).
    change (unicode (trackedMessage (irc.String (irc.prefix m)) w))
      with (unicode w).
    destruct (handlers.containsNick (unicode w) (CurrentNick w) (irc.Trailing m));
      [|now destruct (strings.HasPrefix (irc.Trailing m) "!")].
    unfold useAIForMentions.
    change (BotConfig (trackedMessage (irc.String (irc.prefix m)) w)) with (BotConfig w).
    match goal with
    | |- (if ?b then _ else _) _ = _ => now destruct b
    end. }
  rewrite Hrun. cbv zeta. split; [|split].
  - intros ->. destruct (useAIForMentions w channel); [reflexivity|].
    unfold set_out, trackedMessage, set_tracker. cbn. now rewrite app_nil_r.
  - intros -> ->. reflexivity.
  - intros -> ->. reflexivity.
Qed.

Lemma HandleChannelMessage_mention_first_witness :
  let m := scenario.line scenario.alice "#chan" "!ping mbot" in
  let w := scenario.world [] in
  handlers.HandleChannelMessage m w
  = Some (tt, set_out (out w ++ [HandleAIResponse "#chan" "alice"])%list
                (trackedMessage (irc.String scenario.alice) w))
  /\ handlers.HandleChannelMessage (scenario.line scenario.alice "#chan" "good morning") w
     = Some (tt, trackedMessage (irc.String scenario.alice) w).
Proof.
  intros m w. split.
  - apply (proj1 (HandleChannelMessage_mention_first w m "#chan" ["!ping mbot"] eq_refl
                    ltac:(vm_compute; discriminate) ltac:(vm_compute; reflexivity))).
    vm_compute. reflexivity.
  - apply (proj2 (proj2 (HandleChannelMessage_mention_first w
                           (scenario.line scenario.alice "#chan" "good morning")
                           "#chan" ["good morning"] eq_refl
                           ltac:(vm_compute; discriminate) ltac:(vm_compute; reflexivity)))).
    + vm_compute. reflexivity.
    + vm_compute. reflexivity.
Defined.

(** *** Handlers that only emit *)

Section EmitsOnly.

Variable P : Event -> Prop.

Lemma emitsOnly_ret {A} (a : A) : emitsOnly P (ret a).
Proof.
  intros w. exists a, w, []. split; [reflexivity|]. split; [|constructor].
  now rewrite app_nil_r.
Qed.

Lemma emitsOnly_bind {A B} (c : M A) (k : A -> M B) :
  emitsOnly P c -> (forall a, emitsOnly P (k a)) -> emitsOnly P (bind c k).
Proof.
  intros Hc Hk w. destruct (Hc w) as (a & w1 & es1 & Hrun1 & Hout1 & HP1).
  destruct (Hk a w1) as (b & w2 & es2 & Hrun2 & Hout2 & HP2).
  exists b, w2, (es1 ++ es2)%list. unfold bind. rewrite Hrun1.
  split; [exact Hrun2|]. split.
  - now rewrite Hout2, Hout1, <- app_assoc.
  - apply Forall_app. now split.
Qed.

Lemma emitsOnly_get : emitsOnly P get.
Proof.
  intros w. exists w, w, []. split; [reflexivity|]. split; [|constructor].
  now rewrite app_nil_r.
Qed.

Lemma emitsOnly_modify (f : World -> World) :
  (forall w, out (f w) = out w) -> emitsOnly P (modify f).
Proof.
  intros Hf w. exists tt, (f w), []. split; [reflexivity|]. split; [|constructor].
  now rewrite Hf, app_nil_r.
Qed.

Lemma emitsOnly_emits (es : list Event) : Forall P es -> emitsOnly P (emits es).
Proof.
  intros HP w. exists tt, (set_out (out w ++ es)%list w), es. now repeat split.
Qed.

Lemma emitsOnly_write (command : string) (params : list string) :
  P (Write command params) -> emitsOnly P (write command params).
Proof. intros HP. apply emitsOnly_emits. now repeat constructor. Qed.

Lemma emitsOnly_param0 (m : irc.Message) :
  irc.Params m <> [] -> emitsOnly P (param0 m).
Proof.
  intros Hp. unfold param0. destruct (irc.Params m); [congruence|]. apply emitsOnly_ret.
Qed.

Lemma emitsOnly_TrackMessage (hostmask : string) : emitsOnly P (TrackMessage hostmask).
Proof.
  intros w. unfold TrackMessage.
  destruct (security.TrackMessage _ _ _) as [r t].
  exists r, (set_tracker t w), []. split; [reflexivity|]. split; [|constructor].
  cbn. now rewrite app_nil_r.
Qed.

Lemma emitsOnly_TrackCommand (hostmask commandName : string) :
  emitsOnly P (TrackCommand hostmask commandName).
Proof.
  intros w. unfold TrackCommand.
  destruct (security.TrackCommand _ _ _ _) as [r t].
  exists r, (set_tracker t w), []. split; [reflexivity|]. split; [|constructor].
  cbn. now rewrite app_nil_r.
Qed.

Lemma emitsOnly_AddWarning (hostmask : string) : emitsOnly P (AddWarning hostmask).
Proof.
  intros w. unfold AddWarning.
  destruct (security.AddWarning _ _) as [r t].
  exists r, (set_tracker t w), []. split; [reflexivity|]. split; [|constructor].
  cbn. now rewrite app_nil_r.
Qed.

Lemma emitsOnly_SetUserLevel (nick : string) (level : Z) :
  emitsOnly P (SetUserLevel nick level).
Proof. apply emitsOnly_modify. reflexivity. Qed.

Lemma emitsOnly_SetUserLevelByHostmask (hostmask : string) (level : Z) :
  emitsOnly P (SetUserLevelByHostmask hostmask level).
Proof. apply emitsOnly_modify. reflexivity. Qed.

Lemma emitsOnly_SetPendingVerification (userNick : string) (pending : bool) :
  emitsOnly P (handlers.SetPendingVerification userNick pending).
Proof. apply emitsOnly_modify. reflexivity. Qed.

Lemma emitsOnly_SaveHostmasks : emitsOnly P SaveHostmasks.
Proof.
  intros w. unfold SaveHostmasks.
  destruct (userlevels.SaveHostmasks _ _) as [ok d].
  exists ok, (set_disk d w), []. split; [reflexivity|]. split; [|constructor].
  cbn. now rewrite app_nil_r.
Qed.

Lemma emitsOnly_SaveSettings (s : config.Settings) : emitsOnly P (SaveSettings s).
Proof.
  intros w. unfold SaveSettings.
  destruct (config.SaveSettings _ _) as [ok d].
  exists ok, (set_disk d w), []. split; [reflexivity|]. split; [|constructor].
  cbn. now rewrite app_nil_r.
Qed.

End EmitsOnly.

(** One step of a proof that a handler only emits: through the monad,
    the conditionals and the operations on the world. *)
Ltac emits_only_step :=
  first
    [ apply emitsOnly_ret
    | apply emitsOnly_get
    | apply emitsOnly_TrackMessage
    | apply emitsOnly_TrackCommand
    | apply emitsOnly_AddWarning
    | apply emitsOnly_SetUserLevel
    | apply emitsOnly_SetUserLevelByHostmask
    | apply emitsOnly_SetPendingVerification
    | apply emitsOnly_SaveHostmasks
    | apply emitsOnly_SaveSettings
    | apply emitsOnly_bind; [|intros ?]
    | match goal with
      | |- emitsOnly _ (if ?b then _ else _) => destruct b
      | |- emitsOnly _ (match ?x with _ => _ end) => destruct x
      end ].

Ltac emits_only := cbv zeta; repeat (emits_only_step; cbv zeta).

Lemma isReplyTo_write (nick command text : string) :
  isReplyTo nick (Write command [nick; text]).
Proof. now exists command, text. Qed.

Lemma emitsOnly_sendLines (nick : string) (messages : list string) :
  emitsOnly (isReplyTo nick) (handlers.sendLines nick messages).
Proof.
  induction messages as [|msg rest IH]; [apply emitsOnly_ret|].
  cbn [handlers.sendLines]. destruct (String.eqb _ _); [exact IH|].
  apply emitsOnly_bind; [|intros _; exact IH].
  apply emitsOnly_write, isReplyTo_write.
Qed.

Lemma HandlePrivateMessage_only_replies_aux (m : irc.Message) :
  emitsOnly (isReplyTo (irc.Name (irc.prefix m))) (handlers.HandlePrivateMessage m).
Proof.
  unfold handlers.HandlePrivateMessage, handlers.privateSpamProtection,
    handlers.handleOwnerVerification, handlers.handleSetLevelCommand,
    handlers.handleUnauthorizedCommand, handlers.sendDefaultResponse.
  emits_only;
    try (apply emitsOnly_write, isReplyTo_write);
    try apply emitsOnly_sendLines.
Qed.

(** A private line never makes the bot run a command, call a module or
    ask the AI, and never makes the handler panic: whatever the line and
    the state, all that [HandlePrivateMessage] emits are lines written to
    the sender of the message. *)
Theorem HandlePrivateMessage_only_replies (m : irc.Message) (w : World) :
  exists w' es,
    handlers.HandlePrivateMessage m w = Some (tt, w')
    /\ out w' = (out w ++ es)%list
    /\ Forall (isReplyTo (irc.Name (irc.prefix m))) es
    /\ Forall (fun e => runsCommand e = false /\ isFanOut e = false) es.
Proof.
  destruct (HandlePrivateMessage_only_replies_aux m w) as ([] & w' & es & Hr & Ho & HP).
  exists w', es. repeat split; try assumption.
  eapply Forall_impl; [exact HP|]. intros e (command & text & ->). now split.
Qed.

Lemma emitsOnly_anything (es : list Event) : emitsOnly (fun _ => True) (emits es).
Proof. apply emitsOnly_emits, Forall_forall. now intros. Qed.

Lemma HandleCommand_runs (m : irc.Message) :
  irc.Params m <> [] -> emitsOnly (fun _ => True) (commands.HandleCommand m).
Proof.
  intros Hp.
  unfold commands.HandleCommand, commands.spamProtection, commands.route, write, emit.
  emits_only;
    try (apply emitsOnly_param0; exact Hp);
    apply emitsOnly_anything.
Qed.

Lemma HandleChannelMessage_runs (m : irc.Message) :
  irc.Params m <> [] -> emitsOnly (fun _ => True) (handlers.HandleChannelMessage m).
Proof.
  intros Hp.
  unfold handlers.HandleChannelMessage, handlers.channelSpamProtection, write, emit.
  emits_only;
    try (apply emitsOnly_param0; exact Hp);
    try (apply HandleCommand_runs; exact Hp);
    apply emitsOnly_anything.
Qed.

(** A chat line without any parameter makes [HandleMessages] panic, on
    [m.Params[0]] in the channel handler, before any module has seen the
    line; and that is the only chat line on which it panics. *)
Theorem HandleMessages_panics_without_parameters (w : World) (m : irc.Message) :
  irc.Command m = "PRIVMSG" ->
  (irc.Params m = [] -> handlers.HandleMessages m w = None)
  /\ (irc.Params m <> [] -> exists w', handlers.HandleMessages m w = Some (tt, w')).
Proof.
  intros _. split.
  - intros Hp. unfold handlers.HandleMessages, bind at 1, get. rewrite Hp.
    unfold bind at 1, handlers.HandleChannelMessage, param0. now rewrite Hp.
  - intros Hp.
    assert (Hruns : emitsOnly (fun _ => True) (handlers.HandleMessages m)).
    { unfold handlers.HandleMessages, handlers.dispatchToPlugins.
      apply emitsOnly_bind; [apply emitsOnly_get|]. intros w0.
      apply emitsOnly_bind.
      - destruct (irc.Params m) as [|p ps] eqn:E; [congruence|].
        destruct (String.eqb p (CurrentNick w0)).
        + intros w1.
          destruct (HandlePrivateMessage_only_replies_aux m w1) as (a & w' & es & Hr & Ho & _).
          exists a, w', es. repeat split; [exact Hr | exact Ho |].
          apply Forall_forall. now intros.
        + apply HandleChannelMessage_runs. rewrite E. discriminate.
      - intros _. apply emitsOnly_bind; [apply emitsOnly_get|]. intros w1.
        apply emitsOnly_anything. }
    destruct (Hruns w) as ([] & w' & _ & Hr & _). now exists w'.
Qed.

Lemma HandleMessages_panics_without_parameters_witness :
  handlers.HandleMessages
    {| irc.prefix := scenario.mallory; irc.Command := "PRIVMSG"; irc.Params := [] |}
    (scenario.world []) = None
  /\ exists w', handlers.HandleMessages scenes2.hello (scenario.world []) = Some (tt, w').
Proof.
  split.
  - apply (proj1 (HandleMessages_panics_without_parameters (scenario.world [])
                    {| irc.prefix := scenario.mallory; irc.Command := "PRIVMSG";
                       irc.Params := [] |} eq_refl)).
    reflexivity.
  - apply (proj2 (HandleMessages_panics_without_parameters (scenario.world [])
                    scenes2.hello eq_refl)).
    discriminate.
Defined.

(** ** Changing levels *)

(** The owner's private [!setlevel].  With exactly three words, as
    [strings.Fields] cuts them at the white space of Unicode, and a level
    word that [strings.ToLower] turns into owner, admin, regular or badboy,
    by ASCII letter case or, beyond ASCII, by the case tables of Go, the
    hostmask given gets that level, which the resolver then answers for
    it, and the levels are saved.  Any other level word, [ignored]
    included, and any other number of words only gets a reply: nothing is
    changed. *)
Theorem handleSetLevelCommand_levels (w : World) (m : irc.Message) (message : string) :
  let userNick := irc.Name (irc.prefix m) in
  (forall command target levelWord level,
      strings.Fields message = [command; target; levelWord] ->
      In (strings.ToLower (unicode w) levelWord, level)
         [("owner", userlevels.Owner); ("admin", userlevels.Admin);
          ("regular", userlevels.Regular); ("badboy", userlevels.BadBoy)] ->
      exists w' reply,
        handlers.handleSetLevelCommand m message w = Some (tt, w')
        /\ levels w' = userlevels.SetUserLevelByHostmask target level (levels w)
        /\ GetUserLevelByHostmask w' target = level
        /\ disk w' = snd (userlevels.SaveHostmasks (levels w') (disk w))
        /\ out w' = (out w ++ [Write "PRIVMSG" [userNick; reply]])%list)
  /\ (forall command target levelWord,
        strings.Fields message = [command; target; levelWord] ->
        ~ In (strings.ToLower (unicode w) levelWord) ["owner"; "admin"; "regular"; "badboy"] ->
        handlers.handleSetLevelCommand m message w
        = Some (tt, set_out (out w ++ [Write "PRIVMSG"
                                         [userNick;
                                          "Invalid level. Use: owner, admin, regular, or badboy"]])%list
                      w))
  /\ (length (strings.Fields message) <> 3%nat ->
      handlers.handleSetLevelCommand m message w
      = Some (tt, set_out (out w ++ [Write "PRIVMSG"
                                       [userNick;
                                        "Invalid format. Use: !setlevel <hostmask> <level>"]])%list
                    w)).
Proof.
  cbv zeta. split; [|split].
  - intros command target levelWord level Hf Hin.
    unfold handlers.handleSetLevelCommand. unfold bind at 1, get at 1.
    cbv beta iota zeta. rewrite Hf.
    assert (Hlevel : (if String.eqb (strings.ToLower (unicode w) levelWord) "owner"
                      then Some userlevels.Owner
                      else if String.eqb (strings.ToLower (unicode w) levelWord) "admin"
                      then Some userlevels.Admin
                      else if String.eqb (strings.ToLower (unicode w) levelWord) "regular"
                      then Some userlevels.Regular
                      else if String.eqb (strings.ToLower (unicode w) levelWord) "badboy"
                      then Some userlevels.BadBoy
                      else None) = Some level).
    { destruct Hin as [[= <- <-]|[[= <- <-]|[[= <- <-]|[[= <- <-]|[]]]]]; reflexivity. }
    rewrite Hlevel. unfold bind, SetUserLevelByHostmask, modify, SaveHostmasks.
    cbn [levels disk set_levels].
    destruct (userlevels.SaveHostmasks _ (disk w)) as [ok d] eqn:Hsave.
    assert (Hget : userlevels.GetUserLevelByHostmask d
                     (userlevels.SetUserLevelByHostmask target level (levels w)) target
                   = level).
    { unfold userlevels.GetUserLevelByHostmask, userlevels.SetUserLevelByHostmask.
      cbn [userlevels.hostmaskUsers]. now rewrite lookup_insert_eq. }
    destruct ok; cbn [negb]; eexists; eexists;
      (split; [reflexivity|]); unfold GetUserLevelByHostmask; cbn [levels disk set_out
        set_disk set_levels out]; rewrite ?Hsave; now repeat split.
  - intros command target levelWord Hf Hnot.
    unfold handlers.handleSetLevelCommand. unfold bind at 1, get at 1.
    cbv beta iota zeta. rewrite Hf.
    destruct (String.eqb_spec (strings.ToLower (unicode w) levelWord) "owner") as [He|_];
      [elim Hnot; rewrite He; now left|].
    destruct (String.eqb_spec (strings.ToLower (unicode w) levelWord) "admin") as [He|_];
      [elim Hnot; rewrite He; right; now left|].
    destruct (String.eqb_spec (strings.ToLower (unicode w) levelWord) "regular") as [He|_];
      [elim Hnot; rewrite He; right; right; now left|].
    destruct (String.eqb_spec (strings.ToLower (unicode w) levelWord) "badboy") as [He|_];
      [elim Hnot; rewrite He; right; right; right; now left|].
    reflexivity.
  - intros Hlen. unfold handlers.handleSetLevelCommand. unfold bind at 1, get at 1.
    cbv beta iota zeta.
    destruct (strings.Fields message) as [|a [|b [|c [|d l]]]]; try reflexivity.
    now elim Hlen.
Qed.

Lemma handleSetLevelCommand_levels_witness :
  let m := scenario.line scenario.alice "mbot" "!setlevel bob!b@work.example ADMIN" in
  (exists w' reply,
      handlers.handleSetLevelCommand m "!setlevel bob!b@work.example ADMIN" scenes.ownerWorld
      = Some (tt, w')
      /\ levels w' = userlevels.SetUserLevelByHostmask "bob!b@work.example" userlevels.Admin
                       (levels scenes.ownerWorld)
      /\ GetUserLevelByHostmask w' "bob!b@work.example" = userlevels.Admin
      /\ disk w' = snd (userlevels.SaveHostmasks (levels w') (disk scenes.ownerWorld))
      /\ out w' = (out scenes.ownerWorld ++ [Write "PRIVMSG" ["alice"; reply]])%list)
  /\ handlers.handleSetLevelCommand m "!setlevel mallory!m@evil.example ignored"
       scenes.ownerWorld
     = Some (tt, set_out (out scenes.ownerWorld
                          ++ [Write "PRIVMSG"
                                ["alice";
                                 "Invalid level. Use: owner, admin, regular, or badboy"]])%list
                   scenes.ownerWorld)
  /\ handlers.handleSetLevelCommand m "!setlevel bob" scenes.ownerWorld
     = Some (tt, set_out (out scenes.ownerWorld
                          ++ [Write "PRIVMSG"
                                ["alice";
                                 "Invalid format. Use: !setlevel <hostmask> <level>"]])%list
                   scenes.ownerWorld).
Proof.
  intros m. split; [|split].
  - apply (proj1 (handleSetLevelCommand_levels scenes.ownerWorld m
                    "!setlevel bob!b@work.example ADMIN")
             "!setlevel" "bob!b@work.example" "ADMIN" userlevels.Admin eq_refl).
    right. left. reflexivity.
  - apply (proj1 (proj2 (handleSetLevelCommand_levels scenes.ownerWorld m
                           "!setlevel mallory!m@evil.example ignored"))
             "!setlevel" "mallory!m@evil.example" "ignored" eq_refl).
    intros [H|[H|[H|[H|[]]]]]; discriminate.
  - apply (proj2 (proj2 (handleSetLevelCommand_levels scenes.ownerWorld m "!setlevel bob"))).
    vm_compute. discriminate.
Defined.

(** [setLevelCmd] is safe on its own: it changes a level or the
    settings file only when the caller passes the owner check and the
    arguments name a user and a level it knows. *)
Theorem setLevelCmd_needs_the_owner (w w' : World) (m : irc.Message) (args : list string) :
  commands.setLevelCmd m args w = Some (tt, w') ->
  levels w' <> levels w \/ disk w' <> disk w ->
  HasPermission w (irc.String (irc.prefix m)) userlevels.Owner = true
  /\ exists target levelWord rest level,
       args = target :: levelWord :: rest
       /\ commands.levelOfWord (strings.ToLower (unicode w) levelWord) = Some level.
Proof.
  unfold commands.setLevelCmd, param0.
  destruct (irc.Params m) as [|target0 ps]; [discriminate|].
  unfold bind at 1, ret at 1. unfold bind at 1, get at 1.
  destruct args as [|target [|levelWord rest]].
  - intros [= <-] [H|H]; now elim H.
  - intros [= <-] [H|H]; now elim H.
  - cbv zeta. destruct (commands.levelOfWord (strings.ToLower (unicode w) levelWord)) as [level|] eqn:Hw.
    + destruct (HasPermission w (irc.String (irc.prefix m)) userlevels.Owner) eqn:Hperm.
      * intros _ _. split; [reflexivity|]. now exists target, levelWord, rest, level.
      * cbn [negb]. intros [= <-] [H|H]; now elim H.
    + intros [= <-] [H|H]; now elim H.
Qed.

Lemma GetAllHostmasks_verifiedOwner (d : config.Disk) (st : userlevels.State) :
  userlevels.GetAllHostmasks d st
  = match verifiedOwner d with
    | Some owner => <[owner := userlevels.Owner]> (userlevels.hostmaskUsers st)
    | None => userlevels.hostmaskUsers st
    end.
Proof.
  unfold userlevels.GetAllHostmasks, verifiedOwner.
  destruct (config.LoadSettings d) as [s|]; [|reflexivity].
  now destruct (config.OwnerVerified s && negb (String.eqb (config.OwnerHostmask s) "")).
Qed.

Lemma SaveHostmasks_verifiedOwner (st : userlevels.State) (d : config.Disk) :
  verifiedOwner (snd (userlevels.SaveHostmasks st d)) = verifiedOwner d
  \/ verifiedOwner (snd (userlevels.SaveHostmasks st d)) = None.
Proof.
  unfold userlevels.SaveHostmasks, config.SaveSettings.
  destruct (config.writable d); [|now left]. cbn [snd].
  unfold verifiedOwner, config.LoadSettings at 1. cbn [config.settings_file].
  destruct (config.LoadSettings d) as [s|]; [now left | now right].
Qed.

Lemma setEach_levels (hostmasks : list string) (level : Z) (w : World) :
  exists w', commands.setEach hostmasks level w = Some (tt, w')
    /\ disk w' = disk w /\ out w' = out w
    /\ (forall h, In h hostmasks ->
          userlevels.hostmaskUsers (levels w') !! h = Some level)
    /\ (forall h, ~ In h hostmasks ->
          userlevels.hostmaskUsers (levels w') !! h
          = userlevels.hostmaskUsers (levels w) !! h).
Proof.
  revert w. induction hostmasks as [|hostmask rest IH]; intros w.
  - exists w. split; [reflexivity|]. split; [reflexivity|]. split; [reflexivity|].
    split; [intros h [] | reflexivity].
  - cbn [commands.setEach]. unfold bind, SetUserLevelByHostmask, modify.
    destruct (IH (set_levels (userlevels.SetUserLevelByHostmask hostmask level (levels w)) w))
      as (w' & Hrun & Hd & Ho & Hin & Hout).
    exists w'. split; [exact Hrun|]. split; [exact Hd|]. split; [exact Ho|]. split.
    + intros h Hh. destruct (in_dec string_dec h rest) as [Hr|Hr]; [now apply Hin|].
      destruct Hh as [<-|Hh]; [|contradiction].
      rewrite (Hout _ Hr). cbn [levels set_levels userlevels.SetUserLevelByHostmask
        userlevels.hostmaskUsers]. apply lookup_insert_eq.
    + intros h Hh. rewrite Hout by (intros Hr; apply Hh; now right).
      cbn [levels set_levels userlevels.SetUserLevelByHostmask userlevels.hostmaskUsers].
      apply lookup_insert_ne. intros ->. apply Hh. now left.
Qed.

(** What [!setlevel] of the owner achieves, for a user given by
    nickname.  Every hostmask of that nickname then resolves to the new
    level: those on record, which get it one by one, and any other, which
    gets it through the record of the nickname.  That includes the
    caller: an owner who sets their own nickname to [ignored] passes no
    permission check afterwards.  Records of other nicknames are not
    touched, and the levels are saved. *)
Theorem setLevelCmd_by_the_owner (w : World) (m : irc.Message)
    (target levelWord : string) (rest : list string) (level : Z) :
  irc.Params m <> [] ->
  HasPermission w (irc.String (irc.prefix m)) userlevels.Owner = true ->
  commands.levelOfWord (strings.ToLower (unicode w) levelWord) = Some level ->
  strings.containsByte target "!" = false ->
  exists w',
    commands.setLevelCmd m (target :: levelWord :: rest) w = Some (tt, w')
    /\ (forall hostmask, strings.HasPrefix hostmask (target ++ "!") = true ->
          GetUserLevelByHostmask w' hostmask = level)
    /\ (level = userlevels.Ignored ->
        strings.HasPrefix (irc.String (irc.prefix m)) (target ++ "!") = true ->
        forall required, HasPermission w' (irc.String (irc.prefix m)) required = false)
    /\ (forall hostmask, strings.HasPrefix hostmask (target ++ "!") = false ->
          userlevels.hostmaskUsers (levels w') !! hostmask
          = userlevels.hostmaskUsers (levels w) !! hostmask)
    /\ disk w' = snd (userlevels.SaveHostmasks (levels w') (disk w)).
Proof.
  intros Hparams Hperm Hlevel Hbang.
  unfold commands.setLevelCmd, param0.
  destruct (irc.Params m) as [|target0 ps]; [congruence|].
  unfold bind at 1, ret at 1. unfold bind at 1, get at 1. cbv zeta.
  rewrite Hlevel, Hperm. cbn [negb].
  set (all := userlevels.GetAllHostmasks (disk w) (levels w)).
  set (targets := List.filter (fun hostmask => strings.HasPrefix hostmask (target ++ "!"))
                              (List.map fst (map_to_list all))).
  set (replyTarget := if String.eqb target0 (CurrentNick w)
                      then irc.Name (irc.prefix m) else target0).
  set (stage := match targets with
                | [] => _
                | _ :: _ => _
                end).
  assert (Hstage : exists w1,
             stage w = Some (tt, w1) /\ disk w1 = disk w
             /\ (forall h, In h targets \/ h = target ++ "!*@*" ->
                   userlevels.hostmaskUsers (levels w1) !! h = Some level)
             /\ (forall h, ~ In h targets -> h <> target ++ "!*@*" ->
                   userlevels.hostmaskUsers (levels w1) !! h
                   = userlevels.hostmaskUsers (levels w) !! h)
             /\ userlevels.users (levels w1) !! target = Some level).
  { subst stage. destruct targets as [|first others] eqn:Ht.
    - eexists. split; [reflexivity|]. cbn. split; [reflexivity|]. split; [|split].
      + intros h [[]| ->]. apply lookup_insert_eq.
      + intros h _ Hne. now rewrite !lookup_insert_ne by congruence.
      + apply lookup_insert_eq.
    - destruct (setEach_levels (first :: others) level w)
        as (w0 & Hrun & Hd & _ & Hin & Hout).
      unfold bind at 1. rewrite Hrun.
      eexists. split; [reflexivity|]. cbn. split; [exact Hd|]. split; [|split].
      + intros h [Hh| ->]; [|apply lookup_insert_eq].
        destruct (decide (target ++ "!*@*" = h)) as [<-|Hne]; [apply lookup_insert_eq|].
        rewrite lookup_insert_ne by exact Hne. now apply Hin.
      + intros h Hh Hne. rewrite lookup_insert_ne by congruence. now apply Hout.
      + apply lookup_insert_eq. }
  destruct Hstage as (w1 & Hrun1 & Hdisk1 & Hset & Hkeep & Huser).
  unfold bind at 1. rewrite Hrun1. unfold bind at 1, SaveHostmasks. rewrite Hdisk1.
  destruct (userlevels.SaveHostmasks (levels w1) (disk w)) as [ok d] eqn:Hsave.
  assert (Hresolve : forall hostmask,
             strings.HasPrefix hostmask (target ++ "!") = true ->
             userlevels.GetUserLevelByHostmask d (levels w1) hostmask = level).
  { intros hostmask Hp. unfold userlevels.GetUserLevelByHostmask.
    assert (Hdec : (In hostmask targets \/ hostmask = target ++ "!*@*")
                   \/ ~ (In hostmask targets \/ hostmask = target ++ "!*@*")).
    { destruct (in_dec string_dec hostmask targets) as [Hin|Hnin]; [now left; left|].
      destruct (string_dec hostmask (target ++ "!*@*")) as [He|Hne]; [now left; right|].
      right. tauto. }
    destruct Hdec as [Hin|Hnot].
    - now rewrite (Hset hostmask Hin).
    - assert (Hnone : all !! hostmask = None).
      { destruct (all !! hostmask) as [l|] eqn:Hl; [|reflexivity].
        elim Hnot. left. subst targets. apply List.filter_In. split; [|exact Hp].
        apply in_map_iff. exists (hostmask, l). split; [reflexivity|].
        apply list_elem_of_In, elem_of_map_to_list. exact Hl. }
      rewrite Hkeep by tauto. rewrite owner_test.
      subst all. rewrite GetAllHostmasks_verifiedOwner in Hnone.
      assert (Hold : userlevels.hostmaskUsers (levels w) !! hostmask = None
                     /\ verifiedOwner (disk w) <> Some hostmask).
      { destruct (verifiedOwner (disk w)) as [owner|]; [|split; [exact Hnone | discriminate]].
        apply lookup_insert_None in Hnone as [Hbase Hne]. split; [exact Hbase | congruence]. }
      destruct Hold as [-> Howner].
      rewrite bool_decide_eq_false_2.
      + rewrite (nickOf_prefix target hostmask Hbang Hp). now rewrite Huser.
      + pose proof (SaveHostmasks_verifiedOwner (levels w1) (disk w)) as Hv.
        rewrite Hsave in Hv. cbn [snd] in Hv. destruct Hv as [-> | ->];
          [exact Howner | discriminate]. }
  assert (Hothers : forall hostmask,
             strings.HasPrefix hostmask (target ++ "!") = false ->
             userlevels.hostmaskUsers (levels w1) !! hostmask
             = userlevels.hostmaskUsers (levels w) !! hostmask).
  { intros hostmask Hp. apply Hkeep.
    - subst targets. intros Hin. apply List.filter_In in Hin as [_ Hin]. congruence.
    - intros ->. rewrite HasPrefix_append in Hp. discriminate. }
  destruct ok; cbn [negb]; eexists; (split; [reflexivity|]);
    unfold GetUserLevelByHostmask, HasPermission, userlevels.HasPermission;
    cbn [levels disk set_out set_disk set_levels out];
    (split; [exact Hresolve|]);
    (split; [intros -> Hp required; now rewrite (Hresolve _ Hp)|]);
    (split; [exact Hothers|]);
    now rewrite Hsave.
Qed.

Lemma setLevelCmd_by_the_owner_witness :
  exists w',
    commands.setLevelCmd (scenario.line scenario.alice "#chan" "!setlevel alice ignored")
      ["alice"; "ignored"] scenes.ownerWorld = Some (tt, w')
    /\ GetUserLevelByHostmask w' "alice!al@home.example" = userlevels.Ignored
    /\ HasPermission w' (irc.String scenario.alice) userlevels.Regular = false.
Proof.
  destruct (setLevelCmd_by_the_owner scenes.ownerWorld
              (scenario.line scenario.alice "#chan" "!setlevel alice ignored")
              "alice" "ignored" [] userlevels.Ignored
              ltac:(discriminate) ltac:(vm_compute; reflexivity) eq_refl eq_refl)
    as (w' & Hrun & Hresolve & Hlocked & _).
  exists w'. split; [exact Hrun|]. split.
  - apply Hresolve. reflexivity.
  - apply (Hlocked eq_refl eq_refl).
Defined.

Lemma setLevelCmd_needs_the_owner_witness :
  HasPermission scenes.ownerWorld (irc.String scenario.alice) userlevels.Owner = true
  /\ exists target levelWord rest level,
       ["bob"; "admin"] = target :: levelWord :: rest
       /\ commands.levelOfWord (strings.ToLower (unicode scenes.ownerWorld) levelWord) = Some level.
Proof.
  apply (setLevelCmd_needs_the_owner scenes.ownerWorld
           (match commands.setLevelCmd
                    (scenario.line scenario.alice "#chan" "!setlevel bob admin")
                    ["bob"; "admin"] scenes.ownerWorld with
            | Some (_, w') => w'
            | None => scenes.ownerWorld
            end)
           (scenario.line scenario.alice "#chan" "!setlevel bob admin") ["bob"; "admin"]).
  - vm_compute. reflexivity.
  - left. intros Heq.
    apply (f_equal (fun st => userlevels.hostmaskUsers st !! "bob!*@*")) in Heq.
    vm_compute in Heq. discriminate.
Defined.

(** ** Splitting long replies *)

Lemma scanDown_found (found : Z -> bool) (lowest : Z) (steps : nat) (i j : Z) :
  commands.scanDown found lowest i steps = Some j ->
  lowest <= j <= i /\ 0 < j /\ found j = true.
Proof.
  revert i. induction steps as [|steps IH]; intros i; [discriminate|].
  cbn [commands.scanDown].
  destruct (Z.leb_spec lowest i); [|discriminate].
  destruct (Z.ltb_spec 0 i); [|discriminate]. cbn [andb].
  destruct (found i) eqn:Hf.
  - intros [= <-]. repeat split; (lia || exact Hf).
  - intros Hs. destruct (IH _ Hs) as (Hj & Hpos & Hfj).
    split; [lia|]. split; [exact Hpos | exact Hfj].
Qed.

Lemma scanDown_fuel (found : Z -> bool) (lowest : Z) (steps extra : nat) (i : Z) :
  i - lowest < Z.of_nat steps ->
  commands.scanDown found lowest i (steps + extra) = commands.scanDown found lowest i steps.
Proof.
  revert i. induction steps as [|steps IH]; intros i Hi.
  - cbn [Nat.add commands.scanDown]. destruct extra; [reflexivity|].
    cbn [commands.scanDown]. destruct (Z.leb_spec lowest i); [lia | reflexivity].
  - cbn [Nat.add commands.scanDown].
    destruct ((lowest <=? i)%Z && (0 <? i)%Z); [|reflexivity].
    destruct (found i); [reflexivity|]. apply IH. lia.
Qed.

(** Where [findBreakPoint] breaks.  A text that fits is not broken.  A
    longer one, for a positive limit, is broken at a point that is at
    least 1 and no more than 49 below the limit, inside the text, and up
    to 2 beyond the limit: the piece before it can be longer than the
    limit by two bytes.  For a limit of zero or less the answer is the
    limit itself, which is no index of the text.  The 51 turns the loops
    are given here are all they can make. *)
Theorem findBreakPoint_bounds (text : string) (maxLength : Z) :
  let len := Z.of_nat (String.length text) in
  let r := commands.findBreakPoint text maxLength in
  (len <= maxLength -> r = len)
  /\ (maxLength < len -> 0 < maxLength ->
      1 <= r <= len /\ maxLength - 49 <= r <= maxLength + 2)
  /\ (maxLength < len -> maxLength <= 0 -> r = maxLength)
  /\ (forall found extra,
        commands.scanDown found (maxLength - 50) maxLength (51 + extra)
        = commands.scanDown found (maxLength - 50) maxLength 51).
Proof.
  cbv zeta. unfold commands.findBreakPoint. cbv zeta.
  set (len := Z.of_nat (String.length text)).
  split; [|split; [|split]].
  - intros Hfit. destruct (Z.leb_spec len maxLength); [reflexivity | lia].
  - intros Hlong Hpos. destruct (Z.leb_spec len maxLength); [lia|].
    repeat match goal with
           | |- context [match commands.scanDown ?f ?lo ?i ?n with _ => _ end] =>
               let E := fresh "E" in
               destruct (commands.scanDown f lo i n) as [?|] eqn:E;
               [apply scanDown_found in E as (? & ? & Hf);
                repeat (apply andb_true_iff in Hf as [Hf ?]);
                repeat match goal with
                       | H : (_ <? _)%Z = true |- _ => apply Z.ltb_lt in H
                       end;
                lia|]
           end.
    lia.
  - intros Hlong Hneg. destruct (Z.leb_spec len maxLength); [lia|].
    assert (Hnone : forall found,
               commands.scanDown found (maxLength - 50) maxLength 51 = None).
    { intros found. cbn [commands.scanDown].
      destruct (Z.ltb_spec 0 maxLength); [lia|]. now rewrite andb_false_r. }
    now rewrite !Hnone.
  - intros found extra. apply scanDown_fuel. lia.
Qed.

Lemma findBreakPoint_bounds_witness :
  commands.findBreakPoint "one two" 400 = 7
  /\ 1 <= commands.findBreakPoint "Stop. Go on, then" 4 <= 6
  /\ commands.findBreakPoint "abc" 0 = 0.
Proof.
  split; [|split].
  - apply (proj1 (findBreakPoint_bounds "one two" 400)). vm_compute. discriminate.
  - destruct (proj1 (proj2 (findBreakPoint_bounds "Stop. Go on, then" 4))) as [H1 H2].
    + vm_compute. reflexivity.
    + reflexivity.
    + lia.
  - apply (proj1 (proj2 (proj2 (findBreakPoint_bounds "abc" 0)))).
    + vm_compute. reflexivity.
    + discriminate.
Defined.

(** ** Channel settings *)

(** [UpdateChannelSetting] and [GetChannelSetting].  The value written
    for a key of a channel is the one read back; the other keys of the
    channel and everything of the other channels read as before, the
    default where nothing was written; and the command policy of no
    channel changes, the one updated included. *)
Theorem UpdateChannelSetting_then_GetChannelSetting (cfg : config.Config)
    (channel key : string) (value : config.SettingValue) :
  let cfg' := config.UpdateChannelSetting cfg channel key value in
  (forall defaultValue, config.GetChannelSetting cfg' channel key defaultValue = value)
  /\ (forall otherKey defaultValue, otherKey <> key ->
        config.GetChannelSetting cfg' channel otherKey defaultValue
        = config.GetChannelSetting cfg channel otherKey defaultValue)
  /\ (forall otherChannel, otherChannel <> channel ->
        config.GetChannelConfig cfg' otherChannel = config.GetChannelConfig cfg otherChannel)
  /\ (forall anyChannel commandName,
        config.IsCommandEnabledForChannel cfg' anyChannel commandName
        = config.IsCommandEnabledForChannel cfg anyChannel commandName).
Proof.
  cbv zeta.
  assert (Hother : forall otherChannel, otherChannel <> channel ->
             config.GetChannelConfig (config.UpdateChannelSetting cfg channel key value)
               otherChannel
             = config.GetChannelConfig cfg otherChannel).
  { intros otherChannel Hne. unfold config.GetChannelConfig, config.UpdateChannelSetting.
    cbn [config.ChannelSettings]. now rewrite lookup_insert_ne by congruence. }
  assert (Hsame : config.GetChannelConfig (config.UpdateChannelSetting cfg channel key value)
                    channel
                  = {| config.EnabledCommands :=
                         config.EnabledCommands (config.GetChannelConfig cfg channel);
                       config.DisabledCommands :=
                         config.DisabledCommands (config.GetChannelConfig cfg channel);
                       config.ChannelConfig_Settings :=
                         <[key := value]>
                           (config.ChannelConfig_Settings
                              (config.GetChannelConfig cfg channel)) |}).
  { unfold config.GetChannelConfig, config.UpdateChannelSetting.
    cbn [config.ChannelSettings]. now rewrite lookup_insert_eq. }
  split; [|split; [|split]].
  - intros defaultValue. unfold config.GetChannelSetting. rewrite Hsame.
    cbn [config.ChannelConfig_Settings]. now rewrite lookup_insert_eq.
  - intros otherKey defaultValue Hne. unfold config.GetChannelSetting. rewrite Hsame.
    cbn [config.ChannelConfig_Settings]. now rewrite lookup_insert_ne by congruence.
  - exact Hother.
  - intros anyChannel commandName. unfold config.IsCommandEnabledForChannel. cbv zeta.
    destruct (decide (anyChannel = channel)) as [->|Hne].
    + rewrite Hsame. reflexivity.
    + now rewrite Hother.
Qed.

Lemma UpdateChannelSetting_then_GetChannelSetting_witness :
  let cfg' := config.UpdateChannelSetting scenario.botConfig "#quiet"
                "use_ai_for_mentions" (config.VBool false) in
  config.GetChannelSetting cfg' "#quiet" "greeting" (config.VString "hi")
  = config.GetChannelSetting scenario.botConfig "#quiet" "greeting" (config.VString "hi")
  /\ config.GetChannelConfig cfg' "#chan" = config.GetChannelConfig scenario.botConfig "#chan".
Proof.
  cbv zeta. split.
  - apply (proj1 (proj2 (UpdateChannelSetting_then_GetChannelSetting scenario.botConfig
                           "#quiet" "use_ai_for_mentions" (config.VBool false)))).
    discriminate.
  - apply (proj1 (proj2 (proj2 (UpdateChannelSetting_then_GetChannelSetting
                                  scenario.botConfig "#quiet" "use_ai_for_mentions"
                                  (config.VBool false))))).
    discriminate.
Defined.

(** ** What the modules are given (package [api]) *)

Lemma containsByte_append (s t : string) (c : ascii) :
  strings.containsByte (s ++ t) c = strings.containsByte s c || strings.containsByte t c.
Proof.
  induction s as [|d s IH]; [reflexivity|].
  change (strings.containsByte (String d (s ++ t)) c
          = strings.containsByte (String d s) c || strings.containsByte t c).
  cbn [strings.containsByte]. now rewrite IH, orb_assoc.
Qed.

Lemma between_within (lo hi lo' hi' : N) (c : ascii) :
  (lo' <= lo)%N -> (hi <= hi')%N ->
  utf8.between lo hi c = true -> utf8.between lo' hi' c = true.
Proof.
  unfold utf8.between. cbv zeta. intros Hlo Hhi H.
  apply andb_true_iff in H as [H1 H2]. apply N.leb_le in H1, H2.
  apply andb_true_iff. split; apply N.leb_le; lia.
Qed.

(** A byte that continues a rune is no ASCII byte. *)
Lemma continuation_byte (c d : ascii) :
  utf8.between 128 191 c = true -> (N_of_ascii d < 128)%N -> Ascii.eqb d c = false.
Proof.
  unfold utf8.between. cbv zeta. intros H Hd.
  apply andb_true_iff in H as [H1 _]. apply N.leb_le in H1.
  apply Ascii.eqb_neq. intros ->. lia.
Qed.

(** After the head of a valid encoding come the bytes that continue it. *)
Lemma decodeWidth_continuation (c : ascii) (rest : string) (width' : nat) :
  utf8.decodeWidth (String c rest) = S width' -> continuation rest width' = true.
Proof.
  unfold utf8.decodeWidth. cbv zeta.
  assert (Hacc : forall ranges s,
             Forall (fun r => (128 <= fst r)%N /\ (snd r <= 191)%N) ranges ->
             utf8.accepted ranges s = true -> continuation s (length ranges) = true).
  { induction ranges as [|[lo hi] ranges IH]; intros s Hr Ha; [reflexivity|].
    destruct s as [|b s]; [discriminate|]. cbn [utf8.accepted] in Ha.
    apply andb_true_iff in Ha as [Hb Ha]. inversion Hr as [|? ? [Hlo Hhi] Hr']; subst.
    cbn [length continuation]. apply andb_true_iff. split.
    - exact (between_within lo hi 128 191 b Hlo Hhi Hb).
    - now apply IH. }
  destruct (N_of_ascii c <? 128)%N; [now intros [= <-]|].
  destruct (N_of_ascii c <? 194)%N; [discriminate|].
  destruct (N_of_ascii c <? 224)%N.
  { destruct (utf8.accepted _ rest) eqn:Ha; [|discriminate]. intros [= <-].
    refine (Hacc _ _ _ Ha). repeat constructor; cbn; lia. }
  destruct (N_of_ascii c <? 240)%N.
  { destruct (utf8.accepted _ rest) eqn:Ha; [|discriminate]. intros [= <-].
    refine (Hacc _ _ _ Ha).
    destruct (N_of_ascii c =? 224)%N; [|destruct (N_of_ascii c =? 237)%N];
      repeat constructor; cbn; lia. }
  destruct (N_of_ascii c <? 245)%N; [|discriminate].
  destruct (utf8.accepted _ rest) eqn:Ha; [|discriminate]. intros [= <-].
  refine (Hacc _ _ _ Ha).
  destruct (N_of_ascii c =? 240)%N; [|destruct (N_of_ascii c =? 244)%N];
    repeat constructor; cbn; lia.
Qed.

Lemma parseFrom_arguments (commandText currentArg : string) (inQuotes : bool)
    (pending : nat) :
  continuation commandText pending = true ->
  strings.containsByte currentArg api.quote = false ->
  Forall (fun arg => arg <> "" /\ strings.containsByte arg api.quote = false)
         (api.parseFrom commandText currentArg inQuotes pending).
Proof.
  revert currentArg inQuotes pending.
  induction commandText as [|char rest IH]; intros currentArg inQuotes pending Hcont Hcur.
  - cbn [api.parseFrom]. destruct (String.eqb_spec currentArg ""); [constructor|].
    now repeat constructor.
  - cbn [api.parseFrom]. destruct pending as [|pending'].
    + destruct (Ascii.eqb_spec char api.quote) as [->|Hq]; [now apply IH|].
      assert (Hchar : strings.containsByte (currentArg ++ String char "") api.quote = false).
      { rewrite containsByte_append, Hcur. cbn [strings.containsByte orb].
        rewrite orb_false_r. apply Ascii.eqb_neq. congruence. }
      destruct (Ascii.eqb_spec char " ") as [->|Hs].
      * destruct inQuotes.
        -- now apply IH.
        -- destruct (String.eqb_spec currentArg ""); [now apply IH|].
           constructor; [now split|]. now apply IH.
      * destruct (utf8.decodeWidth (String char rest)) as [|width'] eqn:Hw.
        -- apply IH; [reflexivity|]. now rewrite containsByte_append, Hcur.
        -- apply IH; [|exact Hchar]. exact (decodeWidth_continuation _ _ _ Hw).
    + cbn [continuation] in Hcont. apply andb_true_iff in Hcont as [Hbyte Hcont].
      apply IH; [exact Hcont|]. rewrite containsByte_append, Hcur.
      cbn [strings.containsByte orb]. rewrite orb_false_r.
      apply continuation_byte; [exact Hbyte | vm_compute; reflexivity].
Qed.

Lemma parseFrom_unquoted (commandText currentArg : string) (pending : nat) :
  continuation commandText pending = true ->
  strings.containsByte commandText api.quote = false ->
  strings.containsByte currentArg " " = false ->
  Forall (fun arg => strings.containsByte arg " " = false)
         (api.parseFrom commandText currentArg false pending).
Proof.
  revert currentArg pending.
  induction commandText as [|char rest IH]; intros currentArg pending Hcont Hq Hcur.
  - cbn [api.parseFrom]. destruct (String.eqb currentArg ""); now repeat constructor.
  - cbn [strings.containsByte] in Hq. apply orb_false_iff in Hq as [Hchar Hrest].
    cbn [api.parseFrom]. destruct pending as [|pending'].
    + rewrite Ascii.eqb_sym, Hchar.
      destruct (Ascii.eqb_spec char " ") as [->|Hs].
      * destruct (String.eqb currentArg ""); [now apply IH|].
        constructor; [exact Hcur|]. now apply IH.
      * destruct (utf8.decodeWidth (String char rest)) as [|width'] eqn:Hw.
        -- apply IH; [reflexivity | exact Hrest|].
           now rewrite containsByte_append, Hcur.
        -- apply IH; [exact (decodeWidth_continuation _ _ _ Hw) | exact Hrest|].
           rewrite containsByte_append, Hcur. cbn [strings.containsByte orb].
           rewrite orb_false_r. apply Ascii.eqb_neq. congruence.
    + cbn [continuation] in Hcont. apply andb_true_iff in Hcont as [Hbyte Hcont].
      apply IH; [exact Hcont | exact Hrest|]. rewrite containsByte_append, Hcur.
      cbn [strings.containsByte orb]. rewrite orb_false_r.
      apply continuation_byte; [exact Hbyte | vm_compute; reflexivity].
Qed.

Lemma parseFrom_open_quote (rest currentArg : string) (pending : nat) :
  strings.containsByte rest api.quote = false ->
  utf8.validFrom rest pending = true ->
  api.parseFrom rest currentArg true pending
  = if String.eqb (currentArg ++ rest) "" then [] else [currentArg ++ rest].
Proof.
  revert currentArg pending.
  induction rest as [|char rest IH]; intros currentArg pending Hq Hvalid.
  - rewrite string_append_nil_r. reflexivity.
  - cbn [strings.containsByte] in Hq. apply orb_false_iff in Hq as [Hchar Hrest].
    assert (Hstep : (currentArg ++ String char "") ++ rest = currentArg ++ String char rest)
      by (now rewrite string_append_assoc).
    cbn [api.parseFrom utf8.validFrom] in Hvalid |- *. destruct pending as [|pending'].
    + rewrite Ascii.eqb_sym, Hchar.
      destruct (utf8.decodeWidth (String char rest)) as [|width'] eqn:Hw; [discriminate|].
      destruct (Ascii.eqb_spec char " ") as [->|Hs].
      * injection Hw as <-. rewrite (IH _ _ Hrest Hvalid). now rewrite Hstep.
      * rewrite (IH _ _ Hrest Hvalid). now rewrite Hstep.
    + rewrite (IH _ _ Hrest Hvalid). now rewrite Hstep.
Qed.

(** [ParseCommandArgs].  No argument it returns is empty and none holds
    a quote, so that an empty pair of quotes gives no argument; in a text
    without quotes no argument holds a space; a quote that is never
    closed takes the rest of the text, spaces included, into one
    argument, as it stands when it is valid UTF-8; and a byte that starts
    no valid encoding comes out as U+FFFD. *)
Theorem ParseCommandArgs_arguments (commandText : string) :
  Forall (fun arg => arg <> "" /\ strings.containsByte arg api.quote = false)
         (api.ParseCommandArgs commandText)
  /\ (strings.containsByte commandText api.quote = false ->
      Forall (fun arg => strings.containsByte arg " " = false)
             (api.ParseCommandArgs commandText))
  /\ (forall rest, commandText = String api.quote rest ->
        strings.containsByte rest api.quote = false ->
        utf8.ValidString rest = true ->
        rest <> "" ->
        api.ParseCommandArgs commandText = [rest])
  /\ api.ParseCommandArgs (String api.quote (String (ascii_of_nat 255) ""))
     = [utf8.RuneError].
Proof.
  unfold api.ParseCommandArgs. split; [|split; [|split]].
  - now apply parseFrom_arguments.
  - intros Hq. now apply parseFrom_unquoted.
  - intros rest -> Hq Hvalid Hne. cbn [api.parseFrom]. rewrite Ascii.eqb_refl. cbn [negb].
    rewrite (parseFrom_open_quote rest "" 0 Hq Hvalid).
    change ("" ++ rest) with rest.
    now destruct (String.eqb_spec rest "").
  - reflexivity.
Qed.

Lemma ParseCommandArgs_arguments_witness :
  Forall (fun arg => strings.containsByte arg " " = false)
         (api.ParseCommandArgs "say  hello   world")
  /\ api.ParseCommandArgs (String api.quote "hello big world") = ["hello big world"].
Proof.
  split.
  - apply (proj1 (proj2 (ParseCommandArgs_arguments "say  hello   world"))). reflexivity.
  - apply (proj1 (proj2 (proj2 (ParseCommandArgs_arguments
                                  (String api.quote "hello big world"))))
             "hello big world" eq_refl).
    + reflexivity.
    + reflexivity.
    + discriminate.
Defined.

(** ** The first run *)

Lemma HandlePrivateMessage_pending (w : World) (m : irc.Message) :
  GetUserLevelByHostmask w (irc.String (irc.prefix m)) <> userlevels.Ignored ->
  messageExceeded (irc.String (irc.prefix m)) w = false ->
  handlers.checkPendingVerification w (irc.Name (irc.prefix m)) = true ->
  handlers.HandlePrivateMessage m w
  = handlers.handleOwnerVerification (irc.Name (irc.prefix m)) (irc.Trailing m) m
      (trackedMessage (irc.String (irc.prefix m)) w).
Proof.
  intros Hl Hrate Hpending. apply Z.eqb_neq in Hl.
  unfold handlers.HandlePrivateMessage, bind at 1, get.
  unfold GetUserLevelByHostmask in Hl |- *. rewrite Hl.
  unfold bind at 1, handlers.privateSpamProtection, bind at 1, TrackMessage.
  unfold messageExceeded in Hrate.
  destruct (security.TrackMessage _ _ _) as [[e c] t] eqn:Et.
  cbn [fst snd] in Hrate. subst e. cbn [fst ret].
  unfold bind at 1, get. unfold trackedMessage. rewrite Et. cbn [snd].
  change (handlers.checkPendingVerification (set_tracker t w) (irc.Name (irc.prefix m)))
    with (handlers.checkPendingVerification w (irc.Name (irc.prefix m))).
  now rewrite Hpending.
Qed.

Lemma handleOwnerVerification_accepts (w : World) (ownerNick message : string)
    (m : irc.Message) (passphraseHash : string) :
  strings.TrimSpace message = VerificationPassphrase w ->
  GenerateHash w (VerificationPassphrase w) = Some passphraseHash ->
  config.writable (disk w) = true ->
  exists w',
    handlers.handleOwnerVerification ownerNick message m w = Some (tt, w')
    /\ config.settings_file (disk w')
       = config.File (ownerSettings (irc.String (irc.prefix m)) passphraseHash)
    /\ PendingVerifications w' !! ownerNick = Some false
    /\ HasPermission w' (irc.String (irc.prefix m)) userlevels.Owner = true.
Proof.
  intros Hpass Hhash Hdisk.
  unfold handlers.handleOwnerVerification, bind at 1, get.
  rewrite Hpass, String.eqb_refl, Hhash.
  unfold bind at 1, SaveSettings, config.SaveSettings. rewrite Hdisk.
  cbn [negb]. unfold bind at 1 2, SetUserLevelByHostmask, handlers.SetPendingVerification,
    modify.
  match goal with
  | |- context [handlers.sendLines ?n ?l ?w0] =>
      destruct (sendLines_frame n l w0) as (es & ->); set (w1 := w0)
  end.
  eexists. split; [reflexivity|].
  assert (Hs : config.LoadSettings (disk w1)
               = Some (ownerSettings (irc.String (irc.prefix m)) passphraseHash))
    by reflexivity.
  assert (Hh : userlevels.hostmaskUsers (levels w1) !! irc.String (irc.prefix m)
               = Some userlevels.Owner)
    by (subst w1; cbn; apply lookup_insert_eq).
  assert (Hu : userlevels.users (levels w1) !! userlevels.nickOf (irc.String (irc.prefix m))
               = Some userlevels.Owner)
    by (subst w1; cbn; apply lookup_insert_eq).
  assert (Hp : PendingVerifications w1 !! ownerNick = Some false)
    by (subst w1; cbn; apply lookup_insert_eq).
  destruct (verified_owner_has_permission (unicode w1) _ _ _ _ Hs Hh Hu) as [_ Hperm].
  split; [reflexivity|]. split; [exact Hp | exact Hperm].
Qed.

(** The first run, from the request to the verified owner.
    [SendOwnerVerificationRequest] marks the nickname as pending and only
    writes to it; the levels and the settings stay.  When that nickname
    then answers in private with the passphrase, from a hostmask that is
    neither ignored nor over the message rate, the settings name that
    hostmask as the verified owner, so that the next start is no first run
    any more, the hostmask passes the owner check, and the nickname is no
    longer pending: a later private line of it is not taken for a
    passphrase. *)
Theorem first_run_handshake (w : World) (ownerNick : string) (m : irc.Message)
    (passphraseHash : string) :
  let hostmask := irc.String (irc.prefix m) in
  irc.Name (irc.prefix m) = ownerNick ->
  GetUserLevelByHostmask w hostmask <> userlevels.Ignored ->
  messageExceeded hostmask w = false ->
  strings.TrimSpace (irc.Trailing m) = VerificationPassphrase w ->
  GenerateHash w (VerificationPassphrase w) = Some passphraseHash ->
  config.writable (disk w) = true ->
  hostmask <> "" ->
  exists w1 w2 es,
    handlers.SendOwnerVerificationRequest ownerNick w = Some (tt, w1)
    /\ out w1 = (out w ++ es)%list /\ Forall (isReplyTo ownerNick) es
    /\ levels w1 = levels w /\ disk w1 = disk w
    /\ handlers.checkPendingVerification w1 ownerNick = true
    /\ handlers.HandlePrivateMessage m w1 = Some (tt, w2)
    /\ config.IsFirstRun (disk w2) = false
    /\ verifiedOwner (disk w2) = Some hostmask
    /\ HasPermission w2 hostmask userlevels.Owner = true
    /\ handlers.checkPendingVerification w2 ownerNick = false.
Proof.
  cbv zeta. intros Hname Hl Hrate Hpass Hhash Hdisk Hmask.
  assert (Hrequest : emitsOnly (isReplyTo ownerNick)
                       (handlers.SendOwnerVerificationRequest ownerNick)).
  { unfold handlers.SendOwnerVerificationRequest.
    apply emitsOnly_bind; [apply emitsOnly_SetPendingVerification|].
    intros _. apply emitsOnly_sendLines. }
  destruct (Hrequest w) as ([] & w1 & es & Hrun1 & Hout1 & Hes).
  assert (Hw1 : exists es', w1 = set_out (out w ++ es')%list
                                   (set_pending (<[ownerNick := true]> (PendingVerifications w))
                                      w)).
  { revert Hrun1. unfold handlers.SendOwnerVerificationRequest, bind,
      handlers.SetPendingVerification, modify.
    match goal with
    | |- context [handlers.sendLines ?n ?l ?w0] =>
        destruct (sendLines_frame n l w0) as (es' & ->)
    end.
    intros [= <-]. now exists es'. }
  destruct Hw1 as (es' & Hw1).
  assert (Hpending : handlers.checkPendingVerification w1 ownerNick = true).
  { subst w1. unfold handlers.checkPendingVerification. cbn [PendingVerifications set_out
      set_pending]. now rewrite lookup_insert_eq. }
  assert (Hprivate : handlers.HandlePrivateMessage m w1
                     = handlers.handleOwnerVerification (irc.Name (irc.prefix m))
                         (irc.Trailing m) m
                         (trackedMessage (irc.String (irc.prefix m)) w1)).
  { apply HandlePrivateMessage_pending.
    - subst w1. exact Hl.
    - subst w1. exact Hrate.
    - rewrite Hname. exact Hpending. }
  destruct (handleOwnerVerification_accepts
              (trackedMessage (irc.String (irc.prefix m)) w1)
              (irc.Name (irc.prefix m)) (irc.Trailing m) m passphraseHash)
    as (w2 & Hrun2 & Hfile & Hflag & Hperm).
  { subst w1. exact Hpass. }
  { subst w1. exact Hhash. }
  { subst w1. exact Hdisk. }
  exists w1, w2, es. split; [exact Hrun1|]. split; [exact Hout1|]. split; [exact Hes|].
  split; [now subst w1|]. split; [now subst w1|]. split; [exact Hpending|].
  split; [now rewrite Hprivate|].
  split; [unfold config.IsFirstRun, config.LoadSettings; now rewrite Hfile|].
  split.
  { unfold verifiedOwner, config.LoadSettings. rewrite Hfile.
    cbn [ownerSettings config.OwnerVerified config.OwnerHostmask andb].
    apply String.eqb_neq in Hmask. now rewrite Hmask. }
  split; [exact Hperm|].
  unfold handlers.checkPendingVerification. rewrite <- Hname. now rewrite Hflag.
Qed.

Lemma first_run_handshake_witness :
  exists w1 w2,
    handlers.SendOwnerVerificationRequest "alice" (scenario.world []) = Some (tt, w1)
    /\ handlers.HandlePrivateMessage handshake.goodReply w1 = Some (tt, w2)
    /\ config.IsFirstRun (disk (scenario.world [])) = true
    /\ config.IsFirstRun (disk w2) = false
    /\ verifiedOwner (disk w2) = Some "alice!al@home.example".
Proof.
  destruct (first_run_handshake (scenario.world []) "alice" handshake.goodReply
              "$argon2id$v=19$open sesame" eq_refl
              ltac:(vm_compute; discriminate) ltac:(vm_compute; reflexivity)
              eq_refl eq_refl eq_refl ltac:(discriminate))
    as (w1 & w2 & es & Hrun1 & _ & _ & _ & _ & _ & Hrun2 & Hfirst & Howner & _).
  exists w1, w2. split; [exact Hrun1|]. split; [exact Hrun2|].
  split; [reflexivity|]. split; [exact Hfirst | exact Howner].
Defined.

(** ** The lookup by nickname *)

Lemma EqualFold_ASCII (u : strings.Unicode) (s t : string) :
  strings.isASCII s = true -> strings.isASCII t = true ->
  strings.EqualFold u s t = String.eqb (strings.lowerASCII s) (strings.lowerASCII t).
Proof.
  revert t. induction s as [|sr s IH]; intros [|tr t]; try reflexivity.
  cbn [strings.isASCII]. intros Hs Ht.
  apply andb_true_iff in Hs as [Hsr Hs]. apply andb_true_iff in Ht as [Htr Ht].
  cbn [strings.EqualFold strings.lowerASCII String.eqb]. rewrite Hsr, Htr. cbn [andb negb].
  destruct (Ascii.eqb _ _); [now apply IH | reflexivity].
Qed.

(** [GetUserLevel] compares nicknames without regard to letter case, by
    [strings.EqualFold]: for ASCII nicknames that is ASCII letter case, and
    beyond ASCII it is what the case tables of Go make of the two.  A
    nickname that matches no stored one gets Regular; one that matches
    exactly one stored nickname gets the level stored for it, in whatever
    case it is asked for. *)
Theorem GetUserLevel_folds_case (u : strings.Unicode) (st : userlevels.State)
    (nick : string) :
  ((forall stored level, userlevels.users st !! stored = Some level ->
                         strings.EqualFold u stored nick = false) ->
   userlevels.GetUserLevel u st nick = userlevels.Regular)
  /\ (forall stored level,
        userlevels.users st !! stored = Some level ->
        strings.EqualFold u stored nick = true ->
        (forall other, is_Some (userlevels.users st !! other) ->
                       strings.EqualFold u other nick = true -> other = stored) ->
        userlevels.GetUserLevel u st nick = level)
  /\ (forall stored, strings.isASCII stored = true -> strings.isASCII nick = true ->
        strings.EqualFold u stored nick
        = String.eqb (strings.lowerASCII stored) (strings.lowerASCII nick))
  /\ (forall first stored, strings.isASCIIByte first = false -> nick <> "" ->
        strings.EqualFold u (String first stored) nick
        = strings.foldRunes u (String first stored) nick).
Proof.
  unfold userlevels.GetUserLevel. split; [|split; [|split]].
  - intros Hnone.
    destruct (List.find _ _) as [[stored level]|] eqn:Hfind; [|reflexivity].
    apply List.find_some in Hfind as [Hin Hfold].
    apply list_elem_of_In, elem_of_map_to_list in Hin.
    cbn [fst] in Hfold. rewrite (Hnone stored level Hin) in Hfold. discriminate.
  - intros stored level Hl Hfold Hunique.
    destruct (List.find _ _) as [[other level']|] eqn:Hfind.
    + apply List.find_some in Hfind as [Hin Hother].
      apply list_elem_of_In, elem_of_map_to_list in Hin. cbn [fst snd] in *.
      assert (other = stored) as -> by (apply Hunique; [now exists level' | exact Hother]).
      congruence.
    + pose proof (List.find_none _ _ Hfind (stored, level)) as Hno.
      cbn [fst] in Hno. rewrite Hfold in Hno.
      assert (Hin : In (stored, level) (map_to_list (userlevels.users st)))
        by (apply list_elem_of_In, elem_of_map_to_list; exact Hl).
      specialize (Hno Hin). discriminate.
  - intros stored. apply EqualFold_ASCII.
  - intros first stored Hfirst Hne. destruct nick as [|tr nick]; [congruence|].
    cbn [strings.EqualFold]. now rewrite Hfirst.
Qed.

Lemma GetUserLevel_folds_case_witness :
  let st := userlevels.SetUserLevel "Alice" userlevels.Admin
              {| userlevels.users := ∅; userlevels.hostmaskUsers := ∅ |} in
  userlevels.GetUserLevel scenario.tables st "bob" = userlevels.Regular
  /\ userlevels.GetUserLevel scenario.tables st "aLICE" = userlevels.Admin
  /\ strings.EqualFold scenario.tables "Alice" "aLICE" = true.
Proof.
  cbv zeta. split; [|split].
  - apply (proj1 (GetUserLevel_folds_case scenario.tables _ "bob")).
    intros stored level Hl. cbn [userlevels.SetUserLevel userlevels.users] in Hl.
    apply lookup_insert_Some in Hl as [[<- _]|[_ Hl]]; [reflexivity|].
    now rewrite lookup_empty in Hl.
  - apply (proj1 (proj2 (GetUserLevel_folds_case scenario.tables _ "aLICE"))
             "Alice" userlevels.Admin).
    + cbn [userlevels.SetUserLevel userlevels.users]. apply lookup_insert_eq.
    + reflexivity.
    + intros other [level Hl] _. cbn [userlevels.SetUserLevel userlevels.users] in Hl.
      apply lookup_insert_Some in Hl as [[<- _]|[_ Hl]]; [reflexivity|].
      now rewrite lookup_empty in Hl.
  - rewrite (proj1 (proj2 (proj2 (GetUserLevel_folds_case scenario.tables
               {| userlevels.users := ∅; userlevels.hostmaskUsers := ∅ |} "aLICE")))
               "Alice" eq_refl eq_refl).
    reflexivity.
Defined.
